(** * Pharmaceutical supply-chain analytics: the query and report facade

    A shallow embedding of [database_connection.py] (class
    [PharmaceuticalAnalytics]) and of the SQL text it sends to the server.

    Conventions of the embedding.
    - Python code that may raise returns a [result]; [try]/[except Exception]
      is [try_except].  Every exception modelled derives from [Exception].
    - Methods that assign to [self] are in the state-and-exception monad
      [method] ([connect_database], [close_connection]); the others only
      read [self].
    - A pandas [DataFrame] is a list of column labels and a list of rows; a
      cell is a Python value.  Python floats and SQL DECIMAL values are both
      exact rationals: rounding and the infinities are outside the model.
      SQL NULL reaches Python as pandas lays it out: NaN in a numeric column
      that also holds a number, [None] otherwise.
    - The database driver is a collaborator: a [Connection] carries the
      outcome of [pd.read_sql] for every query text.  The statements whose
      result a property depends on are evaluated over a [Database] further
      down.  Console output ([print]) is not modelled. *)

From Stdlib Require Import ZArith QArith Qround Qabs Lia Ascii.
From stdpp Require Import base option list strings gmap sorting pretty.

Local Open Scope Z_scope.

(** ** Python runtime *)

(** Exceptions the modelled code can meet.  [MySQLError] stands for
    [mysql.connector.Error] and its subclasses, [DatabaseError] for what
    [pd.read_sql] raises when the statement cannot be executed. *)
Inductive exn : Type :=
| KeyError (key : string)
| IndexError
| TypeError
| ValueError
| ZeroDivisionError
| AttributeError
| MySQLError (msg : string)
| DatabaseError (msg : string).

Inductive result (A : Type) : Type :=
| Ok (a : A)
| Raise (e : exn).
Arguments Ok {A} a.
Arguments Raise {A} e.

Definition result_bind {A B} (f : A -> result B) (m : result A) : result B :=
  match m with
  | Ok a => f a
  | Raise e => Raise e
  end.

#[export] Instance result_ret : MRet result := fun A a => Ok a.
#[export] Instance result_mbind : MBind result := fun A B f m => result_bind f m.

(** [try: body  except Exception as e: handler e] *)
Definition try_except {A} (body : result A) (handler : exn -> result A) : result A :=
  match body with
  | Ok a => Ok a
  | Raise e => handler e
  end.

(** Python values that reach the modelled code. *)
Inductive value : Type :=
| VNone
| VInt (z : Z)
| VFloat (q : Q)
| VNaN
| VStr (s : string)
| VDate (day : Z).

(** What the interpreter and the clock contribute: the number parsers
    behind [float(s)] and [int(s)], the renderings behind the format
    specifications [:,.2f] and [:,] and behind [str], and the timestamp
    [datetime.now().strftime('%Y-%m-%d %H:%M:%S')]. *)
Class Runtime : Type := {
  float_of_str : string -> option Q;
  int_of_str : string -> option Z;
  render_2f : Q -> string;
  render_comma_int : Z -> string;
  render_comma_float : Q -> string;
  str_int : Z -> string;
  str_float : Q -> string;
  str_date : Z -> string;
  now_strftime : string
}.

(** [int(q)] on a float truncates towards zero. *)
Definition Qtrunc (q : Q) : Z := Z.quot (Qnum q) (Zpos (Qden q)).

(** [float(x)] *)
Definition float {RT : Runtime} (x : value) : result value :=
  match x with
  | VInt z => Ok (VFloat (inject_Z z))
  | VFloat q => Ok (VFloat q)
  | VNaN => Ok VNaN
  | VStr s => match float_of_str s with
              | Some q => Ok (VFloat q)
              | None => Raise ValueError
              end
  | VNone | VDate _ => Raise TypeError
  end.

(** [int(x)] *)
Definition int {RT : Runtime} (x : value) : result value :=
  match x with
  | VInt z => Ok (VInt z)
  | VFloat q => Ok (VInt (Qtrunc q))
  | VNaN => Raise ValueError
  | VStr s => match int_of_str s with
              | Some z => Ok (VInt z)
              | None => Raise ValueError
              end
  | VNone | VDate _ => Raise TypeError
  end.

(** The number a value denotes in arithmetic, if it denotes one: NaN, a
    float, denotes none. *)
Definition number (x : value) : option Q :=
  match x with
  | VInt z => Some (inject_Z z)
  | VFloat q => Some q
  | _ => None
  end.

(** An [int] or a [float], NaN included. *)
Definition numeric (x : value) : bool :=
  match x with
  | VInt _ | VFloat _ | VNaN => true
  | _ => false
  end.

(** [a > b] on ints and floats, false when a side is NaN; [TypeError]
    otherwise. *)
Definition gt (a b : value) : result bool :=
  match number a, number b with
  | Some x, Some y => Ok (negb (Qle_bool x y))
  | _, _ => if numeric a && numeric b then Ok false else Raise TypeError
  end.

(** [a / b]: true division, always a float, NaN when a side is NaN;
    [ZeroDivisionError] on a zero divisor. *)
Definition truediv (a b : value) : result value :=
  match number a, number b with
  | Some x, Some y =>
      if Qeq_bool y 0 then Raise ZeroDivisionError else Ok (VFloat (x / y))
  | None, Some y =>
      if numeric a
      then if Qeq_bool y 0 then Raise ZeroDivisionError else Ok VNaN
      else Raise TypeError
  | _, None => if numeric a && numeric b then Ok VNaN else Raise TypeError
  end.

(** [f"{x:,.2f}"] *)
Definition format_2f {RT : Runtime} (x : value) : result string :=
  match x with
  | VInt z => Ok (render_2f (inject_Z z))
  | VFloat q => Ok (render_2f q)
  | VNaN => Ok "nan"
  | VStr _ => Raise ValueError
  | VNone | VDate _ => Raise TypeError
  end.

(** [f"{x:,}"] *)
Definition format_comma {RT : Runtime} (x : value) : result string :=
  match x with
  | VInt z => Ok (render_comma_int z)
  | VFloat q => Ok (render_comma_float q)
  | VNaN => Ok "nan"
  | VStr _ => Raise ValueError
  | VNone | VDate _ => Raise TypeError
  end.

(** [f"{x}"] *)
Definition str {RT : Runtime} (x : value) : string :=
  match x with
  | VNone => "None"
  | VInt z => str_int z
  | VFloat q => str_float q
  | VNaN => "nan"
  | VStr s => s
  | VDate d => str_date d
  end.

(** [s * n] *)
Fixpoint str_mul (s : string) (n : nat) : string :=
  match n with
  | O => ""
  | S n' => s +:+ str_mul s n'
  end.

(** [sep.join(parts)] *)
Fixpoint join (sep : string) (parts : list string) : string :=
  match parts with
  | [] => ""
  | [p] => p
  | p :: rest => p +:+ sep +:+ join sep rest
  end.

Definition newline : string := String (Ascii.ascii_of_nat 10) "".

(** [d[key]] on a dictionary *)
Definition dict_get (d : gmap string value) (key : string) : result value :=
  match d !! key with
  | Some v => Ok v
  | None => Raise (KeyError key)
  end.

(** ** pandas *)

Record DataFrame : Type := mkDataFrame {
  columns : list string;
  rows : list (list value)
}.

(** A row handed out by [iloc] or [iterrows]: labels and values. *)
Record Series : Type := mkSeries {
  index : list string;
  values : list value
}.

(** [pd.DataFrame()] *)
Definition DataFrame_new : DataFrame := mkDataFrame [] [].

(** [df.empty]: some axis has length zero. *)
Definition empty (df : DataFrame) : bool :=
  match columns df, rows df with
  | [], _ => true
  | _, [] => true
  | _, _ => false
  end.

(** Position-wise lookup of a label; a row shorter than the header reads
    as [None] beyond its end. *)
Fixpoint lookup_label (idx : list string) (vals : list value) (key : string)
  : result value :=
  match idx with
  | [] => Raise (KeyError key)
  | k :: idx' =>
      if String.eqb k key then Ok (hd VNone vals)
      else lookup_label idx' (tl vals) key
  end.

(** [row[key]] *)
Definition getitem (row : Series) (key : string) : result value :=
  lookup_label (index row) (values row) key.

(** [df.iloc[0]] *)
Definition iloc0 (df : DataFrame) : result Series :=
  match rows df with
  | [] => Raise IndexError
  | r :: _ => Ok (mkSeries (columns df) r)
  end.

(** [df.head(n)] *)
Definition df_head (n : nat) (df : DataFrame) : DataFrame :=
  mkDataFrame (columns df) (firstn n (rows df)).

(** [df.iterrows()], the rows only *)
Definition iterrows (df : DataFrame) : list Series :=
  map (mkSeries (columns df)) (rows df).

(** [df[key]]: the column, or [KeyError] when the label is unknown. *)
Definition column (df : DataFrame) (key : string) : result (list value) :=
  if existsb (String.eqb key) (columns df)
  then Ok (map (fun r => match lookup_label (columns df) r key with
                         | Ok c => c
                         | Raise _ => VNone
                         end) (rows df))
  else Raise (KeyError key).

(** [x == s] for a string [s] *)
Definition value_is (s : string) (x : value) : bool :=
  match x with
  | VStr t => String.eqb t s
  | _ => false
  end.

(** [series.isin(labels)] *)
Definition isin (labels : list string) (col : list value) : list bool :=
  map (fun x => existsb (fun s => value_is s x) labels) col.

(** Rows kept by a boolean mask. *)
Fixpoint select (rs : list (list value)) (mask : list bool) : list (list value) :=
  match rs, mask with
  | r :: rs', b :: mask' => if b then r :: select rs' mask' else select rs' mask'
  | _, _ => []
  end.

(** [df[mask]]: boolean indexing *)
Definition mask_rows (df : DataFrame) (mask : list bool) : DataFrame :=
  mkDataFrame (columns df) (select (rows df) mask).

(** ** The statements sent to the server

    The query texts, character for character. *)

(** [revenue_query] in [get_executive_summary] *)
Definition revenue_query : string :=
"SELECT SUM(Total_cost) as total_revenue FROM Orders WHERE Order_Status != 'Cancelled'".

(** [orders_query] in [get_executive_summary] *)
Definition orders_query : string :=
"SELECT COUNT(*) as total_orders FROM Orders WHERE Order_Status != 'Cancelled'".

(** [reps_query] in [get_executive_summary] *)
Definition reps_query : string :=
"SELECT COUNT(DISTINCT Representative_ID) as active_reps FROM Sales_Representative".

(** [inventory_query] in [get_executive_summary] *)
Definition inventory_query : string :=
"
        SELECT SUM(p.Price * i.Quantity) as inventory_value 
        FROM Product p 
        JOIN Inventory i ON p.Product_ID = i.Product_ID
        ".

(** [query] in [analyze_sales_performance] *)
Definition sales_performance_query : string :=
"
        SELECT 
            sr.Name AS Representative_Name,
            r.Name AS Region_Name,
            sr.Performance_Rating,
            COUNT(DISTINCT o.Order_ID) AS Total_Orders,
            SUM(o.Total_cost) AS Total_Sales,
            AVG(o.Total_cost) AS Average_Order_Value,
            COUNT(DISTINCT i.Customer_ID) AS Unique_Customers,
            MAX(o.Date) AS Last_Order_Date,
            DATEDIFF(CURDATE(), MAX(o.Date)) AS Days_Since_Last_Order
        FROM Sales_Representative sr
        JOIN Region r ON sr.Region_ID = r.Region_ID
        LEFT JOIN Orders o ON sr.Representative_ID = o.Representative_ID
        LEFT JOIN Interaction i ON sr.Representative_ID = i.Representative_ID
        WHERE o.Order_Status != 'Cancelled' OR o.Order_Status IS NULL
        GROUP BY sr.Representative_ID, sr.Name, r.Name, sr.Performance_Rating
        ORDER BY Total_Sales DESC
        ".

(** [query] in [analyze_inventory_status] *)
Definition inventory_status_query : string :=
"
        SELECT 
            p.Name AS Product_Name,
            p.Category,
            p.Price,
            i.Quantity AS Current_Stock,
            i.Reorder_Level,
            (p.Price * i.Quantity) AS Total_Value,
            i.Location,
            CASE 
                WHEN i.Quantity = 0 THEN 'OUT_OF_STOCK'
                WHEN i.Quantity <= i.Reorder_Level * 0.3 THEN 'CRITICAL'
                WHEN i.Quantity <= i.Reorder_Level * 0.6 THEN 'LOW'
                WHEN i.Quantity <= i.Reorder_Level THEN 'MODERATE'
                ELSE 'ADEQUATE'
            END AS Stock_Status,
            CASE 
                WHEN i.Quantity <= i.Reorder_Level THEN 'REORDER_NOW'
                WHEN i.Quantity <= i.Reorder_Level * 1.5 THEN 'MONITOR'
                ELSE 'SUFFICIENT'
            END AS Action_Required
        FROM Product p
        JOIN Inventory i ON p.Product_ID = i.Product_ID
        ORDER BY 
            CASE 
                WHEN i.Quantity = 0 THEN 1
                WHEN i.Quantity <= i.Reorder_Level * 0.3 THEN 2
                WHEN i.Quantity <= i.Reorder_Level * 0.6 THEN 3
                WHEN i.Quantity <= i.Reorder_Level THEN 4
                ELSE 5
            END,
            Total_Value DESC
        ".

(** [query] in [analyze_regional_performance] *)
Definition regional_performance_query : string :=
"
        SELECT 
            r.Name AS Region_Name,
            COUNT(DISTINCT sr.Representative_ID) AS Total_Representatives,
            COUNT(DISTINCT o.Order_ID) AS Total_Orders,
            SUM(o.Total_cost) AS Total_Revenue,
            AVG(o.Total_cost) AS Average_Order_Value,
            COUNT(DISTINCT i.Customer_ID) AS Unique_Customers,
            SUM(o.Total_cost) / COUNT(DISTINCT sr.Representative_ID) AS Revenue_Per_Rep,
            COUNT(DISTINCT o.Order_ID) / COUNT(DISTINCT sr.Representative_ID) AS Orders_Per_Rep
        FROM Region r
        LEFT JOIN Sales_Representative sr ON r.Region_ID = sr.Region_ID
        LEFT JOIN Orders o ON sr.Representative_ID = o.Representative_ID
        LEFT JOIN Interaction i ON sr.Representative_ID = i.Representative_ID
        WHERE o.Order_Status != 'Cancelled' OR o.Order_Status IS NULL
        GROUP BY r.Region_ID, r.Name
        HAVING Total_Representatives > 0
        ORDER BY Total_Revenue DESC
        ".

(** [query] in [analyze_customer_segments] *)
Definition customer_segments_query : string :=
"
        SELECT 
            CASE 
                WHEN d.Customer_ID IS NOT NULL THEN 'Doctor'
                WHEN h.Customer_ID IS NOT NULL THEN 'Hospital'
                WHEN ph.Customer_ID IS NOT NULL THEN 'Pharmacy'
                ELSE 'Other'
            END AS Customer_Type,
            COUNT(DISTINCT c.Customer_ID) AS Customer_Count,
            COUNT(DISTINCT op.Order_ID) AS Total_Orders,
            SUM(o.Total_cost) AS Total_Revenue,
            AVG(o.Total_cost) AS Average_Order_Value,
            SUM(o.Total_cost) / COUNT(DISTINCT c.Customer_ID) AS Revenue_Per_Customer
        FROM Customer c
        LEFT JOIN Doctors d ON c.Customer_ID = d.Customer_ID
        LEFT JOIN Hospital h ON c.Customer_ID = h.Customer_ID
        LEFT JOIN Pharmacy ph ON c.Customer_ID = ph.Customer_ID
        LEFT JOIN Order_Placed op ON c.Customer_ID = op.Customer_ID
        LEFT JOIN Orders o ON op.Order_ID = o.Order_ID AND o.Order_Status != 'Cancelled'
        GROUP BY Customer_Type
        ORDER BY Total_Revenue DESC
        ".

(** [query] in [analyze_product_performance] *)
Definition product_performance_query : string :=
"
        SELECT 
            p.Name AS Product_Name,
            p.Category,
            p.Price AS Unit_Price,
            COUNT(DISTINCT inv.Order_ID) AS Times_Ordered,
            SUM(inv.Quantity_Ordered) AS Total_Quantity_Sold,
            SUM(inv.Line_Total) AS Total_Revenue,
            AVG(inv.Quantity_Ordered) AS Avg_Quantity_Per_Order,
            i.Quantity AS Current_Stock,
            CASE 
                WHEN i.Quantity > 0 AND SUM(inv.Quantity_Ordered) > 0 
                THEN ROUND(SUM(inv.Quantity_Ordered) / i.Quantity, 2)
                ELSE 0
            END AS Turnover_Ratio
        FROM Product p
        LEFT JOIN Involvement inv ON p.Product_ID = inv.Product_ID
        LEFT JOIN Orders o ON inv.Order_ID = o.Order_ID AND o.Order_Status != 'Cancelled'
        LEFT JOIN Inventory i ON p.Product_ID = i.Product_ID
        GROUP BY p.Product_ID, p.Name, p.Category, p.Price, i.Quantity
        ORDER BY Total_Revenue DESC
        ".

(** ** The gateway and the session object *)

(** [self.cursor]: only closing it matters. *)
Record Cursor : Type := mkCursor {
  cursor_close : result unit
}.

(** [self.connection]: what [pd.read_sql] answers over it for a query text
    and its parameters, what [close()] does and what [cursor()] returns. *)
Record Connection : Type := mkConnection {
  read_sql : string -> option (list value) -> result DataFrame;
  connection_close : result unit;
  connection_cursor : result Cursor
}.

Record PharmaceuticalAnalytics : Type := mkAnalytics {
  db_config : gmap string value;
  connection : option Connection;
  cursor : option Cursor;
  connected : bool
}.

(** [__init__] *)
Definition init (config : gmap string value) : PharmaceuticalAnalytics :=
  mkAnalytics config None None false.

Definition set_connection (c : option Connection) (self : PharmaceuticalAnalytics) :=
  mkAnalytics (db_config self) c (cursor self) (connected self).

Definition set_cursor (c : option Cursor) (self : PharmaceuticalAnalytics) :=
  mkAnalytics (db_config self) (connection self) c (connected self).

Definition set_connected (b : bool) (self : PharmaceuticalAnalytics) :=
  mkAnalytics (db_config self) (connection self) (cursor self) b.

(** Methods that assign to [self]: the object after the call is returned
    whether the call returns or raises. *)
Definition method (A : Type) : Type :=
  PharmaceuticalAnalytics -> result A * PharmaceuticalAnalytics.

Definition method_ret {A} (a : A) : method A := fun self => (Ok a, self).

Definition method_bind {A B} (f : A -> method B) (m : method A) : method B :=
  fun self =>
    match m self with
    | (Ok a, self') => f a self'
    | (Raise e, self') => (Raise e, self')
    end.

#[export] Instance method_mret : MRet method := fun A a => method_ret a.
#[export] Instance method_mbind : MBind method := fun A B f m => method_bind f m.

(** Read [self]. *)
Definition get_self : method PharmaceuticalAnalytics := fun self => (Ok self, self).

(** Assign to a field of [self]. *)
Definition assign (f : PharmaceuticalAnalytics -> PharmaceuticalAnalytics) : method unit :=
  fun self => (Ok tt, f self).

(** Run a call that does not touch [self]. *)
Definition call {A} (r : result A) : method A := fun self => (r, self).

(** [try: body  except (classes) as e: handler e], where [catches e] tells
    whether [e] is an instance of the classes listed. *)
Definition method_try {A} (body : method A) (catches : exn -> bool)
  (handler : exn -> method A) : method A :=
  fun self =>
    match body self with
    | (Raise e, self') => if catches e then handler e self' else (Raise e, self')
    | done => done
    end.

(** [isinstance(e, mysql.connector.Error)] *)
Definition is_mysql_error (e : exn) : bool :=
  match e with
  | MySQLError _ => true
  | _ => false
  end.

(** [isinstance(e, Exception)] *)
Definition is_exception (e : exn) : bool := true.

(** [connect_database]; [mysql_connect] is [mysql.connector.connect]. *)
Definition connect_database
  (mysql_connect : gmap string value -> result Connection) : method bool :=
  method_try
    (self ← get_self;
     conn ← call (mysql_connect (db_config self));
     _ ← assign (set_connection (Some conn));
     cur ← call (connection_cursor conn);
     _ ← assign (set_cursor (Some cur));
     _ ← assign (set_connected true);
     _ ← call (dict_get (db_config self) "database");
     mret true)
    is_mysql_error
    (fun err =>
       _ ← assign (set_connected false);
       mret false).

(** [pd.read_sql(query, con, params=params)] *)
Definition pd_read_sql (query : string) (con : option Connection)
  (params : option (list value)) : result DataFrame :=
  match con with
  | Some c => read_sql c query params
  | None => Raise AttributeError
  end.

(** [execute_query] *)
Definition execute_query (self : PharmaceuticalAnalytics) (query : string)
  (params : option (list value)) : result DataFrame :=
  if negb (connected self) then
    Ok DataFrame_new
  else
    try_except
      (df ← pd_read_sql query (connection self) params;
       mret df)
      (fun e => Ok DataFrame_new).

(** [float(result.iloc[0][label]) if not result.empty else 0], and the same
    with [int]. *)
Definition first_or_zero (convert : value -> result value) (res : DataFrame)
  (label : string) : result value :=
  if negb (empty res) then
    row ← iloc0 res;
    x ← getitem row label;
    convert x
  else
    Ok (VInt 0).

(** [get_executive_summary] *)
Definition get_executive_summary {RT : Runtime} (self : PharmaceuticalAnalytics)
  : result (gmap string value) :=
  let summary : gmap string value := ∅ in
  revenue_result ← execute_query self revenue_query None;
  total_revenue ← first_or_zero float revenue_result "total_revenue";
  let summary := <["total_revenue" := total_revenue]> summary in
  orders_result ← execute_query self orders_query None;
  total_orders ← first_or_zero int orders_result "total_orders";
  let summary := <["total_orders" := total_orders]> summary in
  reps_result ← execute_query self reps_query None;
  active_reps ← first_or_zero int reps_result "active_reps";
  let summary := <["active_representatives" := active_reps]> summary in
  inventory_result ← execute_query self inventory_query None;
  inventory_value ← first_or_zero float inventory_result "inventory_value";
  let summary := <["inventory_value" := inventory_value]> summary in
  orders ← dict_get summary "total_orders";
  positive ← gt orders (VInt 0);
  if (positive : bool) then
    revenue ← dict_get summary "total_revenue";
    orders ← dict_get summary "total_orders";
    average ← truediv revenue orders;
    mret (<["average_order_value" := average]> summary)
  else
    mret (<["average_order_value" := VInt 0]> summary).

(** [analyze_sales_performance] *)
Definition analyze_sales_performance (self : PharmaceuticalAnalytics) : result DataFrame :=
  execute_query self sales_performance_query None.

(** [analyze_inventory_status] *)
Definition analyze_inventory_status (self : PharmaceuticalAnalytics) : result DataFrame :=
  execute_query self inventory_status_query None.

(** [analyze_regional_performance] *)
Definition analyze_regional_performance (self : PharmaceuticalAnalytics) : result DataFrame :=
  execute_query self regional_performance_query None.

(** [analyze_customer_segments] *)
Definition analyze_customer_segments (self : PharmaceuticalAnalytics) : result DataFrame :=
  execute_query self customer_segments_query None.

(** [analyze_product_performance] *)
Definition analyze_product_performance (self : PharmaceuticalAnalytics) : result DataFrame :=
  execute_query self product_performance_query None.

(** [generate_detailed_report]: the line of one sales performer *)
Definition sales_line {RT : Runtime} (row : Series) : result string :=
  name ← getitem row "Representative_Name";
  region ← getitem row "Region_Name";
  sales ← getitem row "Total_Sales";
  amount ← format_2f sales;
  mret (str name +:+ " (" +:+ str region +:+ "): $" +:+ amount).

(** [generate_detailed_report]: the line of one inventory alert *)
Definition alert_line {RT : Runtime} (row : Series) : result string :=
  name ← getitem row "Product_Name";
  stock ← getitem row "Current_Stock";
  status ← getitem row "Stock_Status";
  mret (str name +:+ ": " +:+ str stock +:+ " units (" +:+ str status +:+ ")").

(** [generate_detailed_report]: the line of one region *)
Definition region_line {RT : Runtime} (row : Series) : result string :=
  name ← getitem row "Region_Name";
  revenue ← getitem row "Total_Revenue";
  amount ← format_2f revenue;
  orders ← getitem row "Total_Orders";
  mret (str name +:+ ": $" +:+ amount +:+ " revenue, " +:+ str orders +:+ " orders").

(** [generate_detailed_report]: the list [report] before it is joined *)
Definition report_lines {RT : Runtime} (self : PharmaceuticalAnalytics)
  : result (list string) :=
  let report : list string := [] in
  let report := report ++ [str_mul "=" 80] in
  let report := report ++ ["PHARMACEUTICAL SUPPLY CHAIN ANALYTICS REPORT"] in
  let report := report ++ [str_mul "=" 80] in
  let report := report ++ ["Generated: " +:+ now_strftime] in
  let report := report ++ [""] in
  (* Executive Summary *)
  summary ← get_executive_summary self;
  let report := report ++ ["EXECUTIVE SUMMARY"] in
  let report := report ++ [str_mul "-" 50] in
  total_revenue ← dict_get summary "total_revenue" ≫= format_2f;
  let report := report ++ ["Total Revenue: $" +:+ total_revenue] in
  total_orders ← dict_get summary "total_orders" ≫= format_comma;
  let report := report ++ ["Total Orders: " +:+ total_orders] in
  active ← dict_get summary "active_representatives";
  let report := report ++ ["Active Representatives: " +:+ str active] in
  average ← dict_get summary "average_order_value" ≫= format_2f;
  let report := report ++ ["Average Order Value: $" +:+ average] in
  inventory_value ← dict_get summary "inventory_value" ≫= format_2f;
  let report := report ++ ["Total Inventory Value: $" +:+ inventory_value] in
  let report := report ++ [""] in
  (* Sales Performance *)
  sales_data ← analyze_sales_performance self;
  report ← (if negb (empty sales_data) then
              lines ← mapM sales_line (iterrows (df_head 5 sales_data));
              mret (report ++ ["TOP SALES PERFORMERS"] ++ [str_mul "-" 50]
                           ++ lines ++ [""])
            else mret report);
  (* Inventory Alerts *)
  inventory_data ← analyze_inventory_status self;
  status ← column inventory_data "Stock_Status";
  let critical_items :=
    mask_rows inventory_data (isin ["CRITICAL"; "OUT_OF_STOCK"] status) in
  report ← (if negb (empty critical_items) then
              lines ← mapM alert_line (iterrows critical_items);
              mret (report ++ ["CRITICAL INVENTORY ALERTS"] ++ [str_mul "-" 50]
                           ++ lines ++ [""])
            else mret report);
  (* Regional Performance *)
  regional_data ← analyze_regional_performance self;
  report ← (if negb (empty regional_data) then
              lines ← mapM region_line (iterrows (df_head 3 regional_data));
              mret (report ++ ["REGIONAL PERFORMANCE SUMMARY"] ++ [str_mul "-" 50]
                           ++ lines ++ [""])
            else mret report);
  mret (report ++ [str_mul "=" 80]).

(** [generate_detailed_report] *)
Definition generate_detailed_report {RT : Runtime} (self : PharmaceuticalAnalytics)
  : result string :=
  report ← report_lines self;
  mret (join newline report).

(** [close_connection] *)
Definition close_connection : method unit :=
  method_try
    (self ← get_self;
     _ ← match cursor self with
         | Some cur => call (cursor_close cur)
         | None => mret tt
         end;
     _ ← match connection self with
         | Some conn => call (connection_close conn)
         | None => mret tt
         end;
     assign (set_connected false))
    is_exception
    (fun e => mret tt).

(** ** The database behind the statements

    Tables hold the columns the statements mention.  Base columns are
    taken NOT NULL; NULL arises from LEFT JOIN and from aggregates over no
    value, and is [None] on the SQL side.  Strings compare exactly (a binary
    collation) and a date is a day number. *)

Module OrdersT.
Record row : Type := mk {
  Order_ID : Z;
  Representative_ID : Z;
  Total_cost : Q;
  Order_Status : string;
  Date : Z
}.
End OrdersT.

Module RepT.
Record row : Type := mk {
  Representative_ID : Z;
  Name : string;
  Region_ID : Z;
  Performance_Rating : Q
}.
End RepT.

Module RegionT.
Record row : Type := mk {
  Region_ID : Z;
  Name : string
}.
End RegionT.

Module InteractionT.
Record row : Type := mk {
  Representative_ID : Z;
  Customer_ID : Z
}.
End InteractionT.

Module ProductT.
Record row : Type := mk {
  Product_ID : Z;
  Name : string;
  Category : string;
  Price : Q
}.
End ProductT.

Module InventoryT.
Record row : Type := mk {
  Product_ID : Z;
  Quantity : Z;
  Reorder_Level : Z;
  Location : string
}.
End InventoryT.

Module InvolvementT.
Record row : Type := mk {
  Product_ID : Z;
  Order_ID : Z;
  Quantity_Ordered : Z;
  Line_Total : Q
}.
End InvolvementT.

Record Database : Type := mkDatabase {
  Orders : list OrdersT.row;
  Sales_Representative : list RepT.row;
  Region : list RegionT.row;
  Interaction : list InteractionT.row;
  Product : list ProductT.row;
  Inventory : list InventoryT.row;
  Involvement : list InvolvementT.row
}.

(** *** Relational operators *)

(** SQL truth values: TRUE, FALSE and NULL. *)
Definition sql_or (a b : option bool) : option bool :=
  match a, b with
  | Some true, _ | _, Some true => Some true
  | Some false, Some false => Some false
  | _, _ => None
  end.

Definition sql_and (a b : option bool) : option bool :=
  match a, b with
  | Some false, _ | _, Some false => Some false
  | Some true, Some true => Some true
  | _, _ => None
  end.

(** [x != s] *)
Definition sql_ne_str (x : option string) (s : string) : option bool :=
  match x with
  | Some t => Some (negb (String.eqb t s))
  | None => None
  end.

(** [x = y] on integers *)
Definition sql_eq_int (x y : option Z) : option bool :=
  match x, y with
  | Some a, Some b => Some (a =? b)
  | _, _ => None
  end.

(** [x > 0] *)
Definition sql_gt0 (x : option Q) : option bool :=
  match x with
  | Some q => Some (negb (Qle_bool q 0))
  | None => None
  end.

(** [x IS NULL] *)
Definition is_null {A} (x : option A) : option bool :=
  match x with
  | None => Some true
  | Some _ => Some false
  end.

(** WHERE, ON and WHEN keep a row only when the condition is TRUE. *)
Definition holds (c : option bool) : bool :=
  match c with
  | Some true => true
  | _ => false
  end.

(** [l JOIN r ON on] *)
Definition inner_join {A B} (on : A -> B -> bool) (l : list A) (r : list B)
  : list (A * B) :=
  flat_map (fun a => map (fun b => (a, b)) (List.filter (on a) r)) l.

(** [l LEFT JOIN r ON on] *)
Definition left_join {A B} (on : A -> B -> bool) (l : list A) (r : list B)
  : list (A * option B) :=
  flat_map (fun a => match List.filter (on a) r with
                     | [] => [(a, None)]
                     | bs => map (fun b => (a, Some b)) bs
                     end) l.

(** The values of a list without repetition, first occurrences kept. *)
Fixpoint distinct {K} (eqb : K -> K -> bool) (ks : list K) : list K :=
  match ks with
  | [] => []
  | k :: ks' => k :: List.filter (fun k' => negb (eqb k k')) (distinct eqb ks')
  end.

(** [GROUP BY key]: one group per key value. *)
Definition group_by {A K} (eqb : K -> K -> bool) (key : A -> K) (l : list A)
  : list (K * list A) :=
  map (fun k => (k, List.filter (fun a => eqb k (key a)) l))
      (distinct eqb (map key l)).

(** The non-NULL values of a column. *)
Definition non_null {A} (xs : list (option A)) : list A :=
  omap id xs.

(** [SUM(x)]: NULL over no value. *)
Definition sql_sum (xs : list (option Q)) : option Q :=
  match non_null xs with
  | [] => None
  | vs => Some (fold_left Qplus vs 0%Q)
  end.

(** [COUNT(DISTINCT x)] *)
Definition sql_count_distinct (xs : list (option Z)) : Z :=
  Z.of_nat (length (distinct Z.eqb (non_null xs))).

(** [AVG(x)] *)
Definition sql_avg (xs : list (option Q)) : option Q :=
  match non_null xs with
  | [] => None
  | vs => Some (fold_left Qplus vs 0%Q / inject_Z (Z.of_nat (length vs)))%Q
  end.

(** [MAX(x)] *)
Definition sql_max (xs : list (option Z)) : option Z :=
  match non_null xs with
  | [] => None
  | v :: vs => Some (fold_left Z.max vs v)
  end.

(** [ROUND(x, 2)] on an exact value: half away from zero. *)
Definition sql_round2 (q : Q) : Q :=
  let cents := Qfloor (Qabs q * 100 + (1 # 2))%Q in
  if Qle_bool 0 q then Qmake cents 100 else Qmake (- cents) 100.

(** [x DESC] with NULL last: [a] may come before [b]. *)
Definition desc (a b : option Q) : bool :=
  match a, b with
  | _, None => true
  | None, Some _ => false
  | Some x, Some y => Qle_bool y x
  end.

(** [ORDER BY]: the rows sorted by a "may come before" test. *)
Definition order_by {A} (before : A -> A -> bool) (l : list A) : list A :=
  merge_sort (fun x y => Is_true (before x y)) l.

(** How the driver and pandas hand SQL values to Python.  The driver
    returns [Decimal], [int], [str] and [date] objects and [None] for NULL;
    [pd.read_sql] then lays out each column with [coerce_float]: a column
    of numbers becomes numeric, its [Decimal]s floats and its NULLs NaN,
    which turns the [int]s of a column holding a NULL into floats too; a
    column holding nothing but NULL, and a column of strings or dates,
    keeps its objects, [None] included. *)

(** Some cell of the column is not NULL. *)
Definition has_value {A} (col : list (option A)) : bool :=
  existsb (fun x => match x with Some _ => true | None => false end) col.

(** Some cell of the column is NULL. *)
Definition has_null {A} (col : list (option A)) : bool :=
  existsb (fun x => match x with Some _ => false | None => true end) col.

(** A cell of the DECIMAL column [col]. *)
Definition decimal_cell (col : list (option Q)) (x : option Q) : value :=
  match x with
  | Some q => VFloat q
  | None => if has_value col then VNaN else VNone
  end.

(** A cell of the integer column [col]. *)
Definition int_cell (col : list (option Z)) (x : option Z) : value :=
  match x with
  | Some z => if has_null col then VFloat (inject_Z z) else VInt z
  | None => if has_value col then VNaN else VNone
  end.

(** The cell of a DECIMAL column of one row. *)
Definition of_decimal (x : option Q) : value := decimal_cell [x] x.

(** A cell of a DATE column. *)
Definition of_date (x : option Z) : value :=
  match x with
  | Some d => VDate d
  | None => VNone
  end.

(** *** The four statements of the executive summary *)

(** [WHERE Order_Status != 'Cancelled'] *)
Definition not_cancelled (o : OrdersT.row) : bool :=
  holds (sql_ne_str (Some (OrdersT.Order_Status o)) "Cancelled").

(** [revenue_query] *)
Definition revenue_table (db : Database) : DataFrame :=
  let kept := List.filter not_cancelled (Orders db) in
  mkDataFrame ["total_revenue"]
    [[of_decimal (sql_sum (map (fun o => Some (OrdersT.Total_cost o)) kept))]].

(** [orders_query] *)
Definition orders_table (db : Database) : DataFrame :=
  let kept := List.filter not_cancelled (Orders db) in
  mkDataFrame ["total_orders"] [[VInt (Z.of_nat (length kept))]].

(** [reps_query] *)
Definition reps_table (db : Database) : DataFrame :=
  mkDataFrame ["active_reps"]
    [[VInt (sql_count_distinct
              (map (fun sr => Some (RepT.Representative_ID sr))
                   (Sales_Representative db)))]].

(** [inventory_query] *)
Definition inventory_value_table (db : Database) : DataFrame :=
  let joined :=
    inner_join (fun p i => ProductT.Product_ID p =? InventoryT.Product_ID i)
               (Product db) (Inventory db) in
  mkDataFrame ["inventory_value"]
    [[of_decimal
        (sql_sum (map (fun '(p, i) =>
                         Some (ProductT.Price p * inject_Z (InventoryT.Quantity i))%Q)
                      joined))]].

(** *** Sales performance *)

Module SalesRow.
Record row : Type := mk {
  Representative_Name : string;
  Region_Name : string;
  Performance_Rating : Q;
  Total_Orders : Z;
  Total_Sales : option Q;
  Average_Order_Value : option Q;
  Unique_Customers : Z;
  Last_Order_Date : option Z;
  Days_Since_Last_Order : option Z
}.
End SalesRow.

(** The FROM clause of [analyze_sales_performance]. *)
Definition sales_from (db : Database)
  : list (RepT.row * RegionT.row * option OrdersT.row * option InteractionT.row) :=
  left_join
    (fun '(sr, r, o) i =>
       RepT.Representative_ID sr =? InteractionT.Representative_ID i)
    (left_join
       (fun '(sr, r) o =>
          RepT.Representative_ID sr =? OrdersT.Representative_ID o)
       (inner_join (fun sr r => RepT.Region_ID sr =? RegionT.Region_ID r)
                   (Sales_Representative db) (Region db))
       (Orders db))
    (Interaction db).

(** [WHERE o.Order_Status != 'Cancelled' OR o.Order_Status IS NULL] *)
Definition sales_where (o : option OrdersT.row) : bool :=
  let status := option_map OrdersT.Order_Status o in
  holds (sql_or (sql_ne_str status "Cancelled") (is_null status)).

(** [GROUP BY sr.Representative_ID, sr.Name, r.Name, sr.Performance_Rating] *)
Definition sales_key
  (j : RepT.row * RegionT.row * option OrdersT.row * option InteractionT.row)
  : Z * string * string * Q :=
  let '(sr, r, _, _) := j in
  (RepT.Representative_ID sr, RepT.Name sr, RegionT.Name r,
   RepT.Performance_Rating sr).

Definition sales_key_eqb (a b : Z * string * string * Q) : bool :=
  let '(id1, n1, r1, p1) := a in
  let '(id2, n2, r2, p2) := b in
  (id1 =? id2) && String.eqb n1 n2 && String.eqb r1 r2 && Qeq_bool p1 p2.

(** The SELECT list of [analyze_sales_performance] over one group;
    [curdate] is [CURDATE()]. *)
Definition sales_select (curdate : Z)
  (g : (Z * string * string * Q)
       * list (RepT.row * RegionT.row * option OrdersT.row
               * option InteractionT.row))
  : SalesRow.row :=
  let '((_, name, region, rating), members) := g in
  let o := map (fun '(_, _, o, _) => o) members in
  let i := map (fun '(_, _, _, i) => i) members in
  let last := sql_max (map (option_map OrdersT.Date) o) in
  SalesRow.mk name region rating
    (sql_count_distinct (map (option_map OrdersT.Order_ID) o))
    (sql_sum (map (option_map OrdersT.Total_cost) o))
    (sql_avg (map (option_map OrdersT.Total_cost) o))
    (sql_count_distinct (map (option_map InteractionT.Customer_ID) i))
    last
    (option_map (fun d => curdate - d) last).

(** The rows of [analyze_sales_performance], [ORDER BY Total_Sales DESC]. *)
Definition sales_rows (db : Database) (curdate : Z) : list SalesRow.row :=
  order_by (fun a b => desc (SalesRow.Total_Sales a) (SalesRow.Total_Sales b))
    (map (sales_select curdate)
       (group_by sales_key_eqb sales_key
          (List.filter (fun '(_, _, o, _) => sales_where o) (sales_from db)))).

Definition sales_columns : list string :=
  ["Representative_Name"; "Region_Name"; "Performance_Rating"; "Total_Orders";
   "Total_Sales"; "Average_Order_Value"; "Unique_Customers"; "Last_Order_Date";
   "Days_Since_Last_Order"].

(** The cells of the row [r] of the result [table]. *)
Definition sales_cells (table : list SalesRow.row) (r : SalesRow.row)
  : list value :=
  [VStr (SalesRow.Representative_Name r); VStr (SalesRow.Region_Name r);
   VFloat (SalesRow.Performance_Rating r); VInt (SalesRow.Total_Orders r);
   decimal_cell (map SalesRow.Total_Sales table) (SalesRow.Total_Sales r);
   decimal_cell (map SalesRow.Average_Order_Value table)
                (SalesRow.Average_Order_Value r);
   VInt (SalesRow.Unique_Customers r); of_date (SalesRow.Last_Order_Date r);
   int_cell (map SalesRow.Days_Since_Last_Order table)
            (SalesRow.Days_Since_Last_Order r)].

Definition sales_table (db : Database) (curdate : Z) : DataFrame :=
  let table := sales_rows db curdate in
  mkDataFrame sales_columns (map (sales_cells table) table).

(** *** Inventory status *)

Inductive stock_status : Type :=
| OUT_OF_STOCK
| CRITICAL
| LOW
| MODERATE
| ADEQUATE.

Inductive action : Type :=
| REORDER_NOW
| MONITOR
| SUFFICIENT.

(** [CASE ... END AS Stock_Status] *)
Definition Stock_Status (Quantity Reorder_Level : Z) : stock_status :=
  if Quantity =? 0 then OUT_OF_STOCK
  else if Qle_bool (inject_Z Quantity) (inject_Z Reorder_Level * 0.3) then CRITICAL
  else if Qle_bool (inject_Z Quantity) (inject_Z Reorder_Level * 0.6) then LOW
  else if Quantity <=? Reorder_Level then MODERATE
  else ADEQUATE.

(** [CASE ... END AS Action_Required] *)
Definition Action_Required (Quantity Reorder_Level : Z) : action :=
  if Quantity <=? Reorder_Level then REORDER_NOW
  else if Qle_bool (inject_Z Quantity) (inject_Z Reorder_Level * 1.5) then MONITOR
  else SUFFICIENT.

(** The [CASE] of the [ORDER BY] clause. *)
Definition severity (Quantity Reorder_Level : Z) : Z :=
  if Quantity =? 0 then 1
  else if Qle_bool (inject_Z Quantity) (inject_Z Reorder_Level * 0.3) then 2
  else if Qle_bool (inject_Z Quantity) (inject_Z Reorder_Level * 0.6) then 3
  else if Quantity <=? Reorder_Level then 4
  else 5.

Definition stock_status_label (s : stock_status) : string :=
  match s with
  | OUT_OF_STOCK => "OUT_OF_STOCK"
  | CRITICAL => "CRITICAL"
  | LOW => "LOW"
  | MODERATE => "MODERATE"
  | ADEQUATE => "ADEQUATE"
  end.

Definition action_label (a : action) : string :=
  match a with
  | REORDER_NOW => "REORDER_NOW"
  | MONITOR => "MONITOR"
  | SUFFICIENT => "SUFFICIENT"
  end.

Module InventoryRow.
Record row : Type := mk {
  Product_Name : string;
  Category : string;
  Price : Q;
  Current_Stock : Z;
  Reorder_Level : Z;
  Total_Value : Q;
  Location : string;
  Stock_Status : stock_status;
  Action_Required : action
}.
End InventoryRow.

(** The SELECT list of [analyze_inventory_status]. *)
Definition inventory_select (j : ProductT.row * InventoryT.row) : InventoryRow.row :=
  let '(p, i) := j in
  InventoryRow.mk (ProductT.Name p) (ProductT.Category p) (ProductT.Price p)
    (InventoryT.Quantity i) (InventoryT.Reorder_Level i)
    (ProductT.Price p * inject_Z (InventoryT.Quantity i))%Q
    (InventoryT.Location i)
    (Stock_Status (InventoryT.Quantity i) (InventoryT.Reorder_Level i))
    (Action_Required (InventoryT.Quantity i) (InventoryT.Reorder_Level i)).

(** [ORDER BY CASE ... END, Total_Value DESC] *)
Definition inventory_before (a b : InventoryRow.row) : bool :=
  let ra := severity (InventoryRow.Current_Stock a) (InventoryRow.Reorder_Level a) in
  let rb := severity (InventoryRow.Current_Stock b) (InventoryRow.Reorder_Level b) in
  (ra <? rb)
  || ((ra =? rb)
      && Qle_bool (InventoryRow.Total_Value b) (InventoryRow.Total_Value a)).

(** The rows of [analyze_inventory_status]. *)
Definition inventory_rows (db : Database) : list InventoryRow.row :=
  order_by inventory_before
    (map inventory_select
       (inner_join (fun p i => ProductT.Product_ID p =? InventoryT.Product_ID i)
                   (Product db) (Inventory db))).

Definition inventory_columns : list string :=
  ["Product_Name"; "Category"; "Price"; "Current_Stock"; "Reorder_Level";
   "Total_Value"; "Location"; "Stock_Status"; "Action_Required"].

Definition inventory_cells (r : InventoryRow.row) : list value :=
  [VStr (InventoryRow.Product_Name r); VStr (InventoryRow.Category r);
   VFloat (InventoryRow.Price r); VInt (InventoryRow.Current_Stock r);
   VInt (InventoryRow.Reorder_Level r); VFloat (InventoryRow.Total_Value r);
   VStr (InventoryRow.Location r);
   VStr (stock_status_label (InventoryRow.Stock_Status r));
   VStr (action_label (InventoryRow.Action_Required r))].

Definition inventory_table (db : Database) : DataFrame :=
  mkDataFrame inventory_columns (map inventory_cells (inventory_rows db)).

(** *** Product performance *)

Module ProductRow.
Record row : Type := mk {
  Product_Name : string;
  Category : string;
  Unit_Price : Q;
  Times_Ordered : Z;
  Total_Quantity_Sold : option Q;
  Total_Revenue : option Q;
  Avg_Quantity_Per_Order : option Q;
  Current_Stock : option Z;
  Turnover_Ratio : Q
}.
End ProductRow.

(** The FROM clause of [analyze_product_performance]. *)
Definition product_from (db : Database)
  : list (ProductT.row * option InvolvementT.row * option OrdersT.row
          * option InventoryT.row) :=
  left_join
    (fun '(p, inv, o) i => ProductT.Product_ID p =? InventoryT.Product_ID i)
    (left_join
       (fun '(p, inv) o =>
          holds (sql_and
                   (sql_eq_int (option_map InvolvementT.Order_ID inv)
                               (Some (OrdersT.Order_ID o)))
                   (sql_ne_str (Some (OrdersT.Order_Status o)) "Cancelled")))
       (left_join
          (fun p inv => ProductT.Product_ID p =? InvolvementT.Product_ID inv)
          (Product db) (Involvement db))
       (Orders db))
    (Inventory db).

(** [GROUP BY p.Product_ID, p.Name, p.Category, p.Price, i.Quantity] *)
Definition product_key
  (j : ProductT.row * option InvolvementT.row * option OrdersT.row
       * option InventoryT.row)
  : Z * string * string * Q * option Z :=
  let '(p, _, _, i) := j in
  (ProductT.Product_ID p, ProductT.Name p, ProductT.Category p,
   ProductT.Price p, option_map InventoryT.Quantity i).

Definition product_key_eqb (a b : Z * string * string * Q * option Z) : bool :=
  let '(id1, n1, c1, p1, q1) := a in
  let '(id2, n2, c2, p2, q2) := b in
  (id1 =? id2) && String.eqb n1 n2 && String.eqb c1 c2 && Qeq_bool p1 p2
  && match q1, q2 with
     | Some x, Some y => x =? y
     | None, None => true
     | _, _ => false
     end.

(** The SELECT list of [analyze_product_performance] over one group. *)
Definition product_select
  (g : (Z * string * string * Q * option Z)
       * list (ProductT.row * option InvolvementT.row * option OrdersT.row
               * option InventoryT.row))
  : ProductRow.row :=
  let '((_, name, category, price, stock), members) := g in
  let inv := map (fun '(_, inv, _, _) => inv) members in
  let ordered :=
    map (option_map (fun l => inject_Z (InvolvementT.Quantity_Ordered l))) inv in
  let sold := sql_sum ordered in
  ProductRow.mk name category price
    (sql_count_distinct (map (option_map InvolvementT.Order_ID) inv))
    sold
    (sql_sum (map (option_map InvolvementT.Line_Total) inv))
    (sql_avg ordered)
    stock
    (if holds (sql_and (sql_gt0 (option_map inject_Z stock)) (sql_gt0 sold))
     then sql_round2 (default 0%Q sold / inject_Z (default 0%Z stock))%Q
     else 0%Q).

(** The rows of [analyze_product_performance], [ORDER BY Total_Revenue DESC]. *)
Definition product_rows (db : Database) : list ProductRow.row :=
  order_by (fun a b => desc (ProductRow.Total_Revenue a) (ProductRow.Total_Revenue b))
    (map product_select
       (group_by product_key_eqb product_key (product_from db))).

Definition product_columns : list string :=
  ["Product_Name"; "Category"; "Unit_Price"; "Times_Ordered";
   "Total_Quantity_Sold"; "Total_Revenue"; "Avg_Quantity_Per_Order";
   "Current_Stock"; "Turnover_Ratio"].

(** The cells of the row [r] of the result [table]. *)
Definition product_cells (table : list ProductRow.row) (r : ProductRow.row)
  : list value :=
  [VStr (ProductRow.Product_Name r); VStr (ProductRow.Category r);
   VFloat (ProductRow.Unit_Price r); VInt (ProductRow.Times_Ordered r);
   decimal_cell (map ProductRow.Total_Quantity_Sold table)
                (ProductRow.Total_Quantity_Sold r);
   decimal_cell (map ProductRow.Total_Revenue table) (ProductRow.Total_Revenue r);
   decimal_cell (map ProductRow.Avg_Quantity_Per_Order table)
                (ProductRow.Avg_Quantity_Per_Order r);
   int_cell (map ProductRow.Current_Stock table) (ProductRow.Current_Stock r);
   VFloat (ProductRow.Turnover_Ratio r)].

Definition product_table (db : Database) : DataFrame :=
  let table := product_rows db in
  mkDataFrame product_columns (map (product_cells table) table).

(** *** A server holding a database *)

(** The table the server computes for a statement, for the statements
    evaluated above. *)
Definition evaluate (db : Database) (curdate : Z) (query : string)
  : option DataFrame :=
  if String.eqb query revenue_query then Some (revenue_table db)
  else if String.eqb query orders_query then Some (orders_table db)
  else if String.eqb query reps_query then Some (reps_table db)
  else if String.eqb query inventory_query then Some (inventory_value_table db)
  else if String.eqb query sales_performance_query then Some (sales_table db curdate)
  else if String.eqb query inventory_status_query then Some (inventory_table db)
  else if String.eqb query product_performance_query then Some (product_table db)
  else None.

(** A connection to a server holding [db]: whenever it answers one of
    those statements, the answer is the table the server computes.  It may
    fail on any statement at any time. *)
Definition serves (conn : Connection) (db : Database) (curdate : Z) : Prop :=
  forall query params df expected,
    read_sql conn query params = Ok df ->
    evaluate db curdate query = Some expected ->
    df = expected.

(** A session whose connection, if any, is to a server holding [db]. *)
Definition session_on (self : PharmaceuticalAnalytics) (db : Database)
  (curdate : Z) : Prop :=
  forall conn, connection self = Some conn -> serves conn db curdate.

(** ** Sample runtime, sessions and databases *)

(** [f"{q:.2f}"] without thousands separators, halves rounded away from
    zero. *)
Definition sample_2f (q : Q) : string :=
  let cents := Qfloor (Qabs q * 100 + (1 # 2))%Q in
  (if Qle_bool 0 q then "" else "-")
  +:+ pretty (cents / 100) +:+ "."
  +:+ (if cents mod 100 <? 10 then "0" else "") +:+ pretty (cents mod 100).

(** A runtime for the examples: no string parses as a number and numbers
    print without thousands separators. *)
Definition sample_runtime : Runtime := {|
  float_of_str := fun _ => None;
  int_of_str := fun _ => None;
  render_2f := sample_2f;
  render_comma_int := pretty;
  render_comma_float := sample_2f;
  str_int := pretty;
  str_float := sample_2f;
  str_date := pretty;
  now_strftime := "2024-01-01 00:00:00"
|}.

Definition sample_config : gmap string value :=
  {[ "host" := VStr "127.0.0.1"; "port" := VInt 3306; "user" := VStr "root";
     "database" := VStr "pharma_db"; "charset" := VStr "utf8mb4" ]}.

(** A session on which [connect_database] was never called. *)
Definition never_connected : PharmaceuticalAnalytics := init sample_config.

(** A connection to a server holding [db] that answers every statement
    evaluated above, fails on the others, and whose handles close
    normally. *)
Definition test_connection (db : Database) (curdate : Z) : Connection :=
  mkConnection
    (fun query _ =>
       match evaluate db curdate query with
       | Some df => Ok df
       | None => Raise (DatabaseError "statement not evaluated")
       end)
    (Ok tt)
    (Ok (mkCursor (Ok tt))).

(** The session after [connect_database] handed out [conn]. *)
Definition session_over (conn : Connection) : PharmaceuticalAnalytics :=
  snd (connect_database (fun _ => Ok conn) never_connected).

(** The same connection with a cursor that refuses to close, as the driver
    does while a result set is unread. *)
Definition busy_connection (db : Database) (curdate : Z) : Connection :=
  mkConnection (read_sql (test_connection db curdate)) (Ok tt)
    (Ok (mkCursor (Raise (MySQLError "Unread result found")))).

(** A connection over which the inventory-status statement is cut short
    by the server; every other statement goes through. *)
Definition inventory_unavailable (conn : Connection) : Connection :=
  mkConnection
    (fun query params =>
       if String.eqb query inventory_status_query
       then Raise (DatabaseError "maximum statement execution time exceeded")
       else read_sql conn query params)
    (connection_close conn)
    (connection_cursor conn).

(** One delivered order of 100.00 and one cancelled order of 500.00. *)
Definition two_orders_db : Database :=
  mkDatabase
    [OrdersT.mk 1 10 100 "Delivered" 19700; OrdersT.mk 2 10 500 "Cancelled" 19701]
    [RepT.mk 10 "Asha Rao" 1 4.5]
    [RegionT.mk 1 "North"]
    [InteractionT.mk 10 7]
    [ProductT.mk 1 "Aspirin" "Analgesic" 2.5]
    [InventoryT.mk 1 40 10 "Aisle 1"]
    [InvolvementT.mk 1 1 40 100].

(** A product whose only order line belongs to a cancelled order. *)
Definition cancelled_line_db : Database :=
  mkDatabase
    [OrdersT.mk 2 10 500 "Cancelled" 19701]
    [RepT.mk 10 "Asha Rao" 1 4.5]
    [RegionT.mk 1 "North"]
    []
    [ProductT.mk 1 "Aspirin" "Analgesic" 2.5]
    [InventoryT.mk 1 40 10 "Aisle 1"]
    [InvolvementT.mk 1 2 200 500].

(** A product out of stock whose reorder level is below zero. *)
Definition negative_reorder_db : Database :=
  mkDatabase [] [] [] []
    [ProductT.mk 1 "Aspirin" "Analgesic" 2.5]
    [InventoryT.mk 1 0 (-1) "Aisle 1"]
    [].

(** Three representatives with sales of 250, 900 and none; four products,
    one of them out of stock and one at 30% of its reorder level. *)
Definition three_reps_db : Database :=
  mkDatabase
    [OrdersT.mk 1 10 250 "Delivered" 19700; OrdersT.mk 2 11 400 "Shipped" 19701;
     OrdersT.mk 3 11 500 "Delivered" 19702; OrdersT.mk 4 10 999 "Cancelled" 19703]
    [RepT.mk 10 "Asha Rao" 1 4.5; RepT.mk 11 "Ben Cole" 2 3.9;
     RepT.mk 12 "Chen Li" 1 4.1]
    [RegionT.mk 1 "North"; RegionT.mk 2 "South"]
    [InteractionT.mk 10 7]
    [ProductT.mk 1 "Aspirin" "Analgesic" 2.5; ProductT.mk 2 "Insulin" "Hormone" 30;
     ProductT.mk 3 "Heparin" "Anticoagulant" 12; ProductT.mk 4 "Statin" "Lipid" 8]
    [InventoryT.mk 1 40 10 "Aisle 1"; InventoryT.mk 2 3 10 "Cold room";
     InventoryT.mk 3 0 25 "Aisle 2"; InventoryT.mk 4 20 20 "Aisle 3"]
    [].

(** One representative with two orders that are not cancelled and two
    recorded interactions. *)
Definition two_visits_db : Database :=
  mkDatabase
    [OrdersT.mk 1 10 100 "Delivered" 19700; OrdersT.mk 2 10 50 "Shipped" 19701]
    [RepT.mk 10 "Asha Rao" 1 4.5]
    [RegionT.mk 1 "North"]
    [InteractionT.mk 10 7; InteractionT.mk 10 8]
    []
    []
    [].

(** A representative with one delivered order and one who never sold;
    the only product is well stocked. *)
Definition idle_rep_db : Database :=
  mkDatabase
    [OrdersT.mk 1 10 100 "Delivered" 19700]
    [RepT.mk 10 "Asha Rao" 1 4.5; RepT.mk 12 "Chen Li" 1 4.1]
    [RegionT.mk 1 "North"]
    [InteractionT.mk 10 7]
    [ProductT.mk 1 "Aspirin" "Analgesic" 2.5]
    [InventoryT.mk 1 40 10 "Aisle 1"]
    [InvolvementT.mk 1 1 40 100].

(** The summary of [two_orders_db]. *)
Definition sample_summary : gmap string value :=
  <["average_order_value" := VFloat (100 / inject_Z 1)]>
    (<["inventory_value" := VFloat (2.5 * inject_Z 40 + 0)]>
       (<["active_representatives" := VInt 1]>
          (<["total_orders" := VInt 1]> (<["total_revenue" := VFloat 100]> ∅)))).

(** The report of a session over [two_orders_db] under [sample_runtime],
    line by line; its server fails on the regional statement. *)
Definition sample_report : list string :=
  [str_mul "=" 80;
   "PHARMACEUTICAL SUPPLY CHAIN ANALYTICS REPORT";
   str_mul "=" 80;
   "Generated: 2024-01-01 00:00:00"; "";
   "EXECUTIVE SUMMARY";
   str_mul "-" 50;
   "Total Revenue: $100.00"; "Total Orders: 1"; "Active Representatives: 1";
   "Average Order Value: $100.00"; "Total Inventory Value: $100.00"; "";
   "TOP SALES PERFORMERS";
   str_mul "-" 50;
   "Asha Rao (North): $100.00"; "";
   str_mul "=" 80].

(** The report of a session over [idle_rep_db] under [sample_runtime]:
    the representative without orders is listed with a total of NaN. *)
Definition idle_rep_report : list string :=
  [str_mul "=" 80;
   "PHARMACEUTICAL SUPPLY CHAIN ANALYTICS REPORT";
   str_mul "=" 80;
   "Generated: 2024-01-01 00:00:00"; "";
   "EXECUTIVE SUMMARY";
   str_mul "-" 50;
   "Total Revenue: $100.00"; "Total Orders: 1"; "Active Representatives: 2";
   "Average Order Value: $100.00"; "Total Inventory Value: $100.00"; "";
   "TOP SALES PERFORMERS";
   str_mul "-" 50;
   "Asha Rao (North): $100.00"; "Chen Li (North): $nan"; "";
   str_mul "=" 80].

(** ** The properties, as predicates *)

(** The thresholds in percentages of the reorder level, as the
    specification words them: out of stock at zero, then the first of 30%,
    60% and 100% that the stock does not exceed. *)
Definition within_percent (percent stock reorder : Z) : bool :=
  100 * stock <=? percent * reorder.

Definition spec_stock_bucket (stock reorder : Z) : stock_status :=
  if stock =? 0 then OUT_OF_STOCK
  else if within_percent 30 stock reorder then CRITICAL
  else if within_percent 60 stock reorder then LOW
  else if within_percent 100 stock reorder then MODERATE
  else ADEQUATE.

(** The number of a bucket, 1 for the most severe. *)
Definition bucket_number (s : stock_status) : Z :=
  match s with
  | OUT_OF_STOCK => 1
  | CRITICAL => 2
  | LOW => 3
  | MODERATE => 4
  | ADEQUATE => 5
  end.

(** Non-increasing as the specification words it: [a >= b] holds between
    two consecutive cells, which takes two numbers, neither of them NaN. *)
Definition ge (a b : value) : Prop :=
  match number a, number b with
  | Some x, Some y => (y <= x)%Q
  | _, _ => False
  end.

(** The ordering of the sales analysis as the specification words it. *)
Definition sales_non_increasing (self : PharmaceuticalAnalytics) : Prop :=
  forall df totals,
    analyze_sales_performance self = Ok df ->
    column df "Total_Sales" = Ok totals ->
    Sorted ge totals.

(** In two consecutive cells [a], [b] of a column sorted in descending
    order with the missing values last: [b] is missing (NaN, or [None] in
    a column without any number), or both hold numbers and [b] is no
    greater than [a].  A missing cell is followed by missing cells only. *)
Definition non_increasing (a b : value) : Prop :=
  match b with
  | VNone | VNaN => True
  | _ => ge a b
  end.

(** [revenue / orders] for a revenue that [float] returned and a count
    that is not zero. *)
Definition quotient (revenue : value) (orders : Z) : value :=
  match number revenue with
  | Some r => VFloat (r / inject_Z orders)
  | None => VNaN
  end.

(** A row of the regional table from which [generate_detailed_report]
    can print its line: the three cells are there and the revenue is a
    number. *)
Definition region_row_ready (row : Series) : Prop :=
  exists name revenue orders,
    getitem row "Region_Name" = Ok name
    /\ getitem row "Total_Revenue" = Ok revenue
    /\ numeric revenue = true
    /\ getitem row "Total_Orders" = Ok orders.

(** No row of an inventory table is CRITICAL or OUT_OF_STOCK. *)
Definition no_critical_rows (inventory_data : DataFrame) : Prop :=
  forall status,
    column inventory_data "Stock_Status" = Ok status ->
    Forall (fun x => value_is "CRITICAL" x = false
                     /\ value_is "OUT_OF_STOCK" x = false) status.

(** Both handles of a session, if any, close without an error. *)
Definition releases_cleanly (self : PharmaceuticalAnalytics) : Prop :=
  (forall cur, cursor self = Some cur -> cursor_close cur = Ok tt)
  /\ (forall conn, connection self = Some conn -> connection_close conn = Ok tt).

(** A query result from which the summary can take its figure: the table
    is empty, or its first row holds a number under [label]. *)
Definition numeric_first_cell (df : DataFrame) (label : string) : Prop :=
  empty df = true
  \/ exists row x q,
       iloc0 df = Ok row /\ getitem row label = Ok x /\ number x = Some q.

(** A character occurs in a string. *)
Fixpoint occurs (c : Ascii.ascii) (s : string) : bool :=
  match s with
  | EmptyString => false
  | String c' s' => Ascii.eqb c c' || occurs c s'
  end.

(** Fail-soft as the specification words it: the table returned has no
    rows but has columns. *)
Definition fail_soft_with_columns (self : PharmaceuticalAnalytics)
  (query : string) (params : option (list value)) : Prop :=
  connected self = false
  \/ (exists e, pd_read_sql query (connection self) params = Raise e) ->
  exists df, execute_query self query params = Ok df
             /\ rows df = [] /\ columns df <> [].

(** The zero-stock scenario as the specification words it: whatever the
    reorder level. *)
Definition zero_stock_reorders (db : Database) : Prop :=
  forall row,
    In row (inventory_rows db) ->
    InventoryRow.Current_Stock row = 0 ->
    InventoryRow.Stock_Status row = OUT_OF_STOCK
    /\ InventoryRow.Action_Required row = REORDER_NOW.

(** ** The session orchestrator

    [main] drives one session.  What it reaches outside the class is taken
    as given: the driver's [mysql.connector.connect], the dashboard, which
    [create_comprehensive_dashboard] draws with matplotlib from the
    analysis tables and of which [main] sees only whether it raises, and
    the writing of the report file.  The connection settings, which the user
    edits in the source, are an argument.  The tables [main] prints with
    [to_string] are rendered by pandas and are not modelled. *)

Record Collaborators : Type := mkCollaborators {
  mysql_connect : gmap string value -> result Connection;
  draw_dashboard : PharmaceuticalAnalytics -> result unit;
  write_report : string -> result unit
}.

(** [try: body  finally: cleanup] *)
Definition method_finally {A} (body : method A) (cleanup : method unit)
  : method A :=
  fun self =>
    match body self with
    | (outcome, self') =>
        match cleanup self' with
        | (Ok _, self'') => (outcome, self'')
        | (Raise e, self'') => (Raise e, self'')
        end
    end.

(** The [try] block of [main]; it returns the report it wrote to
    [analytics_report.txt], or nothing when it left early. *)
Definition main_try {RT : Runtime} (world : Collaborators)
  : method (option string) :=
  ok ← connect_database (mysql_connect world);
  if negb ok then
    mret None
  else
    self ← get_self;
    summary ← call (get_executive_summary self);
    _ ← call (dict_get summary "total_revenue" ≫= format_2f);
    _ ← call (dict_get summary "total_orders" ≫= format_comma);
    _ ← call (dict_get summary "active_representatives");
    _ ← call (dict_get summary "average_order_value" ≫= format_2f);
    sales_df ← call (analyze_sales_performance self);
    inventory_df ← call (analyze_inventory_status self);
    regional_df ← call (analyze_regional_performance self);
    _ ← call (draw_dashboard world self);
    report ← call (generate_detailed_report self);
    _ ← call (write_report world report);
    mret (Some report).

(** [main] *)
Definition main {RT : Runtime} (world : Collaborators)
  (db_config : gmap string value)
  : result (option string) * PharmaceuticalAnalytics :=
  let analytics := init db_config in
  method_finally
    (method_try (main_try world) is_exception (fun e => mret None))
    close_connection
    analytics.

(** A world for the examples: the server holds [db], the dashboard is
    drawn and the report file is written. *)
Definition sample_world (db : Database) (curdate : Z) : Collaborators :=
  mkCollaborators (fun _ => Ok (test_connection db curdate))
                  (fun _ => Ok tt) (fun _ => Ok tt).

(** * Properties *)



Ltac run_in H :=
  cbn [mbind mret result_mbind result_ret result_bind] in H.

Ltac run :=
  cbn [mbind mret result_mbind result_ret result_bind].

Ltac run_method :=
  unfold method_try, mbind, method_mbind, method_bind, get_self, call,
    assign, mret, method_mret, method_ret.

Ltac step_call :=
  match goal with
  | |- context [call ?r ?s] =>
      change (call r s) with (r, s); destruct r eqn:?; cbn beta iota
  end.

Ltac case_thresholds :=
  repeat match goal with
         | |- context [?a =? ?b] => destruct (Z.eqb_spec a b)
         | |- context [?a <=? ?b] => destruct (Z.leb_spec a b)
         end.

Ltac same_list :=
  repeat (rewrite <- app_assoc || cbn [app]); reflexivity.

(** ** The gateway *)

Lemma bind_Ok {A B} (m : result A) (f : A -> result B) (b : B) :
  m ≫= f = Ok b -> exists a, m = Ok a /\ f a = Ok b.
Proof. destruct m as [a|e]; simpl; intros H; [exists a; auto | discriminate]. Qed.

Lemma bind_Raise {A B} (m : result A) (f : A -> result B) (e : exn) :
  m ≫= f = Raise e -> m = Raise e \/ exists a, m = Ok a /\ f a = Raise e.
Proof. destruct m as [a|e']; simpl; intros H; [right; exists a; auto | left; congruence]. Qed.

Lemma execute_query_returns (self : PharmaceuticalAnalytics) (query : string)
  (params : option (list value)) :
  exists df, execute_query self query params = Ok df.
Proof.
  unfold execute_query.
  destruct (connected self); simpl; [|eauto].
  destruct (pd_read_sql query (connection self) params); simpl; eauto.
Qed.

(** C1, amended: when the gateway is not connected, or when [pd.read_sql]
    raises, [execute_query] does not raise and returns [pd.DataFrame()],
    the table with no rows and no columns. *)
Theorem execute_query_fail_soft (self : PharmaceuticalAnalytics)
  (query : string) (params : option (list value)) :
  connected self = false
  \/ (exists e, pd_read_sql query (connection self) params = Raise e) ->
  execute_query self query params = Ok (mkDataFrame [] []).
Proof.
  unfold execute_query. intros [Hoff | [e He]].
  - rewrite Hoff. reflexivity.
  - destruct (connected self); simpl; [|reflexivity].
    rewrite He. reflexivity.
Qed.

Lemma execute_query_fail_soft_witness :
  execute_query never_connected "SELECT 1" None = Ok (mkDataFrame [] [])
  /\ execute_query (session_over (test_connection two_orders_db 19710))
       regional_performance_query None = Ok (mkDataFrame [] []).
Proof.
  split; apply execute_query_fail_soft.
  - left. reflexivity.
  - right. eexists. vm_compute. reflexivity.
Defined.

(** C1 as stated fails: on a session that never connected the table
    returned has no columns. *)
Lemma execute_query_no_columns :
  ~ fail_soft_with_columns never_connected "SELECT 1" None.
Proof.
  intros H. destruct H as (df & Hdf & _ & Hcols).
  - left. reflexivity.
  - vm_compute in Hdf. injection Hdf as <-. apply Hcols. reflexivity.
Qed.

(** ** The executive summary *)

Section Summary.
Context {RT : Runtime}.

Lemma first_or_zero_empty convert df label :
  empty df = true -> first_or_zero convert df label = Ok (VInt 0).
Proof. unfold first_or_zero. intros ->. reflexivity. Qed.

Lemma int_is_int x v : int x = Ok v -> exists z, v = VInt z.
Proof.
  destruct x as [|z|q| |s|d]; simpl; try discriminate.
  - intros [= <-]. eauto.
  - intros [= <-]. eauto.
  - destruct (int_of_str s); [intros [= <-]; eauto | discriminate].
Qed.

Lemma float_is_float x v :
  float x = Ok v -> v = VNaN \/ exists q, v = VFloat q.
Proof.
  destruct x as [|z|q| |s|d]; simpl; try discriminate.
  - intros [= <-]. eauto.
  - intros [= <-]. eauto.
  - intros [= <-]. auto.
  - destruct (float_of_str s); [intros [= <-]; eauto | discriminate].
Qed.

Lemma first_or_zero_int df label v :
  first_or_zero int df label = Ok v -> exists z, v = VInt z.
Proof.
  unfold first_or_zero. destruct (negb (empty df)).
  - intros H. apply bind_Ok in H as (row & _ & H).
    apply bind_Ok in H as (x & _ & H). eapply int_is_int, H.
  - intros [= <-]. eauto.
Qed.

Lemma first_or_zero_float df label v :
  first_or_zero float df label = Ok v ->
  v = VNaN \/ exists q, number v = Some q.
Proof.
  unfold first_or_zero. destruct (negb (empty df)).
  - intros H. apply bind_Ok in H as (row & _ & H).
    apply bind_Ok in H as (x & _ & H).
    apply float_is_float in H as [-> | [q ->]]; simpl; eauto.
  - intros [= <-]. simpl. eauto.
Qed.

Lemma gt_zero_int (n : Z) : gt (VInt n) (VInt 0) = Ok (0 <? n).
Proof.
  unfold gt, number, Qle_bool. simpl. f_equal.
  rewrite Z.mul_1_r. symmetry. apply Z.ltb_antisym.
Qed.

Lemma truediv_int (revenue : value) (r : Q) (n : Z) :
  number revenue = Some r -> n <> 0 ->
  truediv revenue (VInt n) = Ok (VFloat (r / inject_Z n)).
Proof.
  intros Hr Hn. unfold truediv. rewrite Hr. simpl.
  destruct (Qeq_bool (inject_Z n) 0) eqn:E; [|reflexivity].
  apply Qeq_bool_iff in E. unfold Qeq in E. simpl in E. lia.
Qed.

Lemma truediv_nan (n : Z) : n <> 0 -> truediv VNaN (VInt n) = Ok VNaN.
Proof.
  intros Hn. unfold truediv. simpl.
  destruct (Qeq_bool (inject_Z n) 0) eqn:E; [|reflexivity].
  apply Qeq_bool_iff in E. unfold Qeq in E. simpl in E. lia.
Qed.

Lemma truediv_quotient (revenue : value) (n : Z) :
  revenue = VNaN \/ (exists r, number revenue = Some r) -> n <> 0 ->
  truediv revenue (VInt n) = Ok (quotient revenue n).
Proof.
  unfold quotient. intros [-> | [r Hr]] Hn.
  - apply truediv_nan, Hn.
  - rewrite Hr. apply truediv_int; assumption.
Qed.

(** The dictionary [get_executive_summary] builds from the four values it
    read. *)
Lemma get_executive_summary_inv self summary :
  get_executive_summary self = Ok summary ->
  exists revenue orders reps stock average,
    (revenue = VNaN \/ exists r, number revenue = Some r)
    /\ summary = <["average_order_value" := average]>
                   (<["inventory_value" := stock]>
                      (<["active_representatives" := reps]>
                         (<["total_orders" := VInt orders]>
                            (<["total_revenue" := revenue]> ∅))))
    /\ ((0 <? orders) = true /\ average = quotient revenue orders
        \/ (0 <? orders) = false /\ average = VInt 0).
Proof.
  unfold get_executive_summary. intros H.
  apply bind_Ok in H as (df1 & _ & H).
  apply bind_Ok in H as (revenue & Hrev & H).
  apply bind_Ok in H as (df2 & _ & H).
  apply bind_Ok in H as (orders & Hord & H).
  apply bind_Ok in H as (df3 & _ & H).
  apply bind_Ok in H as (reps & _ & H).
  apply bind_Ok in H as (df4 & _ & H).
  apply bind_Ok in H as (stock & _ & H).
  apply first_or_zero_float in Hrev.
  apply first_or_zero_int in Hord as [n ->].
  exists revenue, n, reps, stock.
  unfold dict_get in H.
  rewrite lookup_insert_ne, lookup_insert_ne, lookup_insert_eq in H by done.
  run_in H. rewrite gt_zero_int in H. run_in H.
  destruct (0 <? n) eqn:E.
  - rewrite lookup_insert_ne, lookup_insert_ne, lookup_insert_ne,
      lookup_insert_eq in H by done.
    run_in H.
    rewrite truediv_quotient in H; [|assumption|apply Z.ltb_lt in E; lia].
    run_in H. injection H as <-.
    eexists. split; [assumption|]. split; [reflexivity|]. left. auto.
  - run_in H. injection H as <-.
    eexists. split; [assumption|]. split; [reflexivity|]. right. auto.
Qed.

Lemma lookup_label_raises idx vals key e :
  lookup_label idx vals key = Raise e -> e = KeyError key.
Proof.
  revert vals. induction idx as [|k idx IH]; simpl; intros vals.
  - congruence.
  - destruct (String.eqb k key); [discriminate | apply IH].
Qed.

Lemma float_raises x e :
  float x = Raise e -> e = TypeError \/ e = ValueError.
Proof.
  destruct x as [|z|q| |s|d]; simpl; try discriminate;
    try (intros [= <-]; auto).
  destruct (float_of_str s); [discriminate | intros [= <-]; auto].
Qed.

Lemma int_raises x e :
  int x = Raise e -> e = TypeError \/ e = ValueError.
Proof.
  destruct x as [|z|q| |s|d]; simpl; try discriminate;
    try (intros [= <-]; auto).
  destruct (int_of_str s); [discriminate | intros [= <-]; auto].
Qed.

Lemma first_or_zero_raises convert df label e :
  (forall x e', convert x = Raise e' -> e' = TypeError \/ e' = ValueError) ->
  first_or_zero convert df label = Raise e ->
  e <> ZeroDivisionError.
Proof.
  intros Hconv. unfold first_or_zero. destruct (negb (empty df)); [|discriminate].
  intros H. apply bind_Raise in H as [H | (row & Hrow & H)].
  - unfold iloc0 in H. destruct (rows df); [|discriminate]. congruence.
  - apply bind_Raise in H as [H | (x & _ & H)].
    + apply lookup_label_raises in H. congruence.
    + apply Hconv in H as [-> | ->]; discriminate.
Qed.

Lemma execute_query_no_raise self query params e :
  execute_query self query params <> Raise e.
Proof.
  destruct (execute_query_returns self query params) as [df ->]. discriminate.
Qed.

Lemma get_executive_summary_no_zero_division self :
  get_executive_summary self <> Raise ZeroDivisionError.
Proof.
  unfold get_executive_summary. intros H.
  apply bind_Raise in H as [H | (df1 & _ & H)];
    [eapply execute_query_no_raise, H|].
  apply bind_Raise in H as [H | (revenue & Hrev & H)];
    [eapply first_or_zero_raises in H; [auto | apply @float_raises]|].
  apply bind_Raise in H as [H | (df2 & _ & H)];
    [eapply execute_query_no_raise, H|].
  apply bind_Raise in H as [H | (orders & Hord & H)];
    [eapply first_or_zero_raises in H; [auto | apply @int_raises]|].
  apply bind_Raise in H as [H | (df3 & _ & H)];
    [eapply execute_query_no_raise, H|].
  apply bind_Raise in H as [H | (reps & _ & H)];
    [eapply first_or_zero_raises in H; [auto | apply @int_raises]|].
  apply bind_Raise in H as [H | (df4 & _ & H)];
    [eapply execute_query_no_raise, H|].
  apply bind_Raise in H as [H | (stock & _ & H)];
    [eapply first_or_zero_raises in H; [auto | apply @float_raises]|].
  apply first_or_zero_float in Hrev.
  apply first_or_zero_int in Hord as [n ->].
  unfold dict_get in H.
  rewrite lookup_insert_ne, lookup_insert_ne, lookup_insert_eq in H by done.
  run_in H. rewrite gt_zero_int in H. run_in H.
  destruct (0 <? n) eqn:E; [|discriminate].
  rewrite lookup_insert_ne, lookup_insert_ne, lookup_insert_ne,
    lookup_insert_eq in H by done.
  run_in H.
  rewrite truediv_quotient in H; [|assumption|apply Z.ltb_lt in E; lia].
  discriminate.
Qed.

Lemma first_or_zero_returns (convert : value -> result value) df label :
  (forall x q, number x = Some q -> exists v, convert x = Ok v) ->
  numeric_first_cell df label ->
  exists v, first_or_zero convert df label = Ok v.
Proof.
  intros Hconv [Hempty | (row & x & q & Hrow & Hx & Hq)].
  - rewrite first_or_zero_empty by assumption. eauto.
  - unfold first_or_zero. destruct (negb (empty df)); [|eauto].
    rewrite Hrow. run. rewrite Hx. run. eapply Hconv, Hq.
Qed.

Lemma float_returns x q : number x = Some q -> exists v, float x = Ok v.
Proof. destruct x; simpl; try discriminate; eauto. Qed.

Lemma int_returns x q : number x = Some q -> exists v, int x = Ok v.
Proof. destruct x; simpl; try discriminate; eauto. Qed.

(** [get_executive_summary] returns whenever each of its four results is
    empty or starts with a number. *)
Lemma get_executive_summary_returns self :
  (forall query label df,
     In (query, label)
        [(revenue_query, "total_revenue"); (orders_query, "total_orders");
         (reps_query, "active_reps"); (inventory_query, "inventory_value")] ->
     execute_query self query None = Ok df ->
     numeric_first_cell df label) ->
  exists summary, get_executive_summary self = Ok summary.
Proof.
  intros Hnum.
  destruct (execute_query_returns self revenue_query None) as [df1 E1].
  destruct (execute_query_returns self orders_query None) as [df2 E2].
  destruct (execute_query_returns self reps_query None) as [df3 E3].
  destruct (execute_query_returns self inventory_query None) as [df4 E4].
  destruct (first_or_zero_returns float df1 "total_revenue" float_returns)
    as [revenue Hrev]; [eapply Hnum; [|exact E1]; simpl; auto|].
  destruct (first_or_zero_returns int df2 "total_orders" int_returns)
    as [orders Hord]; [eapply Hnum; [|exact E2]; simpl; auto|].
  destruct (first_or_zero_returns int df3 "active_reps" int_returns)
    as [reps Hreps]; [eapply Hnum; [|exact E3]; simpl; auto|].
  destruct (first_or_zero_returns float df4 "inventory_value" float_returns)
    as [stock Hstock]; [eapply Hnum; [|exact E4]; simpl; auto 6|].
  destruct (get_executive_summary self) as [summary|e] eqn:E; [eauto|].
  exfalso. revert E. unfold get_executive_summary.
  rewrite E1. run. rewrite Hrev. run. rewrite E2. run. rewrite Hord. run.
  rewrite E3. run. rewrite Hreps. run. rewrite E4. run. rewrite Hstock. run.
  pose proof (first_or_zero_float _ _ _ Hrev) as Hr.
  destruct (first_or_zero_int _ _ _ Hord) as [n ->].
  unfold dict_get.
  rewrite lookup_insert_ne, lookup_insert_ne, lookup_insert_eq by done.
  run. rewrite gt_zero_int. run.
  destruct (0 <? n) eqn:Hn; [|discriminate].
  rewrite lookup_insert_ne, lookup_insert_ne, lookup_insert_ne,
    lookup_insert_eq by done.
  run. rewrite truediv_quotient; [|assumption|apply Z.ltb_lt in Hn; lia].
  discriminate.
Qed.

(** The arithmetic of the average: [get_executive_summary] never raises
    [ZeroDivisionError], and in every dictionary it returns
    [average_order_value] is [total_revenue / total_orders] when
    [total_orders > 0] and [0] otherwise. *)
Lemma average_order_value_relation (self : PharmaceuticalAnalytics) :
  get_executive_summary self <> Raise ZeroDivisionError
  /\ forall summary,
       get_executive_summary self = Ok summary ->
       exists revenue orders,
         summary !! "total_revenue" = Some revenue
         /\ summary !! "total_orders" = Some (VInt orders)
         /\ (0 < orders ->
             summary !! "average_order_value"
             = Some (quotient revenue orders))
         /\ (orders <= 0 ->
             summary !! "average_order_value" = Some (VInt 0)).
Proof.
  split; [apply get_executive_summary_no_zero_division|].
  intros summary H.
  apply get_executive_summary_inv in H
    as (revenue & orders & reps & stock & average & Hr & -> & Havg).
  exists revenue, orders.
  split; [|split; [|split]].
  - rewrite !lookup_insert_ne by done. apply lookup_insert_eq.
  - rewrite !lookup_insert_ne by done. apply lookup_insert_eq.
  - intros Hpos. rewrite lookup_insert_eq.
    destruct Havg as [[_ ->] | [E _]]; [reflexivity|].
    apply Z.ltb_ge in E. lia.
  - intros Hle. rewrite lookup_insert_eq.
    destruct Havg as [[E _] | [_ ->]]; [|reflexivity].
    apply Z.ltb_lt in E. lia.
Qed.

(** C10: when each of the four queries yields an empty table,
    [get_executive_summary] returns a dictionary with exactly the keys
    [total_revenue], [total_orders], [active_representatives],
    [inventory_value] and [average_order_value], each holding [0]. *)
Theorem summary_of_empty_tables (self : PharmaceuticalAnalytics) :
  (forall query,
     In query [revenue_query; orders_query; reps_query; inventory_query] ->
     exists df, execute_query self query None = Ok df /\ empty df = true) ->
  exists summary,
    get_executive_summary self = Ok summary
    /\ dom summary
       = {[ "total_revenue"; "total_orders"; "active_representatives";
            "inventory_value"; "average_order_value" ]}
    /\ summary !! "total_revenue" = Some (VInt 0)
    /\ summary !! "total_orders" = Some (VInt 0)
    /\ summary !! "active_representatives" = Some (VInt 0)
    /\ summary !! "inventory_value" = Some (VInt 0)
    /\ summary !! "average_order_value" = Some (VInt 0).
Proof.
  intros Hempty.
  destruct (Hempty revenue_query) as (df1 & E1 & Z1); [simpl; auto|].
  destruct (Hempty orders_query) as (df2 & E2 & Z2); [simpl; auto|].
  destruct (Hempty reps_query) as (df3 & E3 & Z3); [simpl; auto|].
  destruct (Hempty inventory_query) as (df4 & E4 & Z4); [simpl; auto 6|].
  unfold get_executive_summary.
  rewrite E1, E2, E3, E4. cbn [mbind result_mbind result_bind].
  rewrite !first_or_zero_empty by assumption.
  cbn [mbind result_mbind result_bind].
  unfold dict_get.
  rewrite lookup_insert_ne, lookup_insert_ne, lookup_insert_eq by done.
  cbn [mbind result_mbind result_bind].
  rewrite gt_zero_int. cbn [mbind mret result_mbind result_ret result_bind].
  change (0 <? 0) with false. cbv iota.
  eexists. split; [reflexivity|].
  split.
  - rewrite !dom_insert_L, dom_empty_L. set_solver.
  - repeat split;
      repeat (rewrite lookup_insert_ne by done); apply lookup_insert_eq.
Qed.

End Summary.

(** C5 fails on the code: when no order is left once the cancelled ones
    are set aside, the order count is 0, the case for which the claim asks
    an average of 0; but the revenue statement answers NULL over the same
    orders, [float(None)] raises [TypeError] and no summary is returned.
    The guard [total_orders > 0] is never reached. *)
Theorem zero_orders_summary_raises :
  let self := session_over (test_connection cancelled_line_db 19710) in
  connected self = true
  /\ execute_query self orders_query None
     = Ok (mkDataFrame ["total_orders"] [[VInt 0]])
  /\ execute_query self revenue_query None
     = Ok (mkDataFrame ["total_revenue"] [[VNone]])
  /\ forall RT : Runtime, @get_executive_summary RT self = Raise TypeError.
Proof.
  intros self.
  assert (E : execute_query self revenue_query None
              = Ok (mkDataFrame ["total_revenue"] [[VNone]]))
    by (vm_compute; reflexivity).
  split; [reflexivity|]. split; [vm_compute; reflexivity|].
  split; [exact E|].
  intros RT. unfold get_executive_summary. rewrite E. reflexivity.
Qed.

Lemma summary_of_empty_tables_witness :
  exists summary,
    @get_executive_summary sample_runtime never_connected = Ok summary
    /\ summary !! "average_order_value" = Some (VInt 0).
Proof.
  destruct (summary_of_empty_tables (RT := sample_runtime) never_connected)
    as (summary & H & _ & _ & _ & _ & _ & Havg).
  - intros query _. exists DataFrame_new. split; reflexivity.
  - exists summary. split; assumption.
Defined.

(** ** Closing the session *)

Lemma close_connection_never_raises (self : PharmaceuticalAnalytics) :
  fst (close_connection self) = Ok tt.
Proof.
  unfold close_connection. run_method.
  destruct (cursor self) as [cur|]; [destruct (cursor_close cur)|];
    (destruct (connection self) as [conn|]; [destruct (connection_close conn)|]);
    reflexivity.
Qed.

Lemma close_connection_disconnects (self : PharmaceuticalAnalytics) :
  releases_cleanly self ->
  connected (snd (close_connection self)) = false.
Proof.
  intros [Hcur Hconn].
  unfold close_connection. run_method.
  destruct (cursor self) as [cur|]; [rewrite (Hcur cur eq_refl)|];
    (destruct (connection self) as [conn|]; [rewrite (Hconn conn eq_refl)|]);
    reflexivity.
Qed.

Lemma close_connection_release_error (self : PharmaceuticalAnalytics) cur e :
  cursor self = Some cur -> cursor_close cur = Raise e ->
  close_connection self = (Ok tt, self).
Proof.
  intros Hcur He.
  unfold close_connection. run_method.
  rewrite Hcur, He. reflexivity.
Qed.

Lemma close_connection_second_release_error (self : PharmaceuticalAnalytics)
  conn e :
  (forall cur, cursor self = Some cur -> cursor_close cur = Ok tt) ->
  connection self = Some conn -> connection_close conn = Raise e ->
  close_connection self = (Ok tt, self).
Proof.
  intros Hcur Hconn He. unfold close_connection. run_method.
  destruct (cursor self) as [cur|]; [rewrite (Hcur cur eq_refl)|];
    rewrite Hconn, He; reflexivity.
Qed.

(** C3 fails on the code: when the cursor refuses to close,
    [close_connection] returns without raising but leaves [connected]
    set. *)
Theorem close_connection_stays_connected :
  let self := session_over (busy_connection two_orders_db 19710) in
  connected self = true
  /\ fst (close_connection self) = Ok tt
  /\ connected (snd (close_connection self)) = true.
Proof. vm_compute. auto. Qed.

(** ** The report on a failed inventory query *)

Section FailedInventoryQuery.
Context {RT : Runtime}.

Lemma report_raises_when_disconnected (self : PharmaceuticalAnalytics) :
  connected self = false ->
  generate_detailed_report self = Raise (KeyError "Stock_Status").
Proof.
  destruct self as [config conn cur flag]. simpl. intros ->.
  vm_compute. reflexivity.
Qed.

Lemma report_needs_inventory_columns (self : PharmaceuticalAnalytics)
  (text : string) :
  analyze_inventory_status self = Ok DataFrame_new ->
  generate_detailed_report self <> Ok text.
Proof.
  intros Hinv Htext. unfold generate_detailed_report in Htext.
  apply bind_Ok in Htext as (report & H & _).
  unfold report_lines in H.
  apply bind_Ok in H as (summary & _ & H).
  apply bind_Ok in H as (total_revenue & _ & H).
  apply bind_Ok in H as (total_orders & _ & H).
  apply bind_Ok in H as (active & _ & H).
  apply bind_Ok in H as (average & _ & H).
  apply bind_Ok in H as (inventory_value & _ & H).
  apply bind_Ok in H as (sales_data & _ & H).
  apply bind_Ok in H as (report1 & _ & H).
  apply bind_Ok in H as (inventory_data & Hinv' & H).
  rewrite Hinv in Hinv'. injection Hinv' as <-.
  apply bind_Ok in H as (status & Hstatus & _).
  discriminate Hstatus.
Qed.

(** C2 fails on the code: on a connected session whose inventory-status
    statement fails, [analyze_inventory_status] returns the empty table and
    [generate_detailed_report] raises [KeyError] instead of leaving the
    alerts section out. *)
Theorem report_raises_on_failed_inventory_query :
  let self :=
    session_over (inventory_unavailable (test_connection two_orders_db 19710)) in
  connected self = true
  /\ analyze_inventory_status self = Ok DataFrame_new
  /\ generate_detailed_report self = Raise (KeyError "Stock_Status").
Proof. vm_compute. auto. Qed.

(** The same on a session that never connected: the inventory table is
    [pd.DataFrame()], which has no CRITICAL and no OUT_OF_STOCK row, and no
    report text is returned. *)
Lemma report_raises_on_empty_inventory_table :
  analyze_inventory_status never_connected = Ok DataFrame_new
  /\ empty DataFrame_new = true
  /\ no_critical_rows DataFrame_new
  /\ generate_detailed_report never_connected = Raise (KeyError "Stock_Status").
Proof.
  split; [reflexivity|]. split; [reflexivity|]. split.
  - intros status H. discriminate H.
  - apply report_raises_when_disconnected. reflexivity.
Qed.

End FailedInventoryQuery.

(** ** Ordering *)

Lemma desc_total (a b : option Q) : desc a b = false -> desc b a = true.
Proof.
  destruct a as [x|], b as [y|]; simpl; try discriminate; try reflexivity.
  intros H. apply Qle_bool_iff.
  destruct (Qlt_le_dec x y) as [Hlt | Hle].
  - apply Qlt_le_weak, Hlt.
  - apply Qle_bool_iff in Hle. congruence.
Qed.

Lemma order_by_desc_sorted {A} (key : A -> option Q) (l : list A) :
  Sorted (fun x y => Is_true (desc (key x) (key y)))
         (order_by (fun x y => desc (key x) (key y)) l).
Proof.
  unfold order_by. apply Sorted_merge_sort.
  intros x y. destruct (desc (key x) (key y)) eqn:E.
  - left. exact I.
  - right. rewrite (desc_total _ _ E). exact I.
Qed.

Lemma order_by_In {A} (before : A -> A -> bool) (l : list A) (x : A) :
  In x (order_by before l) <-> In x l.
Proof.
  unfold order_by. split; apply Permutation_in.
  - apply merge_sort_Permutation.
  - symmetry. apply merge_sort_Permutation.
Qed.

Lemma Sorted_map {A B} (R1 : A -> A -> Prop) (R2 : B -> B -> Prop)
  (f : A -> B) (l : list A) :
  (forall x y, R1 x y -> R2 (f x) (f y)) ->
  Sorted R1 l -> Sorted R2 (map f l).
Proof.
  intros HR. induction 1 as [|x l Hl IH Hhd]; simpl; constructor; [assumption|].
  destruct Hhd; simpl; constructor. auto.
Qed.

Lemma desc_non_increasing (col : list (option Q)) (a b : option Q) :
  Is_true (desc a b) ->
  non_increasing (decimal_cell col a) (decimal_cell col b).
Proof.
  destruct a as [x|], b as [y|]; simpl; try tauto.
  - intros H. apply Qle_bool_iff, Is_true_true, H.
  - intros _. destruct (has_value col); exact I.
  - intros _. destruct (has_value col); exact I.
Qed.

Lemma sales_table_total_sales (db : Database) (curdate : Z) :
  column (sales_table db curdate) "Total_Sales"
  = Ok (map (fun r =>
               decimal_cell (map SalesRow.Total_Sales (sales_rows db curdate))
                            (SalesRow.Total_Sales r))
            (sales_rows db curdate)).
Proof.
  unfold column, sales_table. cbn [columns rows].
  change (existsb (String.eqb "Total_Sales") sales_columns) with true.
  cbv iota. f_equal. rewrite map_map. reflexivity.
Qed.

Lemma evaluate_sales (db : Database) (curdate : Z) :
  evaluate db curdate sales_performance_query = Some (sales_table db curdate).
Proof. reflexivity. Qed.

Lemma execute_query_served self db curdate query expected df :
  session_on self db curdate ->
  evaluate db curdate query = Some expected ->
  execute_query self query None = Ok df ->
  df = DataFrame_new \/ df = expected.
Proof.
  intros Hon Heval. unfold execute_query.
  destruct (connected self); simpl; [|intros [= <-]; auto].
  unfold pd_read_sql.
  destruct (connection self) as [conn|] eqn:Hconn; simpl; [|intros [= <-]; auto].
  destruct (read_sql conn query None) as [df'|e] eqn:Hread; simpl;
    intros [= <-]; [right|auto].
  eapply (Hon conn Hconn); eassumption.
Qed.

(** C9, amended: on a session whose connection, if any, is to a server
    holding [db], [analyze_sales_performance] returns a table, either the
    empty one or the one the server computes, and its [Total_Sales] column
    is in descending order with the missing totals last: from each row to
    the next the total does not increase as long as the next row has one,
    and a row without a total is followed by such rows only. *)
Theorem sales_performance_sorted (self : PharmaceuticalAnalytics)
  (db : Database) (curdate : Z) :
  session_on self db curdate ->
  exists df,
    analyze_sales_performance self = Ok df
    /\ (df = DataFrame_new \/ df = sales_table db curdate)
    /\ forall totals,
         column df "Total_Sales" = Ok totals -> Sorted non_increasing totals.
Proof.
  intros Hon. unfold analyze_sales_performance.
  destruct (execute_query_returns self sales_performance_query None) as [df Hdf].
  exists df. split; [assumption|].
  pose proof (execute_query_served _ _ _ _ _ _ Hon (evaluate_sales db curdate) Hdf)
    as Hcases.
  split; [assumption|].
  intros totals Hcol. destruct Hcases as [-> | ->].
  - discriminate.
  - rewrite sales_table_total_sales in Hcol. injection Hcol as <-.
    apply Sorted_map
      with (R1 := fun x y => Is_true (desc (SalesRow.Total_Sales x)
                                           (SalesRow.Total_Sales y))).
    + intros x y. apply desc_non_increasing.
    + apply (order_by_desc_sorted SalesRow.Total_Sales).
Qed.

Lemma test_connection_serves db curdate : serves (test_connection db curdate) db curdate.
Proof.
  intros query params df expected. simpl.
  destruct (evaluate db curdate query); [|discriminate]. congruence.
Qed.

Lemma session_over_test db curdate :
  session_on (session_over (test_connection db curdate)) db curdate.
Proof.
  intros conn. vm_compute. intros [= <-]. apply test_connection_serves.
Qed.

Lemma sales_performance_sorted_witness :
  exists totals,
    (analyze_sales_performance (session_over (test_connection three_reps_db 19710))
     ≫= fun df => column df "Total_Sales") = Ok totals
    /\ Sorted non_increasing totals.
Proof.
  destruct (sales_performance_sorted
              (session_over (test_connection three_reps_db 19710))
              three_reps_db 19710 (session_over_test _ _))
    as (df & Hdf & _ & Hsorted).
  exists [VFloat 900; VFloat 250; VNaN].
  assert (E : analyze_sales_performance
                (session_over (test_connection three_reps_db 19710))
              = Ok (sales_table three_reps_db 19710)) by (vm_compute; reflexivity).
  rewrite E in Hdf. injection Hdf as <-.
  split; [vm_compute; reflexivity|].
  apply Hsorted. vm_compute. reflexivity.
Defined.

(** C9 as stated fails: the representative without orders is listed last
    with a total of NaN, and 250 >= NaN does not hold. *)
Lemma sales_total_not_non_increasing :
  ~ sales_non_increasing (session_over (test_connection three_reps_db 19710)).
Proof.
  intros H.
  specialize (H (sales_table three_reps_db 19710)
                [VFloat 900; VFloat 250; VNaN]).
  assert (Hsorted : Sorted ge [VFloat 900; VFloat 250; VNaN])
    by (apply H; vm_compute; reflexivity).
  inversion Hsorted as [|a l Htail _]; subst.
  inversion Htail as [|a l _ Hhd]; subst.
  inversion Hhd as [|b l Hge]; subst.
  exact Hge.
Qed.

(** ** Inventory classification *)

Lemma Qle_bool_tenths (q r : Z) (n : positive) :
  Qle_bool (inject_Z q) (inject_Z r * (Zpos n # 10))
  = (10 * q <=? Zpos n * r).
Proof.
  unfold Qle_bool, Qmult, inject_Z. cbn [Qnum Qden].
  destruct (Z.leb_spec (q * Zpos (1 * 10)) (r * Zpos n * 1)),
           (Z.leb_spec (10 * q) (Zpos n * r)); try reflexivity; lia.
Qed.

Lemma Stock_Status_spec (stock reorder : Z) :
  Stock_Status stock reorder = spec_stock_bucket stock reorder.
Proof.
  unfold Stock_Status, spec_stock_bucket, within_percent.
  change 0.3%Q with (3 # 10)%Q. change 0.6%Q with (6 # 10)%Q.
  rewrite !Qle_bool_tenths.
  destruct (stock =? 0); [reflexivity|].
  replace (100 * stock <=? 30 * reorder) with (10 * stock <=? 3 * reorder)
    by (destruct (Z.leb_spec (10 * stock) (3 * reorder)),
                 (Z.leb_spec (100 * stock) (30 * reorder)); try reflexivity; lia).
  replace (100 * stock <=? 60 * reorder) with (10 * stock <=? 6 * reorder)
    by (destruct (Z.leb_spec (10 * stock) (6 * reorder)),
                 (Z.leb_spec (100 * stock) (60 * reorder)); try reflexivity; lia).
  replace (100 * stock <=? 100 * reorder) with (stock <=? reorder)
    by (destruct (Z.leb_spec stock reorder),
                 (Z.leb_spec (100 * stock) (100 * reorder)); try reflexivity; lia).
  reflexivity.
Qed.

Lemma spec_stock_bucket_boundaries (stock reorder : Z) :
  (100 * stock = 30 * reorder ->
   bucket_number (spec_stock_bucket stock reorder) <= 2)
  /\ (100 * stock = 60 * reorder ->
      bucket_number (spec_stock_bucket stock reorder) <= 3)
  /\ (stock = reorder ->
      bucket_number (spec_stock_bucket stock reorder) <= 4)
  /\ (0 < reorder ->
      (100 * stock = 30 * reorder -> spec_stock_bucket stock reorder = CRITICAL)
      /\ (100 * stock = 60 * reorder -> spec_stock_bucket stock reorder = LOW)
      /\ (stock = reorder -> spec_stock_bucket stock reorder = MODERATE)).
Proof.
  unfold spec_stock_bucket, within_percent.
  destruct (Z.eqb_spec stock 0);
    destruct (Z.leb_spec (100 * stock) (30 * reorder));
    destruct (Z.leb_spec (100 * stock) (60 * reorder));
    destruct (Z.leb_spec (100 * stock) (100 * reorder));
    simpl; repeat split; intros; try reflexivity; try lia.
Qed.

Lemma inventory_rows_selected (db : Database) (row : InventoryRow.row) :
  In row (inventory_rows db) ->
  exists p i, In p (Product db) /\ In i (Inventory db)
              /\ ProductT.Product_ID p = InventoryT.Product_ID i
              /\ row = inventory_select (p, i).
Proof.
  unfold inventory_rows. rewrite order_by_In, in_map_iff.
  intros ([p i] & <- & Hin). exists p, i.
  unfold inner_join in Hin. apply in_flat_map in Hin as (p' & Hp & Hin).
  apply in_map_iff in Hin as (i' & [= -> ->] & Hin).
  apply filter_In in Hin as [Hi Heq].
  repeat split; try assumption. apply Z.eqb_eq, Heq.
Qed.

(** C6: in every row of the inventory analysis the status is the bucket
    the specification's percentages give for (stock, reorder level); a
    stock at exactly 30%, 60% or 100% of the reorder level is never in the
    laxer bucket, and for a positive reorder level it is CRITICAL, LOW and
    MODERATE respectively. *)
Theorem stock_status_thresholds (db : Database) (row : InventoryRow.row) :
  In row (inventory_rows db) ->
  let stock := InventoryRow.Current_Stock row in
  let reorder := InventoryRow.Reorder_Level row in
  let status := InventoryRow.Stock_Status row in
  status = spec_stock_bucket stock reorder
  /\ (100 * stock = 30 * reorder -> bucket_number status <= 2)
  /\ (100 * stock = 60 * reorder -> bucket_number status <= 3)
  /\ (stock = reorder -> bucket_number status <= 4)
  /\ (0 < reorder ->
      (100 * stock = 30 * reorder -> status = CRITICAL)
      /\ (100 * stock = 60 * reorder -> status = LOW)
      /\ (stock = reorder -> status = MODERATE)).
Proof.
  intros Hin. apply inventory_rows_selected in Hin as (p & i & _ & _ & _ & ->).
  cbn [inventory_select InventoryRow.Current_Stock InventoryRow.Reorder_Level
       InventoryRow.Stock_Status].
  rewrite Stock_Status_spec. split; [reflexivity|].
  apply spec_stock_bucket_boundaries.
Qed.

Lemma Action_Required_zero (reorder : Z) :
  Action_Required 0 reorder = if 0 <=? reorder then REORDER_NOW else SUFFICIENT.
Proof.
  unfold Action_Required. change 1.5%Q with (15 # 10)%Q.
  rewrite Qle_bool_tenths.
  destruct (Z.leb_spec 0 reorder); [reflexivity|].
  destruct (Z.leb_spec (10 * 0) (15 * reorder)); [lia | reflexivity].
Qed.

(** C4, amended: a row with no stock is OUT_OF_STOCK whatever its reorder
    level; its action is REORDER_NOW when the reorder level is not
    negative, and SUFFICIENT when it is. *)
Theorem zero_stock_classification (db : Database) (row : InventoryRow.row) :
  In row (inventory_rows db) ->
  InventoryRow.Current_Stock row = 0 ->
  InventoryRow.Stock_Status row = OUT_OF_STOCK
  /\ (0 <= InventoryRow.Reorder_Level row ->
      InventoryRow.Action_Required row = REORDER_NOW)
  /\ (InventoryRow.Reorder_Level row < 0 ->
      InventoryRow.Action_Required row = SUFFICIENT).
Proof.
  intros Hin. apply inventory_rows_selected in Hin as (p & i & _ & _ & _ & ->).
  cbn [inventory_select InventoryRow.Current_Stock InventoryRow.Reorder_Level
       InventoryRow.Stock_Status InventoryRow.Action_Required].
  intros ->. rewrite Action_Required_zero.
  split; [reflexivity|].
  split; intros H.
  - apply Z.leb_le in H. rewrite H. reflexivity.
  - apply Z.leb_gt in H. rewrite H. reflexivity.
Qed.

Lemma zero_stock_classification_witness :
  let row := inventory_select (ProductT.mk 3 "Heparin" "Anticoagulant" 12,
                               InventoryT.mk 3 0 25 "Aisle 2") in
  In row (inventory_rows three_reps_db)
  /\ InventoryRow.Stock_Status row = OUT_OF_STOCK
  /\ InventoryRow.Action_Required row = REORDER_NOW.
Proof.
  intros row.
  assert (Hin : In row (inventory_rows three_reps_db))
    by (vm_compute; auto 10).
  destruct (zero_stock_classification three_reps_db row Hin eq_refl)
    as (Hstatus & Haction & _).
  split; [exact Hin|]. split; [exact Hstatus|].
  apply Haction. simpl. lia.
Defined.

(** C4 as stated fails: out of stock with reorder level -1, the action is
    SUFFICIENT. *)
Lemma zero_stock_negative_reorder : ~ zero_stock_reorders negative_reorder_db.
Proof.
  intros H.
  destruct (H (inventory_select (ProductT.mk 1 "Aspirin" "Analgesic" 2.5,
                                 InventoryT.mk 1 0 (-1) "Aisle 1")))
    as [_ Haction].
  - vm_compute. auto.
  - reflexivity.
  - vm_compute in Haction. discriminate.
Qed.

Lemma stock_status_thresholds_witness :
  let row := inventory_select (ProductT.mk 2 "Insulin" "Hormone" 30,
                               InventoryT.mk 2 3 10 "Cold room") in
  In row (inventory_rows three_reps_db)
  /\ InventoryRow.Stock_Status row = CRITICAL.
Proof.
  intros row.
  assert (Hin : In row (inventory_rows three_reps_db))
    by (vm_compute; auto 10).
  destruct (stock_status_thresholds three_reps_db row Hin)
    as (_ & _ & _ & _ & Hexact).
  split; [exact Hin|].
  apply Hexact; [simpl; lia | reflexivity].
Defined.

(** ** Cancelled orders *)

(** C7 fails on the code: the only order line of the product belongs to
    a cancelled order, and [analyze_product_performance] still reports
    its 500.00 as [Total_Revenue]. *)
Theorem product_revenue_counts_cancelled_order :
  let self := session_over (test_connection cancelled_line_db 19710) in
  Forall (fun o => OrdersT.Order_Status o = "Cancelled") (Orders cancelled_line_db)
  /\ (analyze_product_performance self ≫= fun df => column df "Total_Revenue")
     = Ok [VFloat 500].
Proof.
  split.
  - repeat constructor.
  - vm_compute. reflexivity.
Qed.

(** The scenario of the specification: a delivered order of 100.00 and a
    cancelled one of 500.00 give a revenue of 100.00 over one order. *)
Lemma summary_scenario :
  @get_executive_summary sample_runtime
    (session_over (test_connection two_orders_db 19710))
  ≫= (fun summary => mret (summary !! "total_revenue", summary !! "total_orders"))
  = Ok (Some (VFloat 100), Some (VInt 1)).
Proof. vm_compute. reflexivity. Qed.

(** ** The alerts section of the report *)

Section Alerts.
Context {RT : Runtime}.

Lemma occurs_app (c : Ascii.ascii) (a b : string) :
  occurs c (a +:+ b) = occurs c a || occurs c b.
Proof.
  induction a as [|c' a IH]; simpl; [reflexivity|].
  rewrite IH. apply orb_assoc.
Qed.




Lemma mapM_Forall {A B} (f : A -> result B) (P : B -> Prop) (l : list A)
  (ys : list B) :
  (forall x y, f x = Ok y -> P y) ->
  mapM f l = Ok ys -> Forall P ys.
Proof.
  intros Hf. revert ys. induction l as [|x l IH]; simpl; intros ys H.
  - injection H as <-. constructor.
  - apply bind_Ok in H as (y & Hy & H).
    apply bind_Ok in H as (k & Hk & H).
    injection H as <-. constructor; eauto.
Qed.





End Alerts.


(** * Further properties *)

(** ** Opening the session *)

(** What [connect_database] leaves behind, case by case. *)
Lemma connect_database_cases mysql_connect (self : PharmaceuticalAnalytics) :
  match mysql_connect (db_config self) with
  | Raise e =>
      connect_database mysql_connect self
      = if is_mysql_error e then (Ok false, set_connected false self)
        else (Raise e, self)
  | Ok conn =>
      match connection_cursor conn with
      | Raise e =>
          connect_database mysql_connect self
          = if is_mysql_error e
            then (Ok false, set_connected false (set_connection (Some conn) self))
            else (Raise e, set_connection (Some conn) self)
      | Ok cur =>
          let self' :=
            set_connected true
              (set_cursor (Some cur) (set_connection (Some conn) self)) in
          connect_database mysql_connect self
          = match db_config self !! "database" with
            | Some _ => (Ok true, self')
            | None => (Raise (KeyError "database"), self')
            end
      end
  end.
Proof.
  unfold connect_database. run_method. unfold dict_get.
  destruct (mysql_connect (db_config self)) as [conn|e]; [|destruct e; reflexivity].
  destruct (connection_cursor conn) as [cur|e]; [|destruct e; reflexivity].
  simpl. destruct (db_config self !! "database"); reflexivity.
Qed.

Lemma connect_database_inv mysql_connect (self self' : PharmaceuticalAnalytics)
  (ok : bool) :
  connect_database mysql_connect self = (Ok ok, self') ->
  connected self' = ok
  /\ (ok = true ->
      exists conn cur,
        mysql_connect (db_config self) = Ok conn
        /\ connection_cursor conn = Ok cur
        /\ connection self' = Some conn /\ cursor self' = Some cur).
Proof.
  pose proof (connect_database_cases mysql_connect self) as H.
  destruct (mysql_connect (db_config self)) as [conn|e] eqn:Hconn.
  - destruct (connection_cursor conn) as [cur|e] eqn:Hcur.
    + cbv zeta in H. rewrite H.
      destruct (db_config self !! "database"); [|discriminate].
      intros [= <- <-]. split; [reflexivity|]. intros _. exists conn, cur.
      repeat split; assumption || reflexivity.
    + rewrite H. destruct (is_mysql_error e); [|discriminate].
      intros [= <- <-]. split; [reflexivity | discriminate].
  - rewrite H. destruct (is_mysql_error e); [|discriminate].
    intros [= <- <-]. split; [reflexivity | discriminate].
Qed.

(** X1: whenever [connect_database] returns, the value it returns is the
    [connected] flag it leaves behind; it returns [True] only when the
    driver handed out a connection and that connection a cursor, and both
    are then stored in the object. *)
Theorem connect_database_flag mysql_connect (self self' : PharmaceuticalAnalytics)
  (ok : bool) :
  connect_database mysql_connect self = (Ok ok, self') ->
  connected self' = ok
  /\ (ok = true ->
      exists conn cur,
        mysql_connect (db_config self) = Ok conn
        /\ connection_cursor conn = Ok cur
        /\ connection self' = Some conn /\ cursor self' = Some cur).
Proof. apply connect_database_inv. Qed.

Lemma connect_database_flag_witness :
  connected (session_over (test_connection two_orders_db 19710)) = true.
Proof.
  apply (connect_database_flag (fun _ => Ok (test_connection two_orders_db 19710))
           never_connected).
  vm_compute. reflexivity.
Defined.

(** X2: when [mysql.connector.connect], or [cursor()] on the connection it
    returned, raises [mysql.connector.Error], [connect_database] does not
    raise: it returns [False], leaves [connected] false and touches neither
    the cursor nor the configuration. *)
Theorem connect_database_mysql_error mysql_connect (self : PharmaceuticalAnalytics) :
  (exists msg, mysql_connect (db_config self) = Raise (MySQLError msg))
  \/ (exists conn msg,
        mysql_connect (db_config self) = Ok conn
        /\ connection_cursor conn = Raise (MySQLError msg)) ->
  exists self',
    connect_database mysql_connect self = (Ok false, self')
    /\ connected self' = false
    /\ cursor self' = cursor self
    /\ db_config self' = db_config self.
Proof.
  pose proof (connect_database_cases mysql_connect self) as H.
  intros [[msg Hconn] | (conn & msg & Hconn & Hcur)].
  - rewrite Hconn in H. eexists. split; [exact H|]. auto.
  - rewrite Hconn, Hcur in H. eexists. split; [exact H|]. auto.
Qed.

Lemma connect_database_mysql_error_witness :
  exists self',
    connect_database (fun _ => Raise (MySQLError "Access denied")) never_connected
    = (Ok false, self')
    /\ connected self' = false.
Proof.
  destruct (connect_database_mysql_error
              (fun _ => Raise (MySQLError "Access denied")) never_connected)
    as (self' & H & Hflag & _).
  - left. exists "Access denied". reflexivity.
  - exists self'. split; assumption.
Defined.

(** X3: with a configuration that has no ['database'] key,
    [connect_database] raises [KeyError] from its success message, after the
    session is open: [connected] is already true and both handles are
    stored. The handler of [mysql.connector.Error] does not catch it. *)
Theorem connect_database_without_database_key mysql_connect
  (self : PharmaceuticalAnalytics) conn cur :
  mysql_connect (db_config self) = Ok conn ->
  connection_cursor conn = Ok cur ->
  db_config self !! "database" = None ->
  exists self',
    connect_database mysql_connect self = (Raise (KeyError "database"), self')
    /\ connected self' = true
    /\ connection self' = Some conn
    /\ cursor self' = Some cur.
Proof.
  intros Hconn Hcur Hkey.
  pose proof (connect_database_cases mysql_connect self) as H.
  rewrite Hconn, Hcur, Hkey in H. eexists. split; [exact H|]. auto.
Qed.

Lemma connect_database_without_database_key_witness :
  exists self',
    connect_database (fun _ => Ok (test_connection two_orders_db 19710)) (init ∅)
    = (Raise (KeyError "database"), self')
    /\ connected self' = true.
Proof.
  destruct (connect_database_without_database_key
              (fun _ => Ok (test_connection two_orders_db 19710)) (init ∅)
              (test_connection two_orders_db 19710) (mkCursor (Ok tt)))
    as (self' & H & Hflag & _); try reflexivity.
  exists self'. split; assumption.
Defined.

(** X4: on a session that [connect_database] has just opened, [execute_query]
    reads from the connection the driver handed out: it returns the table
    [pd.read_sql] returns there, and the empty table when that raises. *)
Theorem query_after_connect mysql_connect (self self' : PharmaceuticalAnalytics)
  conn query params :
  connect_database mysql_connect self = (Ok true, self') ->
  mysql_connect (db_config self) = Ok conn ->
  execute_query self' query params
  = match read_sql conn query params with
    | Ok df => Ok df
    | Raise _ => Ok (mkDataFrame [] [])
    end.
Proof.
  intros Hopen Hconn.
  destruct (connect_database_inv _ _ _ _ Hopen) as [Hflag Hhandles].
  destruct (Hhandles eq_refl) as (conn' & cur & Hconn' & _ & Hc & _).
  rewrite Hconn in Hconn'. injection Hconn' as <-.
  unfold execute_query, pd_read_sql. rewrite Hflag, Hc. simpl.
  destruct (read_sql conn query params); reflexivity.
Qed.

Lemma query_after_connect_witness :
  execute_query (session_over (test_connection two_orders_db 19710))
    orders_query None
  = Ok (orders_table two_orders_db).
Proof.
  apply (query_after_connect (fun _ => Ok (test_connection two_orders_db 19710))
           never_connected _ (test_connection two_orders_db 19710)).
  - vm_compute. reflexivity.
  - reflexivity.
Defined.

(** ** Closing the session, continued *)

(** X5: [close_connection] never raises, keeps the configuration and both
    handles in the object (it does not reset them to [None]), and changes
    [connected], if at all, to false. *)
Theorem close_connection_touches_only_the_flag (self : PharmaceuticalAnalytics) :
  let after := snd (close_connection self) in
  fst (close_connection self) = Ok tt
  /\ db_config after = db_config self
  /\ connection after = connection self
  /\ cursor after = cursor self
  /\ (connected after = false \/ connected after = connected self).
Proof.
  unfold close_connection. run_method.
  destruct self as [config conn cur flag]. cbn [cursor connection].
  destruct cur as [cur|]; [destruct (cursor_close cur)|];
    (destruct conn as [conn|]; [destruct (connection_close conn)|]);
    cbn; repeat split; auto.
Qed.

(** X6: once [close_connection] has closed both handles without error,
    every query on the object is refused: [execute_query] returns the
    empty table [pd.DataFrame()] without reading the connection. *)
Theorem query_after_close (self : PharmaceuticalAnalytics) (query : string)
  (params : option (list value)) :
  releases_cleanly self ->
  execute_query (snd (close_connection self)) query params
  = Ok (mkDataFrame [] []).
Proof.
  intros Hclean. unfold execute_query.
  rewrite (close_connection_disconnects self Hclean). reflexivity.
Qed.

Lemma query_after_close_witness :
  execute_query
    (snd (close_connection (session_over (test_connection two_orders_db 19710))))
    orders_query None
  = Ok (mkDataFrame [] []).
Proof.
  apply query_after_close. split.
  - intros cur. vm_compute. intros [= <-]. reflexivity.
  - intros conn. vm_compute. intros [= <-]. reflexivity.
Defined.

(** ** The session orchestrator *)

Section Orchestrator.
Context {RT : Runtime}.

(** The [try] block assigns to the session only through
    [connect_database]. *)
Lemma main_try_state (world : Collaborators) (self : PharmaceuticalAnalytics) :
  snd (main_try world self)
  = snd (connect_database (mysql_connect world) self).
Proof.
  unfold main_try.
  unfold mbind, method_mbind, method_bind, mret, method_mret, method_ret, get_self.
  destruct (connect_database (mysql_connect world) self) as [[ok|e] s0];
    [|reflexivity].
  destruct ok; cbn [negb]; [|reflexivity].
  repeat step_call; reflexivity.
Qed.

Lemma main_try_inv (world : Collaborators) (self s : PharmaceuticalAnalytics)
  (report : string) :
  main_try world self = (Ok (Some report), s) ->
  connect_database (mysql_connect world) self = (Ok true, s)
  /\ draw_dashboard world s = Ok tt
  /\ generate_detailed_report s = Ok report
  /\ write_report world report = Ok tt.
Proof.
  unfold main_try.
  unfold mbind, method_mbind, method_bind, mret, method_mret, method_ret, get_self.
  destruct (connect_database (mysql_connect world) self) as [[ok|e] s0];
    [|discriminate].
  destruct ok; cbn [negb]; [|discriminate].
  repeat step_call; try discriminate.
  intros [= <- <-].
  repeat match goal with u : unit |- _ => destruct u end.
  auto.
Qed.

Lemma main_unfold (world : Collaborators) (config : gmap string value) :
  let opened := snd (connect_database (mysql_connect world) (init config)) in
  main world config
  = (match fst (main_try world (init config)) with
     | Ok written => Ok written
     | Raise _ => Ok None
     end,
     snd (close_connection opened)).
Proof.
  intros opened. unfold main, method_finally, method_try.
  pose proof (main_try_state world (init config)) as Hstate.
  fold opened in Hstate.
  destruct (main_try world (init config)) as [[written|e] s]; simpl in *;
    subst s;
    pose proof (close_connection_never_raises opened) as Hclose;
    destruct (close_connection opened) as [[[]|e'] s']; simpl in *;
    try discriminate; reflexivity.
Qed.

(** X7: no exception of class [Exception] leaves [main], whatever the
    driver, the dashboard, the file system and the server do: every error
    of the analysis is caught by its handler, and [close_connection] in the
    [finally] block does not raise. *)
Theorem main_never_raises (world : Collaborators) (config : gmap string value) :
  exists written, fst (main world config) = Ok written.
Proof.
  rewrite main_unfold. simpl.
  destruct (fst (main_try world (init config))); eauto.
Qed.

(** X8: [main] writes a report to the file only at the end of a complete
    run: [connect_database] returned [True], the dashboard was drawn
    without error, and the text written is the one
    [generate_detailed_report] returned on the opened session. *)
Theorem main_writes_only_a_complete_report (world : Collaborators)
  (config : gmap string value) (report : string) :
  fst (main world config) = Ok (Some report) ->
  exists opened,
    connect_database (mysql_connect world) (init config) = (Ok true, opened)
    /\ draw_dashboard world opened = Ok tt
    /\ generate_detailed_report opened = Ok report
    /\ write_report world report = Ok tt.
Proof.
  rewrite main_unfold. simpl.
  destruct (main_try world (init config)) as [[written|e] s] eqn:Htry;
    simpl; [|discriminate].
  intros [= ->]. exists s. apply main_try_inv, Htry.
Qed.

(** X9: when the handles of the driver close without error, [main] leaves
    the session disconnected on every path: a failed connection, an
    exception during the analysis, and a complete run. *)
Theorem main_closes_the_session (world : Collaborators)
  (config : gmap string value) :
  (forall conn,
     mysql_connect world config = Ok conn ->
     connection_close conn = Ok tt
     /\ forall cur, connection_cursor conn = Ok cur -> cursor_close cur = Ok tt) ->
  connected (snd (main world config)) = false.
Proof.
  intros Hclean. rewrite main_unfold. simpl.
  apply close_connection_disconnects.
  pose proof (connect_database_cases (mysql_connect world) (init config)) as H.
  cbn [db_config init] in H.
  destruct (mysql_connect world config) as [conn|e] eqn:Hconn.
  - destruct (Hclean conn eq_refl) as [Hc Hcur].
    destruct (connection_cursor conn) as [cur|e] eqn:Hcursor.
    + cbv zeta in H. rewrite H.
      destruct (config !! "database"); split; simpl;
        intros ? [= <-]; auto.
    + rewrite H. destruct (is_mysql_error e); split; simpl;
        intros ? [= <-] || intros ? [=]; auto.
  - rewrite H. destruct (is_mysql_error e); split; simpl; intros ? [=].
Qed.

End Orchestrator.

Lemma main_writes_only_a_complete_report_witness :
  fst (@main sample_runtime (sample_world idle_rep_db 19710) sample_config)
  = Ok (Some (join newline idle_rep_report))
  /\ @generate_detailed_report sample_runtime
       (session_over (test_connection idle_rep_db 19710))
     = Ok (join newline idle_rep_report).
Proof.
  assert (E : fst (@main sample_runtime (sample_world idle_rep_db 19710)
                     sample_config)
              = Ok (Some (join newline idle_rep_report)))
    by (vm_compute; reflexivity).
  split; [exact E|].
  destruct (main_writes_only_a_complete_report (RT := sample_runtime) _ _ _ E)
    as (opened & Hopen & _ & Hreport & _).
  apply (f_equal snd) in Hopen. simpl in Hopen. subst opened. exact Hreport.
Defined.

Lemma main_closes_the_session_witness :
  connected
    (snd (@main sample_runtime (sample_world two_orders_db 19710) sample_config))
  = false.
Proof.
  apply main_closes_the_session. intros conn [= <-]. split; [reflexivity|].
  intros cur [= <-]. reflexivity.
Defined.

(** ** The executive summary, continued *)

Lemma omap_Some_map {A B} (f : A -> B) (l : list A) :
  omap id (map (fun x => Some (f x)) l) = map f l.
Proof. induction l as [|x l IH]; simpl; [reflexivity|]. f_equal. exact IH. Qed.


Section SummaryShape.
Context {RT : Runtime}.

(** Every step a returned summary went through. *)
Lemma get_executive_summary_steps (self : PharmaceuticalAnalytics)
  (summary : gmap string value) :
  get_executive_summary self = Ok summary ->
  exists df1 df2 df3 df4 revenue orders reps stock average,
    execute_query self revenue_query None = Ok df1
    /\ first_or_zero float df1 "total_revenue" = Ok revenue
    /\ execute_query self orders_query None = Ok df2
    /\ first_or_zero int df2 "total_orders" = Ok (VInt orders)
    /\ execute_query self reps_query None = Ok df3
    /\ first_or_zero int df3 "active_reps" = Ok reps
    /\ execute_query self inventory_query None = Ok df4
    /\ first_or_zero float df4 "inventory_value" = Ok stock
    /\ summary = <["average_order_value" := average]>
                   (<["inventory_value" := stock]>
                      (<["active_representatives" := reps]>
                         (<["total_orders" := VInt orders]>
                            (<["total_revenue" := revenue]> ∅))))
    /\ (if 0 <? orders then truediv revenue (VInt orders) = Ok average
        else average = VInt 0).
Proof.
  unfold get_executive_summary. intros H.
  apply bind_Ok in H as (df1 & E1 & H).
  apply bind_Ok in H as (revenue & Hrev & H).
  apply bind_Ok in H as (df2 & E2 & H).
  apply bind_Ok in H as (orders & Hord & H).
  apply bind_Ok in H as (df3 & E3 & H).
  apply bind_Ok in H as (reps & Hreps & H).
  apply bind_Ok in H as (df4 & E4 & H).
  apply bind_Ok in H as (stock & Hstock & H).
  destruct (first_or_zero_int _ _ _ Hord) as [n ->].
  exists df1, df2, df3, df4, revenue, n, reps, stock.
  unfold dict_get in H.
  rewrite lookup_insert_ne, lookup_insert_ne, lookup_insert_eq in H by done.
  run_in H. rewrite gt_zero_int in H. run_in H.
  destruct (0 <? n) eqn:E.
  - rewrite lookup_insert_ne, lookup_insert_ne, lookup_insert_ne,
      lookup_insert_eq in H by done.
    run_in H. apply bind_Ok in H as (average & Havg & H). injection H as <-.
    exists average. repeat split; assumption.
  - run_in H. injection H as <-. exists (VInt 0).
    repeat split; assumption.
Qed.

(** The keys of a returned summary and the types of their values. *)
Lemma summary_shape (self : PharmaceuticalAnalytics)
  (summary : gmap string value) :
  get_executive_summary self = Ok summary ->
  dom summary
  = {[ "total_revenue"; "total_orders"; "active_representatives";
       "inventory_value"; "average_order_value" ]}
  /\ (exists n, summary !! "total_orders" = Some (VInt n))
  /\ (exists n, summary !! "active_representatives" = Some (VInt n))
  /\ (forall key,
        In key ["total_revenue"; "inventory_value"; "average_order_value"] ->
        exists x, summary !! key = Some x
                  /\ (x = VNaN \/ exists q, number x = Some q)).
Proof.
  intros H.
  apply get_executive_summary_steps in H
    as (df1 & df2 & df3 & df4 & revenue & orders & reps & stock & average
        & _ & Hrev & _ & _ & _ & Hreps & _ & Hstock & -> & Havg).
  pose proof (first_or_zero_float _ _ _ Hrev) as Hr.
  pose proof (first_or_zero_float _ _ _ Hstock) as Hs.
  destruct (first_or_zero_int _ _ _ Hreps) as [k ->].
  assert (Haverage : average = VNaN \/ exists q, number average = Some q).
  { destruct (0 <? orders) eqn:E.
    - rewrite truediv_quotient in Havg;
        [|assumption|apply Z.ltb_lt in E; lia].
      injection Havg as <-. unfold quotient.
      destruct (number revenue); simpl; eauto.
    - subst average. simpl. eauto. }
  split; [rewrite !dom_insert_L, dom_empty_L; set_solver|].
  split; [exists orders; rewrite !lookup_insert_ne by done; apply lookup_insert_eq|].
  split; [exists k; rewrite !lookup_insert_ne by done; apply lookup_insert_eq|].
  intros key [<- | [<- | [<- | []]]].
  - exists revenue. split; [|assumption].
    rewrite !lookup_insert_ne by done. apply lookup_insert_eq.
  - exists stock. split; [|assumption].
    rewrite !lookup_insert_ne by done. apply lookup_insert_eq.
  - exists average. split; [|assumption]. apply lookup_insert_eq.
Qed.

(** X10: every dictionary [get_executive_summary] returns has exactly the
    five keys [total_revenue], [total_orders], [active_representatives],
    [inventory_value] and [average_order_value]; the two counts are
    [int]s and the three amounts are numbers: an [int] or a float that
    denotes a number, or the float NaN (which [float] passes on when the
    cell it reads holds NaN). *)
Theorem summary_keys_and_types (self : PharmaceuticalAnalytics)
  (summary : gmap string value) :
  get_executive_summary self = Ok summary ->
  dom summary
  = {[ "total_revenue"; "total_orders"; "active_representatives";
       "inventory_value"; "average_order_value" ]}
  /\ (exists n, summary !! "total_orders" = Some (VInt n))
  /\ (exists n, summary !! "active_representatives" = Some (VInt n))
  /\ (forall key,
        In key ["total_revenue"; "inventory_value"; "average_order_value"] ->
        exists x, summary !! key = Some x
                  /\ (x = VNaN \/ exists q, number x = Some q)).
Proof. apply summary_shape. Qed.

(** A table whose first row holds [None] under [label]. *)
Lemma first_or_zero_None convert df row label :
  empty df = false -> iloc0 df = Ok row -> getitem row label = Ok VNone ->
  first_or_zero convert df label = convert VNone.
Proof.
  intros Hne Hrow Hcell. unfold first_or_zero. rewrite Hne. simpl.
  rewrite Hrow. run. rewrite Hcell. reflexivity.
Qed.

Lemma null_revenue_raises (self : PharmaceuticalAnalytics)
  (df : DataFrame) (row : Series) :
  execute_query self revenue_query None = Ok df ->
  empty df = false ->
  iloc0 df = Ok row ->
  getitem row "total_revenue" = Ok VNone ->
  get_executive_summary self = Raise TypeError.
Proof.
  intros Hdf Hne Hrow Hcell. unfold get_executive_summary.
  rewrite Hdf. run. rewrite (first_or_zero_None _ _ _ _ Hne Hrow Hcell).
  reflexivity.
Qed.

(** X11: when the revenue statement yields a row whose [total_revenue] is
    NULL, [get_executive_summary] raises [TypeError] from [float(None)]:
    the [.empty] test guards against a table without rows, not against a
    NULL cell. *)
Theorem summary_raises_on_null_revenue (self : PharmaceuticalAnalytics)
  (df : DataFrame) (row : Series) :
  execute_query self revenue_query None = Ok df ->
  empty df = false ->
  iloc0 df = Ok row ->
  getitem row "total_revenue" = Ok VNone ->
  get_executive_summary self = Raise TypeError.
Proof. apply null_revenue_raises. Qed.

Lemma no_order_kept (orders : list OrdersT.row) :
  (forall o, In o orders -> OrdersT.Order_Status o = "Cancelled") ->
  List.filter not_cancelled orders = [].
Proof.
  induction orders as [|o orders IH]; intros Hall; [reflexivity|].
  simpl. unfold not_cancelled at 1. rewrite (Hall o) by (left; reflexivity).
  simpl. apply IH. intros o' Ho'. apply Hall. right. exact Ho'.
Qed.

(** X12: over a database in which every order is cancelled, no order at
    all included, the revenue statement [SELECT SUM(...)] answers one row
    holding NULL, and [get_executive_summary] raises [TypeError]. *)
Theorem summary_raises_without_orders (self : PharmaceuticalAnalytics)
  (db : Database) :
  execute_query self revenue_query None = Ok (revenue_table db) ->
  (forall o, In o (Orders db) -> OrdersT.Order_Status o = "Cancelled") ->
  get_executive_summary self = Raise TypeError.
Proof.
  intros Hdf Hall.
  eapply null_revenue_raises; [exact Hdf| | |].
  - reflexivity.
  - reflexivity.
  - unfold revenue_table. rewrite (no_order_kept _ Hall). reflexivity.
Qed.

(** X13: when the revenue and order-count statements are answered from a
    database and [get_executive_summary] returns, some order is not
    cancelled, [total_orders] is the number of orders that are not
    cancelled, [total_revenue] the sum of their [Total_cost], and
    [average_order_value] the quotient of the two. *)
Theorem summary_from_database (self : PharmaceuticalAnalytics) (db : Database)
  (summary : gmap string value) :
  execute_query self revenue_query None = Ok (revenue_table db) ->
  execute_query self orders_query None = Ok (orders_table db) ->
  get_executive_summary self = Ok summary ->
  let kept := List.filter not_cancelled (Orders db) in
  let total := fold_left Qplus (map OrdersT.Total_cost kept) 0%Q in
  kept <> []
  /\ summary !! "total_orders" = Some (VInt (Z.of_nat (length kept)))
  /\ summary !! "total_revenue" = Some (VFloat total)
  /\ summary !! "average_order_value"
     = Some (VFloat (total / inject_Z (Z.of_nat (length kept)))).
Proof.
  intros E1 E2 H kept total.
  apply get_executive_summary_steps in H
    as (df1 & df2 & df3 & df4 & revenue & orders & reps & stock & average
        & E1' & Hrev & E2' & Hord & _ & _ & _ & _ & -> & Havg).
  rewrite E1 in E1'. injection E1' as <-.
  rewrite E2 in E2'. injection E2' as <-.
  unfold revenue_table, first_or_zero in Hrev. simpl in Hrev.
  unfold orders_table, first_or_zero in Hord. simpl in Hord.
  injection Hord as <-. fold kept in Hrev, Havg |- *.
  unfold sql_sum, non_null in Hrev.
  rewrite omap_Some_map in Hrev.
  destruct kept as [|o kept'] eqn:Hkept; [discriminate|].
  split; [discriminate|].
  simpl in Hrev. injection Hrev as <-.
  replace (0 <? Z.of_nat (length (o :: kept'))) with true in Havg
    by (symmetry; apply Z.ltb_lt; simpl; lia).
  unfold truediv in Havg. simpl in Havg.
  injection Havg as <-.
  split; [rewrite !lookup_insert_ne by done; apply lookup_insert_eq|].
  split; [rewrite !lookup_insert_ne by done; apply lookup_insert_eq|].
  apply lookup_insert_eq.
Qed.

End SummaryShape.

(** ** Inventory classification, continued *)

(** The two CASE expressions over integers. *)
Lemma Stock_Status_cases (q r : Z) :
  Stock_Status q r
  = if q =? 0 then OUT_OF_STOCK
    else if 10 * q <=? 3 * r then CRITICAL
    else if 10 * q <=? 6 * r then LOW
    else if q <=? r then MODERATE
    else ADEQUATE.
Proof.
  unfold Stock_Status.
  change 0.3%Q with (3 # 10)%Q. change 0.6%Q with (6 # 10)%Q.
  rewrite !Qle_bool_tenths. reflexivity.
Qed.

Lemma Action_Required_cases (q r : Z) :
  Action_Required q r
  = if q <=? r then REORDER_NOW
    else if 10 * q <=? 15 * r then MONITOR
    else SUFFICIENT.
Proof.
  unfold Action_Required. change 1.5%Q with (15 # 10)%Q.
  rewrite Qle_bool_tenths. reflexivity.
Qed.

Lemma severity_is_bucket_number (q r : Z) :
  severity q r = bucket_number (Stock_Status q r).
Proof.
  rewrite Stock_Status_cases. unfold severity.
  change 0.3%Q with (3 # 10)%Q. change 0.6%Q with (6 # 10)%Q.
  rewrite !Qle_bool_tenths. case_thresholds; reflexivity.
Qed.

(** X14: in every row of [analyze_inventory_status] whose reorder level is
    not negative, the two CASE columns agree: [Action_Required] is
    [REORDER_NOW] exactly when [Stock_Status] is not [ADEQUATE], so every
    [OUT_OF_STOCK] and [CRITICAL] row asks for a reorder. *)
Theorem action_agrees_with_status (db : Database) (row : InventoryRow.row) :
  In row (inventory_rows db) ->
  0 <= InventoryRow.Reorder_Level row ->
  (InventoryRow.Action_Required row = REORDER_NOW
   <-> InventoryRow.Stock_Status row <> ADEQUATE)
  /\ (InventoryRow.Stock_Status row = OUT_OF_STOCK
      \/ InventoryRow.Stock_Status row = CRITICAL ->
      InventoryRow.Action_Required row = REORDER_NOW).
Proof.
  intros Hin. apply inventory_rows_selected in Hin as (p & i & _ & _ & _ & ->).
  cbn [inventory_select InventoryRow.Current_Stock InventoryRow.Reorder_Level
       InventoryRow.Stock_Status InventoryRow.Action_Required].
  rewrite Stock_Status_cases, Action_Required_cases. intros Hr.
  case_thresholds; try lia;
    (split; [split; intros Hx | intros [Hx|Hx]]); congruence.
Qed.

(** X15: the [Stock_Status] CASE is monotone: with more stock (from a
    non-negative quantity) and a reorder level that is not higher, the
    status is never more severe, in the order [OUT_OF_STOCK], [CRITICAL],
    [LOW], [MODERATE], [ADEQUATE]. *)
Theorem status_monotone (stock stock' reorder reorder' : Z) :
  0 <= stock <= stock' ->
  reorder' <= reorder ->
  bucket_number (Stock_Status stock reorder)
  <= bucket_number (Stock_Status stock' reorder').
Proof.
  intros Hs Hr. rewrite !Stock_Status_cases.
  case_thresholds; simpl; lia.
Qed.

Lemma Sorted_In_weaken {A} (R1 R2 : A -> A -> Prop) (l : list A) :
  (forall x y, In x l -> In y l -> R1 x y -> R2 x y) ->
  Sorted R1 l -> Sorted R2 l.
Proof.
  intros Hweak Hsorted. induction Hsorted as [|x l Hl IH Hhd].
  - constructor.
  - constructor.
    + apply IH. intros a b Ha Hb. apply Hweak; right; assumption.
    + destruct Hhd as [|y l' Hxy]; constructor.
      apply Hweak; [left; reflexivity | right; left; reflexivity | exact Hxy].
Qed.

Lemma inventory_before_total (a b : InventoryRow.row) :
  inventory_before a b = false -> inventory_before b a = true.
Proof.
  unfold inventory_before.
  set (ra := severity _ _). set (rb := severity _ _).
  set (va := InventoryRow.Total_Value a). set (vb := InventoryRow.Total_Value b).
  intros H. apply orb_false_iff in H as [Hlt Hrest].
  apply Z.ltb_ge in Hlt.
  destruct (Z.ltb_spec rb ra) as [|Hge]; [reflexivity|].
  assert (Heq : ra = rb) by lia.
  rewrite Heq, Z.eqb_refl in Hrest |- *. simpl in *.
  apply Qle_bool_iff. destruct (Qlt_le_dec va vb) as [Hlt'|Hle].
  - apply Qlt_le_weak, Hlt'.
  - apply Qle_bool_iff in Hle. congruence.
Qed.

(** X16: the rows of [analyze_inventory_status] are the joined
    product-inventory pairs, each once, listed by severity of
    [Stock_Status], most severe first, and within one severity by
    [Total_Value], largest first. *)
Theorem inventory_rows_ordered (db : Database) :
  Sorted
    (fun a b =>
       let ra := bucket_number (InventoryRow.Stock_Status a) in
       let rb := bucket_number (InventoryRow.Stock_Status b) in
       ra < rb
       \/ (ra = rb
           /\ (InventoryRow.Total_Value b <= InventoryRow.Total_Value a)%Q))
    (inventory_rows db)
  /\ Permutation (inventory_rows db)
       (map inventory_select
          (inner_join
             (fun p i => ProductT.Product_ID p =? InventoryT.Product_ID i)
             (Product db) (Inventory db))).
Proof.
  split; [|apply merge_sort_Permutation].
  apply Sorted_In_weaken
    with (R1 := fun a b => Is_true (inventory_before a b)).
  - intros a b Ha Hb Hab.
    apply inventory_rows_selected in Ha as (pa & ia & _ & _ & _ & ->).
    apply inventory_rows_selected in Hb as (pb & ib & _ & _ & _ & ->).
    apply Is_true_true in Hab. unfold inventory_before in Hab.
    cbn [inventory_select InventoryRow.Current_Stock InventoryRow.Reorder_Level
         InventoryRow.Stock_Status InventoryRow.Total_Value] in *.
    rewrite !severity_is_bucket_number in Hab.
    apply orb_true_iff in Hab as [Hlt | Heq].
    + left. apply Z.ltb_lt, Hlt.
    + apply andb_true_iff in Heq as [Heq Hle]. right. split.
      * apply Z.eqb_eq, Heq.
      * apply Qle_bool_iff, Hle.
  - unfold inventory_rows, order_by. apply Sorted_merge_sort.
    intros a b. destruct (inventory_before a b) eqn:E.
    + left. exact I.
    + right. rewrite (inventory_before_total _ _ E). exact I.
Qed.

(** ** Joins and groups *)

Lemma in_inner_join {A B} (on : A -> B -> bool) (l : list A) (r : list B) a b :
  In (a, b) (inner_join on l r) <-> In a l /\ In b r /\ on a b = true.
Proof.
  unfold inner_join. rewrite in_flat_map. split.
  - intros (a' & Ha & Hin). apply in_map_iff in Hin as (b' & [= <- <-] & Hb).
    apply filter_In in Hb as [Hb Hon]. auto.
  - intros (Ha & Hb & Hon). exists a. split; [assumption|].
    apply in_map_iff. exists b. split; [reflexivity|].
    apply filter_In. auto.
Qed.

Lemma in_left_join {A B} (on : A -> B -> bool) (l : list A) (r : list B) a ob :
  In (a, ob) (left_join on l r)
  <-> In a l
      /\ match ob with
         | Some b => In b r /\ on a b = true
         | None => forall b, In b r -> on a b = false
         end.
Proof.
  unfold left_join. rewrite in_flat_map. split.
  - intros (a' & Ha & Hin).
    destruct (List.filter (on a') r) as [|b0 bs] eqn:Hf.
    + destruct Hin as [[= <- <-] | []]. split; [assumption|].
      intros b Hb. destruct (on a' b) eqn:Hon; [|reflexivity].
      assert (Hin : In b (List.filter (on a') r)) by (apply filter_In; auto).
      rewrite Hf in Hin. destruct Hin.
    + apply in_map_iff in Hin as (b & [= <- <-] & Hb).
      rewrite <- Hf in Hb. apply filter_In in Hb as [Hb Hon]. auto.
  - intros [Ha Hob]. exists a. split; [assumption|].
    destruct ob as [b|].
    + destruct Hob as [Hb Hon].
      assert (Hin : In b (List.filter (on a) r)) by (apply filter_In; auto).
      destruct (List.filter (on a) r) as [|b0 bs]; [destruct Hin|].
      apply in_map_iff. exists b. auto.
    + destruct (List.filter (on a) r) as [|b0 bs] eqn:Hf; [left; reflexivity|].
      assert (Hin : In b0 (List.filter (on a) r)) by (rewrite Hf; left; reflexivity).
      apply filter_In in Hin as [Hb Hon]. rewrite (Hob b0 Hb) in Hon.
      discriminate.
Qed.

Lemma left_join_covers {A B} (on : A -> B -> bool) (l : list A) (r : list B) a :
  In a l -> exists ob, In (a, ob) (left_join on l r).
Proof.
  intros Ha. destruct (List.filter (on a) r) as [|b bs] eqn:Hf.
  - exists None. apply in_left_join. split; [assumption|].
    intros b Hb. destruct (on a b) eqn:Hon; [|reflexivity].
    assert (Hin : In b (List.filter (on a) r)) by (apply filter_In; auto).
    rewrite Hf in Hin. destruct Hin.
  - exists (Some b). apply in_left_join. split; [assumption|].
    assert (Hin : In b (List.filter (on a) r)) by (rewrite Hf; left; reflexivity).
    apply filter_In in Hin. exact Hin.
Qed.

Lemma in_distinct {K} (eqb : K -> K -> bool) (ks : list K) k :
  In k (distinct eqb ks) -> In k ks.
Proof.
  induction ks as [|k0 ks IH]; simpl; [tauto|].
  intros [<- | Hin]; [left; reflexivity|].
  apply filter_In in Hin as [Hin _]. right. apply IH, Hin.
Qed.

Lemma distinct_covers {K} (eqb : K -> K -> bool) (ks : list K) k :
  (forall x, eqb x x = true) ->
  (forall x y z, eqb x y = true -> eqb y z = true -> eqb x z = true) ->
  In k ks -> exists k', In k' (distinct eqb ks) /\ eqb k' k = true.
Proof.
  intros Hrefl Htrans. induction ks as [|k0 ks IH]; simpl; [tauto|].
  intros [<- | Hin].
  - exists k0. split; [left; reflexivity | apply Hrefl].
  - destruct (IH Hin) as (k' & Hk' & Heq).
    destruct (eqb k0 k') eqn:E.
    + exists k0. split; [left; reflexivity|]. eapply Htrans; eassumption.
    + exists k'. split; [|assumption]. right. apply filter_In.
      rewrite E. auto.
Qed.

Lemma in_group_by {A K} (eqb : K -> K -> bool) (key : A -> K) (l : list A) g :
  In g (group_by eqb key l) ->
  (exists a, In a l /\ key a = fst g)
  /\ snd g = List.filter (fun a => eqb (fst g) (key a)) l.
Proof.
  unfold group_by. intros Hin. apply in_map_iff in Hin as (k & <- & Hk).
  simpl. split; [|reflexivity].
  apply in_distinct, in_map_iff in Hk as (a & <- & Ha). eauto.
Qed.

Lemma group_by_covers {A K} (eqb : K -> K -> bool) (key : A -> K) (l : list A) a :
  (forall x, eqb x x = true) ->
  (forall x y z, eqb x y = true -> eqb y z = true -> eqb x z = true) ->
  In a l ->
  exists g, In g (group_by eqb key l) /\ eqb (fst g) (key a) = true.
Proof.
  intros Hrefl Htrans Ha.
  destruct (distinct_covers eqb (map key l) (key a) Hrefl Htrans)
    as (k' & Hk' & Heq); [apply in_map, Ha|].
  exists (k', List.filter (fun x => eqb k' (key x)) l). split; [|exact Heq].
  unfold group_by. apply in_map_iff. exists k'. auto.
Qed.

(** ** Who is listed in the sales analysis *)

(** X17: every row of [analyze_sales_performance] is a representative of
    the [Sales_Representative] table with the region it belongs to, under
    the name, region name and rating stored there, and that representative
    has either no order at all or some order that is not cancelled. *)
Theorem sales_rows_listed (db : Database) (curdate : Z) (row : SalesRow.row) :
  In row (sales_rows db curdate) ->
  exists sr r,
    In sr (Sales_Representative db) /\ In r (Region db)
    /\ RepT.Region_ID sr = RegionT.Region_ID r
    /\ SalesRow.Representative_Name row = RepT.Name sr
    /\ SalesRow.Region_Name row = RegionT.Name r
    /\ SalesRow.Performance_Rating row = RepT.Performance_Rating sr
    /\ ((forall o, In o (Orders db) ->
           OrdersT.Representative_ID o <> RepT.Representative_ID sr)
        \/ exists o,
             In o (Orders db)
             /\ OrdersT.Representative_ID o = RepT.Representative_ID sr
             /\ OrdersT.Order_Status o <> "Cancelled").
Proof.
  unfold sales_rows. rewrite order_by_In, in_map_iff.
  intros ([k members] & <- & Hg).
  apply in_group_by in Hg as [([[[sr r] o] i] & Hj & Hkey) _].
  simpl in Hkey. subst k.
  apply filter_In in Hj as [Hj Hwhere].
  unfold sales_from in Hj.
  apply in_left_join in Hj as [Hj _].
  apply in_left_join in Hj as [Hj Ho].
  apply in_inner_join in Hj as (Hsr & Hr & Hregion).
  exists sr, r. simpl.
  repeat (split; [assumption || reflexivity || (apply Z.eqb_eq, Hregion)|]).
  destruct o as [o|].
  - right. destruct Ho as [Ho Hrep]. exists o.
    split; [assumption|]. split; [symmetry; apply Z.eqb_eq, Hrep|].
    unfold sales_where in Hwhere. simpl in Hwhere.
    intros Hc. rewrite Hc in Hwhere. discriminate.
  - left. intros o Hin Heq. specialize (Ho o Hin).
    rewrite <- Heq, Z.eqb_refl in Ho. discriminate.
Qed.

Lemma Qeq_bool_trans (x y z : Q) :
  Qeq_bool x y = true -> Qeq_bool y z = true -> Qeq_bool x z = true.
Proof.
  rewrite !Qeq_bool_iff. intros H1 H2. rewrite H1. exact H2.
Qed.

Lemma sales_key_eqb_refl k : sales_key_eqb k k = true.
Proof.
  destruct k as [[[id n] r] p]. simpl.
  rewrite Z.eqb_refl, !String.eqb_refl, Qeq_bool_refl. reflexivity.
Qed.

Lemma sales_key_eqb_true a b :
  sales_key_eqb a b = true ->
  a.1.1.1 = b.1.1.1 /\ a.1.1.2 = b.1.1.2 /\ a.1.2 = b.1.2
  /\ Qeq_bool a.2 b.2 = true.
Proof.
  destruct a as [[[id1 n1] r1] p1], b as [[[id2 n2] r2] p2]. simpl.
  rewrite !andb_true_iff, Z.eqb_eq, !String.eqb_eq. tauto.
Qed.

Lemma sales_key_eqb_trans a b c :
  sales_key_eqb a b = true -> sales_key_eqb b c = true ->
  sales_key_eqb a c = true.
Proof.
  intros H1 H2. apply sales_key_eqb_true in H1 as (E1 & E2 & E3 & E4).
  apply sales_key_eqb_true in H2 as (F1 & F2 & F3 & F4).
  destruct a as [[[id1 n1] r1] p1], b as [[[id2 n2] r2] p2],
    c as [[[id3 n3] r3] p3]. simpl in *. subst.
  rewrite Z.eqb_refl, !String.eqb_refl. simpl.
  eapply Qeq_bool_trans; eassumption.
Qed.

(** X18: conversely, every representative with a region who has no order,
    or some order that is not cancelled, has a row in
    [analyze_sales_performance]. With the previous property: a
    representative all of whose orders are cancelled is filtered out by the
    WHERE clause rather than listed with no sales. *)
Theorem sales_rows_complete (db : Database) (curdate : Z)
  (sr : RepT.row) (r : RegionT.row) :
  In sr (Sales_Representative db) -> In r (Region db) ->
  RepT.Region_ID sr = RegionT.Region_ID r ->
  (forall o, In o (Orders db) ->
     OrdersT.Representative_ID o <> RepT.Representative_ID sr)
  \/ (exists o,
        In o (Orders db)
        /\ OrdersT.Representative_ID o = RepT.Representative_ID sr
        /\ OrdersT.Order_Status o <> "Cancelled") ->
  exists row,
    In row (sales_rows db curdate)
    /\ SalesRow.Representative_Name row = RepT.Name sr
    /\ SalesRow.Region_Name row = RegionT.Name r.
Proof.
  intros Hsr Hr Hregion Horders.
  assert (Hpair : In (sr, r)
            (inner_join (fun sr r => RepT.Region_ID sr =? RegionT.Region_ID r)
               (Sales_Representative db) (Region db))).
  { apply in_inner_join. repeat split; try assumption. apply Z.eqb_eq, Hregion. }
  assert (Hord : exists o,
            In (sr, r, o)
              (left_join
                 (fun '(sr, r) o =>
                    RepT.Representative_ID sr =? OrdersT.Representative_ID o)
                 (inner_join
                    (fun sr r => RepT.Region_ID sr =? RegionT.Region_ID r)
                    (Sales_Representative db) (Region db))
                 (Orders db))
            /\ sales_where o = true).
  { destruct Horders as [Hnone | (o & Ho & Hrep & Hstatus)].
    - exists None. split; [|reflexivity].
      apply in_left_join. split; [assumption|].
      intros o Ho. apply Z.eqb_neq. intros Heq. apply (Hnone o Ho).
      symmetry. exact Heq.
    - exists (Some o). split.
      + apply in_left_join. split; [assumption|]. split; [assumption|].
        apply Z.eqb_eq. symmetry. exact Hrep.
      + unfold sales_where. simpl.
        destruct (String.eqb_spec (OrdersT.Order_Status o) "Cancelled");
          [contradiction | reflexivity]. }
  destruct Hord as (o & Ho & Hwhere).
  destruct (left_join_covers
              (fun '(sr, r, o) i =>
                 RepT.Representative_ID sr =? InteractionT.Representative_ID i)
              _ (Interaction db) _ Ho) as [i Hi].
  assert (Hj : In (sr, r, o, i)
            (List.filter (fun '(_, _, o, _) => sales_where o) (sales_from db))).
  { apply filter_In. split; [exact Hi | exact Hwhere]. }
  destruct (group_by_covers sales_key_eqb sales_key _ _
              sales_key_eqb_refl sales_key_eqb_trans Hj)
    as ([k members] & Hg & Heq).
  exists (sales_select curdate (k, members)). split.
  - unfold sales_rows. apply order_by_In, in_map, Hg.
  - apply sales_key_eqb_true in Heq as (_ & Hname & Hreg & _).
    destruct k as [[[id n] rn] p]. simpl in *. auto.
Qed.

(** ** Who is listed in the product analysis *)

Lemma product_key_eqb_true a b :
  product_key_eqb a b = true ->
  a.1.1.1.1 = b.1.1.1.1 /\ a.1.1.1.2 = b.1.1.1.2 /\ a.1.1.2 = b.1.1.2
  /\ Qeq_bool a.1.2 b.1.2 = true /\ a.2 = b.2.
Proof.
  destruct a as [[[[id1 n1] c1] p1] q1], b as [[[[id2 n2] c2] p2] q2]. simpl.
  rewrite !andb_true_iff, Z.eqb_eq, !String.eqb_eq.
  intros [[[[-> ->] ->] Hp] Hq]. repeat split; try assumption.
  destruct q1 as [x|], q2 as [y|]; try discriminate; [|reflexivity].
  apply Z.eqb_eq in Hq. congruence.
Qed.

Lemma product_key_eqb_refl k : product_key_eqb k k = true.
Proof.
  destruct k as [[[[id n] c] p] q]. simpl.
  rewrite Z.eqb_refl, !String.eqb_refl, Qeq_bool_refl. simpl.
  destruct q; [apply Z.eqb_refl | reflexivity].
Qed.

Lemma product_key_eqb_trans a b c :
  product_key_eqb a b = true -> product_key_eqb b c = true ->
  product_key_eqb a c = true.
Proof.
  intros H1 H2. apply product_key_eqb_true in H1 as (E1 & E2 & E3 & E4 & E5).
  apply product_key_eqb_true in H2 as (F1 & F2 & F3 & F4 & F5).
  destruct a as [[[[id1 n1] c1] p1] q1], b as [[[[id2 n2] c2] p2] q2],
    c as [[[[id3 n3] c3] p3] q3]. simpl in *. subst.
  rewrite Z.eqb_refl, !String.eqb_refl. simpl.
  rewrite (Qeq_bool_trans _ _ _ E4 F4). simpl.
  destruct q3; [apply Z.eqb_refl | reflexivity].
Qed.

(** X19: every product of the [Product] table has a row in
    [analyze_product_performance], under its name, category and price,
    whether or not it was ever ordered or is held in inventory: the
    statement has LEFT JOINs only and no WHERE clause. *)
Theorem every_product_listed (db : Database) (p : ProductT.row) :
  In p (Product db) ->
  exists row,
    In row (product_rows db)
    /\ ProductRow.Product_Name row = ProductT.Name p
    /\ ProductRow.Category row = ProductT.Category p
    /\ (ProductRow.Unit_Price row == ProductT.Price p)%Q.
Proof.
  intros Hp.
  destruct (left_join_covers
              (fun p inv => ProductT.Product_ID p =? InvolvementT.Product_ID inv)
              _ (Involvement db) _ Hp) as [inv Hinv].
  destruct (left_join_covers
              (fun '(p, inv) o =>
                 holds (sql_and
                          (sql_eq_int (option_map InvolvementT.Order_ID inv)
                                      (Some (OrdersT.Order_ID o)))
                          (sql_ne_str (Some (OrdersT.Order_Status o)) "Cancelled")))
              _ (Orders db) _ Hinv) as [o Ho].
  destruct (left_join_covers
              (fun '(p, inv, o) i =>
                 ProductT.Product_ID p =? InventoryT.Product_ID i)
              _ (Inventory db) _ Ho) as [i Hi].
  destruct (group_by_covers product_key_eqb product_key _ _
              product_key_eqb_refl product_key_eqb_trans Hi)
    as ([k members] & Hg & Heq).
  exists (product_select (k, members)). split.
  - unfold product_rows. apply order_by_In, in_map, Hg.
  - apply product_key_eqb_true in Heq as (_ & Hname & Hcat & Hprice & _).
    destruct k as [[[[id n] c] price] q]. simpl in *.
    repeat split; try assumption. apply Qeq_bool_iff, Hprice.
Qed.

Lemma sql_round2_nonneg (q : Q) : (0 <= q)%Q -> (0 <= sql_round2 q)%Q.
Proof.
  intros Hq. unfold sql_round2.
  assert (Hb : Qle_bool 0 q = true) by (apply Qle_bool_iff, Hq).
  rewrite Hb.
  assert (Hc : 0 <= Qfloor (Qabs q * 100 + (1 # 2))).
  { change 0 with (Qfloor 0). apply Qfloor_resp_le.
    apply Qle_trans with (Qabs q * 100)%Q.
    - apply Qmult_le_0_compat; [apply Qabs_nonneg | discriminate].
    - rewrite <- (Qplus_0_r (Qabs q * 100)) at 1.
      apply Qplus_le_r. discriminate. }
  set (cents := Qfloor _) in *. unfold Qle. cbn [Qnum Qden]. lia.
Qed.

(** X20: in every row of [analyze_product_performance], [Turnover_Ratio]
    is not negative, and it is [0] whenever the product has no inventory
    row, a stock that is not positive, or no order line: the CASE never
    divides by a stock of zero. *)
Theorem turnover_ratio_guarded (db : Database) (row : ProductRow.row) :
  In row (product_rows db) ->
  (0 <= ProductRow.Turnover_Ratio row)%Q
  /\ (ProductRow.Current_Stock row = None
      \/ (exists z, ProductRow.Current_Stock row = Some z /\ z <= 0)
      \/ ProductRow.Total_Quantity_Sold row = None ->
      ProductRow.Turnover_Ratio row = 0%Q).
Proof.
  unfold product_rows. rewrite order_by_In, in_map_iff.
  intros ([[[[[id n] c] price] stock] members] & <- & _).
  cbn [product_select ProductRow.Turnover_Ratio ProductRow.Current_Stock
       ProductRow.Total_Quantity_Sold].
  set (sold := sql_sum _). clearbody sold.
  destruct stock as [z|], sold as [s|]; simpl;
    repeat match goal with
           | |- context [Qle_bool ?a ?b] => destruct (Qle_bool a b) eqn:?; simpl
           end;
    try (split; [apply Qle_refl | reflexivity]).
  match goal with E : Qle_bool (inject_Z z) 0 = false |- _ => rename E into Ez end.
  match goal with E : Qle_bool s 0 = false |- _ => rename E into Es end.
  assert (Hz : 0 < z).
  { destruct (Z_lt_le_dec 0 z) as [|Hle]; [assumption|].
    assert (Qle_bool (inject_Z z) 0 = true); [|congruence].
    apply Qle_bool_iff. unfold Qle. simpl. lia. }
  assert (Hs : (0 <= s)%Q).
  { destruct (Qlt_le_dec 0 s) as [Hlt|Hle]; [apply Qlt_le_weak, Hlt|].
    apply Qle_bool_iff in Hle. congruence. }
  split.
  - apply sql_round2_nonneg. unfold Qdiv.
    apply Qmult_le_0_compat; [exact Hs|].
    apply Qinv_le_0_compat. unfold Qle. simpl. lia.
  - intros [H | [(z' & [= <-] & Hz') | H]]; try discriminate. lia.
Qed.

(** ** Orders counted once per interaction *)

Lemma filter_flat_map {A B} (f : B -> bool) (g : A -> list B) (l : list A) :
  List.filter f (flat_map g l) = flat_map (fun x => List.filter f (g x)) l.
Proof.
  induction l as [|x l IH]; simpl; [reflexivity|].
  rewrite List.filter_app, IH. reflexivity.
Qed.

Lemma flat_map_filter {A B} (keep : A -> bool) (g : A -> list B) (l : list A) :
  flat_map (fun x => if keep x then g x else []) l
  = flat_map g (List.filter keep l).
Proof.
  induction l as [|x l IH]; simpl; [reflexivity|].
  destruct (keep x); simpl; rewrite IH; reflexivity.
Qed.

Lemma filter_all {A} (f : A -> bool) (l : list A) :
  (forall x, In x l -> f x = true) -> List.filter f l = l.
Proof.
  induction l as [|x l IH]; simpl; intros H; [reflexivity|].
  rewrite (H x) by auto. f_equal. apply IH. auto.
Qed.

Lemma distinct_constant {K} (eqb : K -> K -> bool) (k : K) (ks : list K) :
  eqb k k = true -> (forall x, In x ks -> x = k) -> ks <> [] ->
  distinct eqb ks = [k].
Proof.
  intros Hrefl. induction ks as [|k0 ks IH]; intros Hall Hne; [congruence|].
  assert (k0 = k) as -> by (apply Hall; left; reflexivity).
  simpl. f_equal. destruct ks as [|k1 ks]; [reflexivity|].
  rewrite IH; [|intros x Hx; apply Hall; right; exact Hx|discriminate].
  simpl. rewrite Hrefl. reflexivity.
Qed.

Lemma fold_left_Qplus_acc (l : list Q) (a : Q) :
  (fold_left Qplus l a == a + fold_left Qplus l 0)%Q.
Proof.
  revert a. induction l as [|x l IH]; intros a; simpl.
  - ring.
  - rewrite IH, (IH (0 + x)%Q). ring.
Qed.

Lemma fold_left_Qplus_app (l1 l2 : list Q) :
  (fold_left Qplus (l1 ++ l2) 0
   == fold_left Qplus l1 0 + fold_left Qplus l2 0)%Q.
Proof.
  rewrite fold_left_app, fold_left_Qplus_acc. reflexivity.
Qed.

Lemma sum_repeated {A B} (cost : A -> Q) (copies : list B) (l : list A) :
  (fold_left Qplus (flat_map (fun o => map (fun _ => cost o) copies) l) 0
   == inject_Z (Z.of_nat (length copies)) * fold_left Qplus (map cost l) 0)%Q.
Proof.
  induction l as [|o l IH]; simpl.
  - ring.
  - rewrite fold_left_Qplus_app, IH.
    rewrite (fold_left_Qplus_acc (map cost l) (0 + cost o)).
    assert (Hcopies : (fold_left Qplus (map (fun _ => cost o) copies) 0
                       == inject_Z (Z.of_nat (length copies)) * cost o)%Q).
    { clear. induction copies as [|c copies IH]; [simpl; ring|].
      cbn [map fold_left length].
      rewrite fold_left_Qplus_acc, IH, Nat2Z.inj_succ.
      unfold Z.succ. rewrite inject_Z_plus. ring. }
    rewrite Hcopies. ring.
Qed.

Lemma left_join_constant {A B} (on : A -> B -> bool) (l : list A) (r bs : list B) :
  (forall a, In a l -> List.filter (on a) r = bs) -> bs <> [] ->
  left_join on l r = flat_map (fun a => map (fun b => (a, Some b)) bs) l.
Proof.
  intros Hsame Hne. unfold left_join.
  induction l as [|a l IH]; cbn [flat_map]; [reflexivity|].
  rewrite IH by (intros a' Ha'; apply Hsame; right; exact Ha').
  rewrite (Hsame a) by (left; reflexivity).
  destruct bs; [congruence | reflexivity].
Qed.

Lemma flat_map_map {A B C} (g : B -> list C) (h : A -> B) (l : list A) :
  flat_map g (map h l) = flat_map (fun x => g (h x)) l.
Proof. induction l as [|x l IH]; simpl; [reflexivity|]. rewrite IH. reflexivity. Qed.

Lemma map_flat_map {A B C} (f : B -> C) (g : A -> list B) (l : list A) :
  map f (flat_map g l) = flat_map (fun x => map f (g x)) l.
Proof.
  induction l as [|x l IH]; simpl; [reflexivity|].
  rewrite map_app, IH. reflexivity.
Qed.

Lemma flat_map_ext' {A B} (f g : A -> list B) (l : list A) :
  (forall x, f x = g x) -> flat_map f l = flat_map g l.
Proof. intros H. induction l as [|x l IH]; simpl; [reflexivity|]. rewrite H, IH. reflexivity. Qed.

Lemma sales_where_not_cancelled (o : OrdersT.row) :
  sales_where (Some o) = not_cancelled o.
Proof.
  unfold sales_where, not_cancelled. simpl.
  destruct (negb _); reflexivity.
Qed.

Lemma omap_id_Some {A} (l : list A) : omap id (map Some l) = l.
Proof. induction l as [|x l IH]; simpl; [reflexivity|]. f_equal. exact IH. Qed.

(** X21: in [analyze_sales_performance] the two LEFT JOINs multiply each
    other: for a representative with orders that are not cancelled and
    with recorded interactions, [Total_Sales] is the sum of those orders
    times the number of the interactions (shown for a database with one
    representative and one region). *)
Theorem sales_counted_per_interaction (db : Database) (curdate : Z)
  (sr : RepT.row) (r : RegionT.row) :
  Sales_Representative db = [sr] -> Region db = [r] ->
  RepT.Region_ID sr = RegionT.Region_ID r ->
  let mine :=
    List.filter (fun o => RepT.Representative_ID sr =? OrdersT.Representative_ID o)
                (Orders db) in
  let kept := List.filter not_cancelled mine in
  let met :=
    List.filter
      (fun i => RepT.Representative_ID sr =? InteractionT.Representative_ID i)
      (Interaction db) in
  kept <> [] -> met <> [] ->
  exists row total,
    sales_rows db curdate = [row]
    /\ SalesRow.Total_Sales row = Some total
    /\ (total == inject_Z (Z.of_nat (length met))
                 * fold_left Qplus (map OrdersT.Total_cost kept) 0)%Q.
Proof.
  intros Hreps Hregions Hregion mine kept met Hkept Hmet.
  assert (Hmine : mine <> []) by (intros E; apply Hkept; unfold kept; rewrite E; reflexivity).
  set (members :=
         flat_map (fun o => map (fun i => (sr, r, Some o, Some i)) met) kept).
  assert (Hfrom : List.filter (fun '(_, _, o, _) => sales_where o) (sales_from db)
                  = members).
  { unfold sales_from. rewrite Hreps, Hregions.
    assert (Hpairs :
              inner_join (fun sr r => RepT.Region_ID sr =? RegionT.Region_ID r)
                         [sr] [r] = [(sr, r)]).
    { unfold inner_join. simpl. rewrite Hregion, Z.eqb_refl. reflexivity. }
    rewrite Hpairs.
    rewrite (left_join_constant _ [(sr, r)] (Orders db) mine)
      by (try assumption; intros a [<- | []]; reflexivity).
    cbn [flat_map]. rewrite app_nil_r.
    rewrite (left_join_constant _ _ (Interaction db) met);
      [|intros a Ha; apply in_map_iff in Ha as (o & <- & _); reflexivity
       |assumption].
    rewrite flat_map_map, filter_flat_map.
    rewrite (flat_map_ext' _
               (fun o => if not_cancelled o
                         then map (fun i => (sr, r, Some o, Some i)) met
                         else [])).
    - rewrite flat_map_filter. reflexivity.
    - intros o. rewrite <- sales_where_not_cancelled.
      destruct (sales_where (Some o)) eqn:E.
      + apply filter_all. intros x Hx.
        apply in_map_iff in Hx as (i & <- & _). exact E.
      + clear -E. induction met as [|i met' IH]; simpl; [reflexivity|].
        rewrite E. exact IH. }
  assert (Hnonempty : members <> []).
  { unfold members. destruct kept as [|o kept']; [congruence|].
    destruct met as [|i met']; [congruence|]. discriminate. }
  set (k0 := sales_key (sr, r, None, None)).
  assert (Hkeys : forall j, In j members -> sales_key j = k0).
  { intros j Hj. unfold members in Hj. apply in_flat_map in Hj as (o & _ & Hj).
    apply in_map_iff in Hj as (i & <- & _). reflexivity. }
  assert (Hgroups : group_by sales_key_eqb sales_key members = [(k0, members)]).
  { unfold group_by.
    rewrite (distinct_constant sales_key_eqb k0).
    - cbn [map]. do 2 f_equal. apply filter_all.
      intros j Hj. rewrite (Hkeys j Hj). apply sales_key_eqb_refl.
    - apply sales_key_eqb_refl.
    - intros k Hk. apply in_map_iff in Hk as (j & <- & Hj). apply Hkeys, Hj.
    - destruct members; [congruence | discriminate]. }
  set (costs :=
         flat_map (fun o => map (fun _ : InteractionT.row => OrdersT.Total_cost o) met)
                  kept).
  assert (Hcosts : costs <> []).
  { unfold costs. destruct kept as [|o kept']; [congruence|].
    destruct met as [|i met']; [congruence|]. discriminate. }
  exists (sales_select curdate (k0, members)), (fold_left Qplus costs 0%Q).
  split; [|split].
  - unfold sales_rows. rewrite Hfrom, Hgroups. reflexivity.
  - cbn [sales_select k0 sales_key SalesRow.Total_Sales].
    unfold sql_sum, non_null.
    assert (Hcol : map (option_map OrdersT.Total_cost)
                     (map (fun '(_, _, o, _) => o) members)
                   = map Some costs).
    { unfold members, costs. rewrite !map_flat_map. apply flat_map_ext'.
      intros o. rewrite !map_map. reflexivity. }
    rewrite Hcol, omap_id_Some.
    destruct costs; [congruence | reflexivity].
  - apply sum_repeated.
Qed.

(** ** The sections of the report *)

Section ReportSections.
Context {RT : Runtime}.

Lemma mapM_length {A B} (f : A -> result B) (l : list A) (ys : list B) :
  mapM f l = Ok ys -> length ys = length l.
Proof.
  revert ys. induction l as [|x l IH]; simpl; intros ys H.
  - injection H as <-. reflexivity.
  - apply bind_Ok in H as (y & _ & H). apply bind_Ok in H as (k & Hk & H).
    injection H as <-. simpl. f_equal. apply IH, Hk.
Qed.

Lemma sales_line_colon row line :
  sales_line row = Ok line -> occurs ":"%char line = true.
Proof.
  unfold sales_line. intros H.
  apply bind_Ok in H as (name & _ & H).
  apply bind_Ok in H as (region & _ & H).
  apply bind_Ok in H as (sales & _ & H).
  apply bind_Ok in H as (amount & _ & H).
  injection H as <-.
  rewrite !occurs_app. simpl. rewrite !orb_true_r. reflexivity.
Qed.

Lemma alert_line_colon row line :
  alert_line row = Ok line -> occurs ":"%char line = true.
Proof.
  unfold alert_line. intros H.
  apply bind_Ok in H as (name & _ & H).
  apply bind_Ok in H as (stock & _ & H).
  apply bind_Ok in H as (status & _ & H).
  injection H as <-.
  rewrite !occurs_app. simpl. rewrite !orb_true_r. reflexivity.
Qed.

Lemma region_line_colon row line :
  region_line row = Ok line -> occurs ":"%char line = true.
Proof.
  unfold region_line. intros H.
  apply bind_Ok in H as (name & _ & H).
  apply bind_Ok in H as (revenue & _ & H).
  apply bind_Ok in H as (amount & _ & H).
  apply bind_Ok in H as (orders & _ & H).
  injection H as <-.
  rewrite !occurs_app. simpl. rewrite !orb_true_r. reflexivity.
Qed.

(** The shape of every report: a preamble of thirteen lines, the three
    optional sections and the closing rule. *)
Lemma report_lines_inv (self : PharmaceuticalAnalytics) (report : list string) :
  report_lines self = Ok report ->
  exists sales_data inventory_data status regional_data
         preamble sales alerts regional,
    analyze_sales_performance self = Ok sales_data
    /\ analyze_inventory_status self = Ok inventory_data
    /\ column inventory_data "Stock_Status" = Ok status
    /\ analyze_regional_performance self = Ok regional_data
    /\ report = preamble ++ sales ++ alerts ++ regional ++ [str_mul "=" 80]
    /\ length preamble = 13%nat
    /\ Forall (fun line => occurs ":"%char line = true
                           \/ In line [str_mul "=" 80;
                                       "PHARMACEUTICAL SUPPLY CHAIN ANALYTICS REPORT";
                                       ""; "EXECUTIVE SUMMARY"; str_mul "-" 50])
              preamble
    /\ (if negb (empty sales_data)
        then exists lines,
               mapM sales_line (iterrows (df_head 5 sales_data)) = Ok lines
               /\ sales = "TOP SALES PERFORMERS" :: str_mul "-" 50 :: lines ++ [""]
        else sales = [])
    /\ (let critical_items :=
          mask_rows inventory_data (isin ["CRITICAL"; "OUT_OF_STOCK"] status) in
        if negb (empty critical_items)
        then exists lines,
               mapM alert_line (iterrows critical_items) = Ok lines
               /\ alerts
                  = "CRITICAL INVENTORY ALERTS" :: str_mul "-" 50 :: lines ++ [""]
        else alerts = [])
    /\ (if negb (empty regional_data)
        then exists lines,
               mapM region_line (iterrows (df_head 3 regional_data)) = Ok lines
               /\ regional
                  = "REGIONAL PERFORMANCE SUMMARY" :: str_mul "-" 50
                    :: lines ++ [""]
        else regional = []).
Proof.
  unfold report_lines. intros H.
  apply bind_Ok in H as (summary & _ & H).
  apply bind_Ok in H as (total_revenue & _ & H).
  apply bind_Ok in H as (total_orders & _ & H).
  apply bind_Ok in H as (active & _ & H).
  apply bind_Ok in H as (average & _ & H).
  apply bind_Ok in H as (inventory_value & _ & H).
  apply bind_Ok in H as (sales_data & Hsd & H).
  apply bind_Ok in H as (report1 & Hsales & H).
  apply bind_Ok in H as (inventory_data & Hid & H).
  apply bind_Ok in H as (status & Hstatus & H).
  apply bind_Ok in H as (report2 & Halerts & H).
  apply bind_Ok in H as (regional_data & Hrd & H).
  apply bind_Ok in H as (report3 & Hregional & H).
  injection H as <-.
  exists sales_data, inventory_data, status, regional_data.
  match type of Hsales with
  | (if _ then _ ≫= (fun _ => mret (?pre ++ _)) else _) = _ =>
      exists pre
  end.
  exists (if negb (empty sales_data)
          then match mapM sales_line (iterrows (df_head 5 sales_data)) with
               | Ok lines => "TOP SALES PERFORMERS" :: str_mul "-" 50 :: lines ++ [""]
               | Raise _ => []
               end
          else []).
  exists (if negb (empty (mask_rows inventory_data
                            (isin ["CRITICAL"; "OUT_OF_STOCK"] status)))
          then match mapM alert_line
                       (iterrows (mask_rows inventory_data
                                    (isin ["CRITICAL"; "OUT_OF_STOCK"] status))) with
               | Ok lines =>
                   "CRITICAL INVENTORY ALERTS" :: str_mul "-" 50 :: lines ++ [""]
               | Raise _ => []
               end
          else []).
  exists (if negb (empty regional_data)
          then match mapM region_line (iterrows (df_head 3 regional_data)) with
               | Ok lines =>
                   "REGIONAL PERFORMANCE SUMMARY" :: str_mul "-" 50 :: lines ++ [""]
               | Raise _ => []
               end
          else []).
  repeat (split; [assumption|]).
  split.
  { destruct (negb (empty sales_data)).
    - apply bind_Ok in Hsales as (l1 & -> & Hsales). injection Hsales as <-.
      destruct (negb (empty (mask_rows _ _))).
      + apply bind_Ok in Halerts as (l2 & -> & Halerts). injection Halerts as <-.
        destruct (negb (empty regional_data)).
        * apply bind_Ok in Hregional as (l3 & -> & Hregional).
          injection Hregional as <-. same_list.
        * injection Hregional as <-. same_list.
      + injection Halerts as <-.
        destruct (negb (empty regional_data)).
        * apply bind_Ok in Hregional as (l3 & -> & Hregional).
          injection Hregional as <-. same_list.
        * injection Hregional as <-. same_list.
    - injection Hsales as <-.
      destruct (negb (empty (mask_rows _ _))).
      + apply bind_Ok in Halerts as (l2 & -> & Halerts). injection Halerts as <-.
        destruct (negb (empty regional_data)).
        * apply bind_Ok in Hregional as (l3 & -> & Hregional).
          injection Hregional as <-. same_list.
        * injection Hregional as <-. same_list.
      + injection Halerts as <-.
        destruct (negb (empty regional_data)).
        * apply bind_Ok in Hregional as (l3 & -> & Hregional).
          injection Hregional as <-. same_list.
        * injection Hregional as <-. same_list. }
  split; [reflexivity|].
  split.
  { repeat (constructor;
              [first [left; reflexivity | right; simpl; auto 10]|]).
    constructor. }
  split; [|split].
  - destruct (negb (empty sales_data)); [|reflexivity].
    apply bind_Ok in Hsales as (l1 & Hl1 & _). exists l1. rewrite Hl1. auto.
  - cbv zeta. destruct (negb (empty (mask_rows _ _))); [|reflexivity].
    apply bind_Ok in Halerts as (l2 & Hl2 & _). exists l2. rewrite Hl2. auto.
  - destruct (negb (empty regional_data)); [|reflexivity].
    apply bind_Ok in Hregional as (l3 & Hl3 & _). exists l3. rewrite Hl3. auto.
Qed.

Lemma in_optional_section (f : Series -> result string) (rows : list Series)
  (b : bool) (sec : list string) (title h : string) :
  (forall row line, f row = Ok line -> occurs ":"%char line = true) ->
  (if b
   then exists lines,
          mapM f rows = Ok lines
          /\ sec = title :: str_mul "-" 50 :: lines ++ [""]
   else sec = []) ->
  occurs ":"%char h = false -> h <> str_mul "-" 50 -> h <> "" ->
  (In h sec <-> b = true /\ h = title).
Proof.
  intros Hf Hsec Hh Hrule Hblank. destruct b.
  - destruct Hsec as (lines & Hlines & ->). split.
    + intros [<- | [E | Hin]]; [auto | congruence |].
      apply in_app_or in Hin as [Hin | [E | []]]; [|congruence].
      exfalso.
      assert (Hcolon : Forall (fun l => occurs ":"%char l = true) lines)
        by (eapply mapM_Forall; [exact Hf | exact Hlines]).
      rewrite List.Forall_forall in Hcolon. apply Hcolon in Hin. congruence.
    + intros [_ ->]. left. reflexivity.
  - subst sec. split; [intros [] | intros [E _]; discriminate].
Qed.

Lemma not_in_preamble (preamble : list string) (h : string) :
  Forall (fun line => occurs ":"%char line = true
                      \/ In line [str_mul "=" 80;
                                  "PHARMACEUTICAL SUPPLY CHAIN ANALYTICS REPORT";
                                  ""; "EXECUTIVE SUMMARY"; str_mul "-" 50])
         preamble ->
  occurs ":"%char h = false ->
  ~ In h [str_mul "=" 80; "PHARMACEUTICAL SUPPLY CHAIN ANALYTICS REPORT";
          ""; "EXECUTIVE SUMMARY"; str_mul "-" 50] ->
  ~ In h preamble.
Proof.
  intros Hpre Hh Hfixed Hin. rewrite List.Forall_forall in Hpre.
  destruct (Hpre h Hin) as [Hc | Hf]; [congruence | contradiction].
Qed.

(** X22: in the list of lines [generate_detailed_report] joins, each of
    the three section headers occurs exactly when its table has a row:
    the sales and regional tables as returned, the inventory table after
    the CRITICAL / OUT_OF_STOCK filter. No other line, a data line
    included, can be mistaken for a header. *)
Theorem report_section_headers (self : PharmaceuticalAnalytics)
  (report : list string) (sales_data inventory_data regional_data : DataFrame)
  (status : list value) :
  report_lines self = Ok report ->
  analyze_sales_performance self = Ok sales_data ->
  analyze_inventory_status self = Ok inventory_data ->
  column inventory_data "Stock_Status" = Ok status ->
  analyze_regional_performance self = Ok regional_data ->
  let critical_items :=
    mask_rows inventory_data (isin ["CRITICAL"; "OUT_OF_STOCK"] status) in
  (In "TOP SALES PERFORMERS" report <-> empty sales_data = false)
  /\ (In "CRITICAL INVENTORY ALERTS" report <-> empty critical_items = false)
  /\ (In "REGIONAL PERFORMANCE SUMMARY" report <-> empty regional_data = false).
Proof.
  intros Hreport Hsd Hid Hstatus Hrd critical_items.
  apply report_lines_inv in Hreport
    as (sd & id & st & rd & preamble & sales & alerts & regional
        & Hsd' & Hid' & Hstatus' & Hrd' & -> & _ & Hpre & Hs & Ha & Hr).
  rewrite Hsd in Hsd'. injection Hsd' as <-.
  rewrite Hid in Hid'. injection Hid' as <-.
  rewrite Hstatus in Hstatus'. injection Hstatus' as <-.
  rewrite Hrd in Hrd'. injection Hrd' as <-.
  cbv zeta in Ha. fold critical_items in Ha.
  assert (Hwhere : forall h,
            occurs ":"%char h = false ->
            ~ In h [str_mul "=" 80; "PHARMACEUTICAL SUPPLY CHAIN ANALYTICS REPORT";
                    ""; "EXECUTIVE SUMMARY"; str_mul "-" 50] ->
            (In h (preamble ++ sales ++ alerts ++ regional ++ [str_mul "=" 80])
             <-> (negb (empty sales_data) = true /\ h = "TOP SALES PERFORMERS")
                 \/ (negb (empty critical_items) = true
                     /\ h = "CRITICAL INVENTORY ALERTS")
                 \/ (negb (empty regional_data) = true
                     /\ h = "REGIONAL PERFORMANCE SUMMARY"))).
  { intros h Hh Hfixed.
    assert (Hrule : h <> str_mul "-" 50) by (intros E; apply Hfixed; simpl; auto 10).
    assert (Hblank : h <> "") by (intros E; apply Hfixed; simpl; auto 10).
    assert (Hclose : h <> str_mul "=" 80) by (intros E; apply Hfixed; simpl; auto 10).
    rewrite !in_app_iff.
    rewrite (in_optional_section _ _ _ _ _ h sales_line_colon Hs Hh Hrule Hblank).
    rewrite (in_optional_section _ _ _ _ _ h alert_line_colon Ha Hh Hrule Hblank).
    rewrite (in_optional_section _ _ _ _ _ h region_line_colon Hr Hh Hrule Hblank).
    pose proof (not_in_preamble _ h Hpre Hh Hfixed) as Hnot.
    split; [|tauto].
    intros [Hin | [Hin | [Hin | [Hin | [E | []]]]]]; try tauto. congruence. }
  assert (Hneg : forall df, negb (empty df) = true <-> empty df = false)
    by (intros df; destruct (empty df); simpl; split; congruence).
  split; [|split].
  - rewrite Hwhere;
      [|reflexivity|simpl; intros [E|[E|[E|[E|[E|[]]]]]]; discriminate E].
    rewrite <- Hneg. split; [|tauto].
    intros [[H _] | [[_ H] | [_ H]]]; [exact H | discriminate H | discriminate H].
  - rewrite Hwhere;
      [|reflexivity|simpl; intros [E|[E|[E|[E|[E|[]]]]]]; discriminate E].
    rewrite <- Hneg. split; [|tauto].
    intros [[_ H] | [[H _] | [_ H]]]; [discriminate H | exact H | discriminate H].
  - rewrite Hwhere;
      [|reflexivity|simpl; intros [E|[E|[E|[E|[E|[]]]]]]; discriminate E].
    rewrite <- Hneg. split; [|tauto].
    intros [[_ H] | [[_ H] | [H _]]]; [discriminate H | discriminate H | exact H].
Qed.

(** X23: the number of lines [generate_detailed_report] joins is 14
    plus, for each section present, 3 plus its data lines: at most five
    sales rows, every critical inventory row, at most three regions. *)
Theorem report_line_count (self : PharmaceuticalAnalytics)
  (report : list string) (sales_data inventory_data regional_data : DataFrame)
  (status : list value) :
  report_lines self = Ok report ->
  analyze_sales_performance self = Ok sales_data ->
  analyze_inventory_status self = Ok inventory_data ->
  column inventory_data "Stock_Status" = Ok status ->
  analyze_regional_performance self = Ok regional_data ->
  let critical_items :=
    mask_rows inventory_data (isin ["CRITICAL"; "OUT_OF_STOCK"] status) in
  let section (shown : bool) (lines : nat) : nat :=
    if shown then (3 + lines)%nat else 0%nat in
  length report
  = (14
     + section (negb (empty sales_data))
               (Nat.min 5 (length (rows sales_data)))
     + section (negb (empty critical_items)) (length (rows critical_items))
     + section (negb (empty regional_data))
               (Nat.min 3 (length (rows regional_data))))%nat.
Proof.
  intros Hreport Hsd Hid Hstatus Hrd critical_items section.
  apply report_lines_inv in Hreport
    as (sd & id & st & rd & preamble & sales & alerts & regional
        & Hsd' & Hid' & Hstatus' & Hrd' & -> & Hlen & _ & Hs & Ha & Hr).
  rewrite Hsd in Hsd'. injection Hsd' as <-.
  rewrite Hid in Hid'. injection Hid' as <-.
  rewrite Hstatus in Hstatus'. injection Hstatus' as <-.
  rewrite Hrd in Hrd'. injection Hrd' as <-.
  cbv zeta in Ha. fold critical_items in Ha.
  rewrite !length_app, Hlen. unfold section.
  assert (Hsales : length sales
                   = if negb (empty sales_data)
                     then (3 + Nat.min 5 (length (rows sales_data)))%nat
                     else 0%nat).
  { destruct (negb (empty sales_data)); [|subst; reflexivity].
    destruct Hs as (lines & Hlines & ->). apply mapM_length in Hlines.
    cbn [length]. rewrite length_app, Hlines. unfold iterrows, df_head.
    cbn [rows columns length]. rewrite length_map, length_firstn. lia. }
  assert (Halerts : length alerts
                    = if negb (empty critical_items)
                      then (3 + length (rows critical_items))%nat
                      else 0%nat).
  { destruct (negb (empty critical_items)); [|subst; reflexivity].
    destruct Ha as (lines & Hlines & ->). apply mapM_length in Hlines.
    cbn [length]. rewrite length_app, Hlines. unfold iterrows.
    cbn [length]. rewrite length_map. lia. }
  assert (Hregional : length regional
                      = if negb (empty regional_data)
                        then (3 + Nat.min 3 (length (rows regional_data)))%nat
                        else 0%nat).
  { destruct (negb (empty regional_data)); [|subst; reflexivity].
    destruct Hr as (lines & Hlines & ->). apply mapM_length in Hlines.
    cbn [length]. rewrite length_app, Hlines. unfold iterrows, df_head.
    cbn [rows columns length]. rewrite length_map, length_firstn. lia. }
  rewrite Hsales, Halerts, Hregional. cbn [length]. lia.
Qed.

End ReportSections.

(** ** When the report is returned *)

Section ReportReturned.
Context {RT : Runtime}.

Lemma mapM_returns {A B} (f : A -> result B) (l : list A) :
  Forall (fun x => exists y, f x = Ok y) l -> exists ys, mapM f l = Ok ys.
Proof.
  induction 1 as [|x l [y Hy] _ [ys IH]]; simpl; [eauto|].
  rewrite Hy. run. rewrite IH. run. eauto.
Qed.

Lemma format_2f_numeric (x : value) :
  numeric x = true -> exists text, format_2f x = Ok text.
Proof. destruct x; simpl; try discriminate; eauto. Qed.

Lemma format_2f_amount (x : value) :
  x = VNaN \/ (exists q, number x = Some q) -> exists text, format_2f x = Ok text.
Proof.
  intros [-> | [q Hq]]; [simpl; eauto|].
  destruct x; simpl in *; try discriminate; eauto.
Qed.

Lemma decimal_cell_numeric (col : list (option Q)) (x : option Q) :
  has_value col = true -> numeric (decimal_cell col x) = true.
Proof. intros H. destruct x; simpl; [reflexivity|]. rewrite H. reflexivity. Qed.

Lemma sales_line_returns (table : list SalesRow.row) (r : SalesRow.row) :
  has_value (map SalesRow.Total_Sales table) = true ->
  exists line, sales_line (mkSeries sales_columns (sales_cells table r)) = Ok line.
Proof.
  intros H. unfold sales_line, getitem. cbn [index values].
  change (lookup_label sales_columns (sales_cells table r) "Representative_Name")
    with (Ok (VStr (SalesRow.Representative_Name r))).
  change (lookup_label sales_columns (sales_cells table r) "Region_Name")
    with (Ok (VStr (SalesRow.Region_Name r))).
  change (lookup_label sales_columns (sales_cells table r) "Total_Sales")
    with (Ok (decimal_cell (map SalesRow.Total_Sales table)
                           (SalesRow.Total_Sales r))).
  run.
  destruct (format_2f_numeric _ (decimal_cell_numeric _ (SalesRow.Total_Sales r) H))
    as [amount ->].
  run. eauto.
Qed.

Lemma alert_line_returns (r : InventoryRow.row) :
  exists line, alert_line (mkSeries inventory_columns (inventory_cells r)) = Ok line.
Proof. unfold alert_line, getitem. cbn. eauto. Qed.

Lemma region_line_returns (row : Series) :
  region_row_ready row -> exists line, region_line row = Ok line.
Proof.
  intros (name & revenue & orders & Hname & Hrev & Hnum & Hord).
  unfold region_line. rewrite Hname. run. rewrite Hrev. run.
  destruct (format_2f_numeric _ Hnum) as [amount ->]. run.
  rewrite Hord. run. eauto.
Qed.

Lemma select_In (rs : list (list value)) (mask : list bool) (r : list value) :
  In r (select rs mask) -> In r rs.
Proof.
  revert mask. induction rs as [|r' rs IH]; intros [|b mask]; simpl; try tauto.
  destruct b; simpl; intros H.
  - destruct H as [-> | H]; [auto | right; eapply IH, H].
  - right. eapply IH, H.
Qed.

Lemma inventory_table_status (db : Database) :
  exists status, column (inventory_table db) "Stock_Status" = Ok status.
Proof.
  unfold column, inventory_table. cbn [columns rows].
  change (existsb (String.eqb "Stock_Status") inventory_columns) with true.
  cbv iota. eauto.
Qed.

Lemma bind_returns {A B} (m : result A) (f : A -> result B) :
  (exists a, m = Ok a) -> (forall a, exists b, f a = Ok b) ->
  exists b, m ≫= f = Ok b.
Proof. intros [a ->] Hf. run. apply Hf. Qed.

Lemma if_returns {A} (b : bool) (m1 m2 : result A) :
  (b = true -> exists a, m1 = Ok a) -> (b = false -> exists a, m2 = Ok a) ->
  exists a, (if b then m1 else m2) = Ok a.
Proof. destruct b; auto. Qed.

Lemma Forall_firstn {A} (P : A -> Prop) (n : nat) (l : list A) :
  Forall P l -> Forall P (firstn n l).
Proof.
  intros H. revert n. induction H as [|x l Hx _ IH]; intros [|n]; simpl;
    constructor; auto.
Qed.

(** The report is returned whenever the summary is, the sales and
    inventory statements are answered from a database in which some listed
    representative has a total, and the regional table, if it is not
    empty, holds printable rows. *)
Lemma report_returned (self : PharmaceuticalAnalytics) (db : Database)
  (curdate : Z) (summary : gmap string value) (regional_data : DataFrame) :
  get_executive_summary self = Ok summary ->
  analyze_sales_performance self = Ok (sales_table db curdate) ->
  sales_rows db curdate = []
  \/ has_value (map SalesRow.Total_Sales (sales_rows db curdate)) = true ->
  analyze_inventory_status self = Ok (inventory_table db) ->
  analyze_regional_performance self = Ok regional_data ->
  empty regional_data = true
  \/ Forall region_row_ready (iterrows (df_head 3 regional_data)) ->
  exists report,
    report_lines self = Ok report
    /\ generate_detailed_report self = Ok (join newline report).
Proof.
  intros Hsummary Hsales Htotals Hinv Hreg Hrows.
  assert (Hlines : exists report, report_lines self = Ok report).
  { destruct (summary_shape _ _ Hsummary) as (_ & [n Hn] & [k Hk] & Hamounts).
    destruct (Hamounts "total_revenue") as (x1 & Hx1 & Hnum1); [simpl; auto|].
    destruct (Hamounts "average_order_value") as (x2 & Hx2 & Hnum2); [simpl; auto|].
    destruct (Hamounts "inventory_value") as (x3 & Hx3 & Hnum3); [simpl; auto|].
    destruct (format_2f_amount _ Hnum1) as [t1 Ht1].
    destruct (format_2f_amount _ Hnum2) as [t2 Ht2].
    destruct (format_2f_amount _ Hnum3) as [t3 Ht3].
    unfold report_lines. rewrite Hsummary. run. unfold dict_get.
    rewrite Hx1, Hn, Hk, Hx2, Hx3. run. rewrite Ht1. run.
    cbn [format_comma]. run. rewrite Ht2. run. rewrite Ht3. run.
    rewrite Hsales. run.
    apply bind_returns.
    { apply if_returns; [intros Hshown | eauto].
      apply bind_returns; [|eauto].
      apply mapM_returns.
      unfold iterrows, df_head, sales_table. cbn [columns rows].
      apply Forall_map, Forall_firstn, Forall_map, List.Forall_forall.
      intros r _. apply sales_line_returns.
      destruct Htotals as [Hnone | Hsome]; [|exact Hsome].
      unfold sales_table in Hshown. rewrite Hnone in Hshown. discriminate. }
    intros report1. rewrite Hinv. run.
    destruct (inventory_table_status db) as [status ->]. run.
    apply bind_returns.
    { apply if_returns; [intros _ | eauto].
      apply bind_returns; [|eauto].
      apply mapM_returns.
      unfold iterrows, mask_rows, inventory_table. cbn [columns rows].
      apply Forall_map, List.Forall_forall. intros cells Hin.
      apply select_In, in_map_iff in Hin as (r & <- & _).
      apply alert_line_returns. }
    intros report2. rewrite Hreg. run.
    apply bind_returns; [|eauto].
    apply if_returns; [intros Hshown | eauto].
    apply bind_returns; [|eauto].
    apply mapM_returns.
    destruct Hrows as [Hempty | Hready].
    - rewrite Hempty in Hshown. discriminate.
    - eapply Forall_impl; [exact Hready|]. apply region_line_returns. }
  destruct Hlines as [report Hreport]. exists report.
  split; [exact Hreport|].
  unfold generate_detailed_report. rewrite Hreport. reflexivity.
Qed.

Lemma sql_sum_some {A} (g : A -> option Q) (l : list A) :
  l <> [] -> (forall x, exists q, g x = Some q) ->
  exists q, sql_sum (map g l) = Some q.
Proof.
  destruct l as [|a l]; [contradiction|]. intros _ Hg.
  unfold sql_sum, non_null. simpl. destruct (Hg a) as [q ->]. simpl. eauto.
Qed.

Lemma of_decimal_number (x : option Q) (q : Q) :
  x = Some q -> number (of_decimal x) = Some q.
Proof. intros ->. reflexivity. Qed.

(** On a session over a server that holds [db] and answers the statements
    evaluated here, the report is returned as soon as some order is not
    cancelled, some product is in the inventory and some listed
    representative has a total. *)
Lemma report_returned_from_database (db : Database) (curdate : Z) :
  List.filter not_cancelled (Orders db) <> [] ->
  inner_join (fun p i => ProductT.Product_ID p =? InventoryT.Product_ID i)
             (Product db) (Inventory db) <> [] ->
  sales_rows db curdate = []
  \/ has_value (map SalesRow.Total_Sales (sales_rows db curdate)) = true ->
  exists report,
    report_lines (session_over (test_connection db curdate)) = Ok report
    /\ generate_detailed_report (session_over (test_connection db curdate))
       = Ok (join newline report).
Proof.
  intros Hkept Hstock Htotals.
  set (self := session_over (test_connection db curdate)).
  assert (Hsummary : exists summary, get_executive_summary self = Ok summary).
  { apply get_executive_summary_returns.
    intros query label df Hin Hdf. right.
    destruct Hin as [[= <- <-] | [[= <- <-] | [[= <- <-] | [[= <- <-] | []]]]];
      injection Hdf as <-.
    - destruct (sql_sum_some (fun o => Some (OrdersT.Total_cost o))
                  (List.filter not_cancelled (Orders db)) Hkept) as [q Hq];
        [eauto|].
      eexists _, _, q. split; [reflexivity|]. split; [reflexivity|].
      apply of_decimal_number, Hq.
    - eexists _, _, _. repeat split; reflexivity.
    - eexists _, _, _. repeat split; reflexivity.
    - destruct (sql_sum_some
                  (fun '(p, i) =>
                     Some (ProductT.Price p * inject_Z (InventoryT.Quantity i))%Q)
                  _ Hstock) as [q Hq]; [intros [p i]; eauto|].
      eexists _, _, q. split; [reflexivity|]. split; [reflexivity|].
      apply of_decimal_number, Hq. }
  destruct Hsummary as [summary Hsummary].
  apply (report_returned self db curdate summary DataFrame_new);
    try assumption; try reflexivity.
  left. reflexivity.
Qed.

End ReportReturned.

(** ** Examples for the further properties *)

Lemma summary_keys_and_types_witness :
  @get_executive_summary sample_runtime
    (session_over (test_connection two_orders_db 19710)) = Ok sample_summary
  /\ dom sample_summary
     = {[ "total_revenue"; "total_orders"; "active_representatives";
          "inventory_value"; "average_order_value" ]}.
Proof.
  assert (E : @get_executive_summary sample_runtime
                (session_over (test_connection two_orders_db 19710))
              = Ok sample_summary) by (vm_compute; reflexivity).
  split; [exact E|].
  destruct (summary_keys_and_types (RT := sample_runtime) _ _ E) as [Hdom _].
  exact Hdom.
Defined.

Lemma summary_raises_on_null_revenue_witness :
  @get_executive_summary sample_runtime
    (session_over (test_connection cancelled_line_db 19710))
  = Raise TypeError.
Proof.
  apply (summary_raises_on_null_revenue (RT := sample_runtime) _
           (revenue_table cancelled_line_db)
           (mkSeries ["total_revenue"] [VNone])).
  - vm_compute. reflexivity.
  - reflexivity.
  - reflexivity.
  - reflexivity.
Defined.

Lemma summary_raises_without_orders_witness :
  @get_executive_summary sample_runtime
    (session_over (test_connection negative_reorder_db 19710))
  = Raise TypeError.
Proof.
  apply (summary_raises_without_orders (RT := sample_runtime) _
           negative_reorder_db).
  - vm_compute. reflexivity.
  - intros o [].
Defined.

Lemma summary_from_database_witness :
  sample_summary !! "total_orders" = Some (VInt 1)
  /\ sample_summary !! "total_revenue" = Some (VFloat (0 + 100)).
Proof.
  assert (E : @get_executive_summary sample_runtime
                (session_over (test_connection two_orders_db 19710))
              = Ok sample_summary) by (vm_compute; reflexivity).
  destruct (summary_from_database (RT := sample_runtime)
              (session_over (test_connection two_orders_db 19710))
              two_orders_db sample_summary)
    as (_ & Horders & Hrevenue & _).
  - vm_compute. reflexivity.
  - vm_compute. reflexivity.
  - exact E.
  - split; [exact Horders | exact Hrevenue].
Defined.

Lemma action_agrees_with_status_witness :
  let row := inventory_select (ProductT.mk 3 "Heparin" "Anticoagulant" 12,
                               InventoryT.mk 3 0 25 "Aisle 2") in
  In row (inventory_rows three_reps_db)
  /\ InventoryRow.Action_Required row = REORDER_NOW.
Proof.
  intros row.
  assert (Hin : In row (inventory_rows three_reps_db))
    by (vm_compute; auto 10).
  split; [exact Hin|].
  destruct (action_agrees_with_status three_reps_db row Hin) as [_ Halert].
  - simpl. lia.
  - apply Halert. left. reflexivity.
Defined.

Lemma status_monotone_witness :
  bucket_number (Stock_Status 3 10) <= bucket_number (Stock_Status 12 8).
Proof. apply status_monotone; lia. Defined.

Lemma sales_rows_listed_witness :
  exists row sr r,
    In row (sales_rows two_orders_db 19710)
    /\ In sr (Sales_Representative two_orders_db)
    /\ In r (Region two_orders_db)
    /\ SalesRow.Representative_Name row = RepT.Name sr
    /\ SalesRow.Region_Name row = RegionT.Name r.
Proof.
  set (row := nth 0 (sales_rows two_orders_db 19710)
                  (SalesRow.mk "" "" 0 0 None None 0 None None)).
  assert (Hin : In row (sales_rows two_orders_db 19710))
    by (vm_compute; auto).
  destruct (sales_rows_listed two_orders_db 19710 row Hin)
    as (sr & r & Hsr & Hr & _ & Hname & Hregion & _).
  exists row, sr, r. auto.
Defined.

Lemma sales_rows_complete_witness :
  exists row,
    In row (sales_rows two_orders_db 19710)
    /\ SalesRow.Representative_Name row = "Asha Rao"
    /\ SalesRow.Region_Name row = "North".
Proof.
  apply (sales_rows_complete two_orders_db 19710
           (RepT.mk 10 "Asha Rao" 1 4.5) (RegionT.mk 1 "North")).
  - simpl. auto.
  - simpl. auto.
  - reflexivity.
  - right. exists (OrdersT.mk 1 10 100 "Delivered" 19700).
    split; [simpl; auto|]. split; [reflexivity | discriminate].
Defined.

Lemma sales_counted_per_interaction_witness :
  exists row total,
    sales_rows two_visits_db 19710 = [row]
    /\ SalesRow.Total_Sales row = Some total
    /\ (total == 300)%Q.
Proof.
  destruct (sales_counted_per_interaction two_visits_db 19710
              (RepT.mk 10 "Asha Rao" 1 4.5) (RegionT.mk 1 "North"))
    as (row & total & Hrows & Htotal & Heq);
    try reflexivity; try discriminate.
  exists row, total. split; [exact Hrows|]. split; [exact Htotal|].
  rewrite Heq. reflexivity.
Defined.

Lemma every_product_listed_witness :
  exists row,
    In row (product_rows cancelled_line_db)
    /\ ProductRow.Product_Name row = "Aspirin".
Proof.
  destruct (every_product_listed cancelled_line_db
              (ProductT.mk 1 "Aspirin" "Analgesic" 2.5))
    as (row & Hin & Hname & _).
  - simpl. auto.
  - exists row. split; assumption.
Defined.

Lemma turnover_ratio_guarded_witness :
  exists row,
    In row (product_rows three_reps_db)
    /\ (0 <= ProductRow.Turnover_Ratio row)%Q.
Proof.
  set (row := nth 0 (product_rows three_reps_db)
                  (ProductRow.mk "" "" 0 0 None None None None 0)).
  assert (Hin : In row (product_rows three_reps_db))
    by (vm_compute; auto 10).
  exists row. split; [exact Hin|].
  apply (turnover_ratio_guarded three_reps_db row Hin).
Defined.

Lemma report_section_headers_witness :
  @report_lines sample_runtime
    (session_over (test_connection idle_rep_db 19710)) = Ok idle_rep_report
  /\ In "TOP SALES PERFORMERS" idle_rep_report
  /\ In "Chen Li (North): $nan" idle_rep_report.
Proof.
  assert (E : @report_lines sample_runtime
                (session_over (test_connection idle_rep_db 19710))
              = Ok idle_rep_report) by (vm_compute; reflexivity).
  split; [exact E|]. split; [|simpl; auto 20].
  apply (report_section_headers (RT := sample_runtime)
           (session_over (test_connection idle_rep_db 19710))
           idle_rep_report (sales_table idle_rep_db 19710)
           (inventory_table idle_rep_db) DataFrame_new [VStr "ADEQUATE"]);
    first [exact E | vm_compute; reflexivity].
Defined.

Lemma report_line_count_witness :
  @report_lines sample_runtime
    (session_over (test_connection idle_rep_db 19710)) = Ok idle_rep_report
  /\ length idle_rep_report = 19%nat.
Proof.
  assert (E : @report_lines sample_runtime
                (session_over (test_connection idle_rep_db 19710))
              = Ok idle_rep_report) by (vm_compute; reflexivity).
  split; [exact E|].
  rewrite (report_line_count (RT := sample_runtime)
             (session_over (test_connection idle_rep_db 19710))
             idle_rep_report (sales_table idle_rep_db 19710)
             (inventory_table idle_rep_db) DataFrame_new [VStr "ADEQUATE"]);
    first [exact E | vm_compute; reflexivity].
Defined.
